(** * xmlsec: the <dsig:KeyInfo/> processor (src/keyinfo.c)

    A shallow embedding of keyinfo.c and the properties of its
    specification that were checked against it.

    Embedded functions: [xmlSecKeyInfoNodeRead], [xmlSecKeyInfoNodeWrite],
    [xmlSecKeyInfoCtxCreate], [xmlSecKeyInfoCtxInitialize],
    [xmlSecKeyInfoCtxFinalize], [xmlSecKeyInfoCtxReset],
    [xmlSecKeyInfoCtxCreateEncCtx], [xmlSecKeyInfoCtxCopyUserPref],
    [xmlSecKeyInfoCtxDebugDump], [xmlSecKeyInfoCtxDebugXmlDump], the
    seven klass tables, and the handlers [xmlSecKeyDataNameXmlRead/Write],
    [xmlSecKeyDataValueXmlRead/Write],
    [xmlSecKeyDataRetrievalMethodXmlRead/Write]
    with [xmlSecKeyDataRetrievalMethodReadXmlResult],
    [xmlSecKeyDataKeyInfoReferenceXmlRead/Write] with
    [xmlSecKeyDataKeyInfoReferenceReadXmlResult],
    [xmlSecKeyDataEncryptedKeyXmlRead/Write],
    [xmlSecKeyDataDerivedKeyXmlRead/Write]
    and [xmlSecKeyDataAgreementMethodXmlRead/Write].  Not embedded:
    [xmlSecKeyInfoCtxDestroy], which leaves nothing behind, and the seven
    [...GetKlass] accessors, for which the klass ids stand.

    Conventions.
    - A C function that works on [*key] and [*keyInfoCtx] and returns an
      [int] becomes a function returning the triple (status, key, context); a
      write handler, which works on the node instead of the key, returns
      (status, node, context).
    - [int] and [unsigned int] are [Z]; the recursion counters are only
      incremented under the guard [cur < max], so they cannot wrap around.
    - A pointer that may be [NULL] is an [option]; an assertion
      [xmlSecAssert2(p, -1)] on a value that can be wrong in the model (the
      handler id, the mode, [node->doc]) is the test it stands for.
    - A cursor [cur] over sibling nodes is the list of the siblings from
      [cur] on ([nil] is [NULL], the tail is [cur->next]).
    - The collaborators that live in other files of the library (key-data
      registry and method dispatch, keys manager, XML tree helpers and
      parser, transform engine, pointer lists, encryption engine) are the
      methods of the type classes of the part "Collaborators": the theorems
      hold for all their implementations.  What they report to the error
      sink of the library is not part of the state: a failure is the
      negative status.
    - The default build is modelled (neither [XMLSEC_NO_XMLENC] nor
      [XMLSEC_NO_X509] is defined). *)

From Stdlib Require Import ZArith List String Bool Lia DecimalString.
From Stdlib.Strings Require Import Byte.
Import ListNotations.

Set Warnings "-register-all".

Local Open Scope string_scope.
Local Open Scope list_scope.
Local Open Scope Z_scope.

(* ================================================================== *)
(** ** XML tree *)
(* ================================================================== *)

(** A libxml2 node.  An element carries its local name, the href of its
    resolved namespace (what [xmlSecGetNodeNsHref] returns), its attributes
    and its children in document order. *)
Inductive xmlNode : Type :=
| XmlElement (name : string) (ns : option string)
             (attrs : list (string * string)) (children : list xmlNode)
| XmlText (content : string)
| XmlComment (content : string).

Record xmlDoc : Type := { doc_children : list xmlNode }.

Definition isElementNode (n : xmlNode) : bool :=
  match n with XmlElement _ _ _ _ => true | _ => false end.

Definition node_name (n : xmlNode) : option string :=
  match n with XmlElement nm _ _ _ => Some nm | _ => None end.

Definition xmlSecGetNodeNsHref (n : xmlNode) : option string :=
  match n with XmlElement _ ns _ _ => ns | _ => None end.

Definition node_children (n : xmlNode) : list xmlNode :=
  match n with XmlElement _ _ _ ch => ch | _ => [] end.

Definition node_attrs (n : xmlNode) : list (string * string) :=
  match n with XmlElement _ _ at_ _ => at_ | _ => [] end.

(** [xmlStrEqual]: two [NULL]s are equal, a [NULL] differs from any string. *)
Definition xmlStrEqual (a b : option string) : bool :=
  match a, b with
  | None, None => true
  | Some x, Some y => String.eqb x y
  | _, _ => false
  end.

(** [xmlSecGetNextElementNode(cur)]: the first element node at or after
    [cur] among its siblings. *)
Fixpoint xmlSecGetNextElementNode (cur : list xmlNode) : list xmlNode :=
  match cur with
  | [] => []
  | n :: next => if isElementNode n then cur else xmlSecGetNextElementNode next
  end.

(** [xmlGetProp(node, name)]. *)
Fixpoint xmlGetProp_in (attrs : list (string * string)) (name : string)
  : option string :=
  match attrs with
  | [] => None
  | (k, v) :: rest => if String.eqb k name then Some v else xmlGetProp_in rest name
  end.

Definition xmlGetProp (node : xmlNode) (name : string) : option string :=
  xmlGetProp_in (node_attrs node) name.

(** [xmlSecCheckNodeName(cur, name, ns)]. *)
Definition xmlSecCheckNodeName (cur : xmlNode) (name : string) (ns : string) : bool :=
  xmlStrEqual (node_name cur) (Some name) &&
  xmlStrEqual (xmlSecGetNodeNsHref cur) (Some ns).

(** [xmlDocGetRootElement(doc)]. *)
Definition xmlDocGetRootElement (doc : xmlDoc) : option xmlNode :=
  match xmlSecGetNextElementNode (doc_children doc) with
  | [] => None
  | root :: _ => Some root
  end.

(** Modelled from the spec: the string constants of strings.c, which is not
    among the sources.  They are the element, attribute and namespace names
    of the W3C XMLDSig / XMLEnc schemas the spec refers to (section 6, "Wire
    formats"). *)
Definition xmlSecDSigNs := "http://www.w3.org/2000/09/xmldsig#".
Definition xmlSecDSig11Ns := "http://www.w3.org/2009/xmldsig11#".
Definition xmlSecEncNs := "http://www.w3.org/2001/04/xmlenc#".
Definition xmlSecEnc11Ns := "http://www.w3.org/2009/xmlenc11#".
Definition xmlSecNodeKeyInfo := "KeyInfo".
Definition xmlSecNodeKeyName := "KeyName".
Definition xmlSecNodeKeyValue := "KeyValue".
Definition xmlSecNodeRetrievalMethod := "RetrievalMethod".
Definition xmlSecNodeKeyInfoReference := "KeyInfoReference".
Definition xmlSecNodeEncryptedKey := "EncryptedKey".
Definition xmlSecNodeDerivedKey := "DerivedKey".
Definition xmlSecNodeAgreementMethod := "AgreementMethod".
Definition xmlSecNodeTransforms := "Transforms".
Definition xmlSecAttrType := "Type".
Definition xmlSecAttrURI := "URI".
Definition xmlSecHrefEncryptedKey := "http://www.w3.org/2001/04/xmlenc#EncryptedKey".
Definition xmlSecHrefDerivedKey := "http://www.w3.org/2009/xmlenc11#DerivedKey".
Definition xmlSecHrefAgreementMethod := "http://www.w3.org/2001/04/xmlenc#AgreementMethod".
Definition xmlSecNameKeyName := "key-name".
Definition xmlSecNameKeyValue := "key-value".
Definition xmlSecNameRetrievalMethod := "retrieval-method".
Definition xmlSecNameKeyInfoReference := "key-info-reference".
Definition xmlSecNameEncryptedKey := "enc-key".
Definition xmlSecNameDerivedKey := "derived-key".
Definition xmlSecNameAgreementMethod := "agreement-method".

(* ================================================================== *)
(** ** Key-data classes, keys, requirements *)
(* ================================================================== *)

(** The data part of [xmlSecKeyDataKlass]: the descriptor fields the KeyInfo
    processor reads.  The method slots ([xmlRead], [xmlWrite], [binRead], ...)
    are reached through the dispatch functions of [KeyDataOps] below. *)
Record xmlSecKeyDataKlass : Type := {
  klassName : string;
  klassUsage : Z;
  klassHref : option string;
  dataNodeName : option string;
  dataNodeNs : option string
}.

(** A [xmlSecKeyDataId] is a pointer to a klass; [xmlSecKeyDataIdUnknown] is
    [NULL]. *)
Definition xmlSecKeyDataId : Type := option xmlSecKeyDataKlass.
Definition xmlSecKeyDataIdUnknown : xmlSecKeyDataId := None.

Definition klass_eqb (a b : xmlSecKeyDataKlass) : bool :=
  String.eqb (klassName a) (klassName b) &&
  Z.eqb (klassUsage a) (klassUsage b) &&
  xmlStrEqual (klassHref a) (klassHref b) &&
  xmlStrEqual (dataNodeName a) (dataNodeName b) &&
  xmlStrEqual (dataNodeNs a) (dataNodeNs b).

(** Pointer comparison of two ids. *)
Definition id_eqb (a b : xmlSecKeyDataId) : bool :=
  match a, b with
  | None, None => true
  | Some x, Some y => klass_eqb x y
  | _, _ => false
  end.

(** Modelled from the spec: the usage bits of keysdata.h, which is not among
    the sources (section 3: "Usage bits include: KeyInfo-child,
    RetrievalMethod-XML-result, RetrievalMethod-binary-result,
    KeyValue-child"); one bit per usage and direction. *)
Definition xmlSecKeyDataUsageKeyInfoNodeRead : Z := 0x00001.
Definition xmlSecKeyDataUsageKeyInfoNodeWrite : Z := 0x00002.
Definition xmlSecKeyDataUsageKeyValueNodeRead : Z := 0x00004.
Definition xmlSecKeyDataUsageKeyValueNodeWrite : Z := 0x00008.
Definition xmlSecKeyDataUsageRetrievalMethodNodeXml : Z := 0x00010.
Definition xmlSecKeyDataUsageRetrievalMethodNodeBin : Z := 0x00020.
Definition xmlSecKeyDataUsageKeyInfoNode : Z :=
  Z.lor xmlSecKeyDataUsageKeyInfoNodeRead xmlSecKeyDataUsageKeyInfoNodeWrite.
Definition xmlSecKeyDataUsageKeyValueNode : Z :=
  Z.lor xmlSecKeyDataUsageKeyValueNodeRead xmlSecKeyDataUsageKeyValueNodeWrite.
Definition xmlSecKeyDataUsageRetrievalMethodNode : Z :=
  Z.lor xmlSecKeyDataUsageRetrievalMethodNodeXml xmlSecKeyDataUsageRetrievalMethodNodeBin.

(** The klass tables of keyinfo.c. *)
Definition xmlSecKeyDataNameKlass : xmlSecKeyDataKlass :=
  {| klassName := xmlSecNameKeyName;
     klassUsage := Z.lor xmlSecKeyDataUsageKeyInfoNode xmlSecKeyDataUsageRetrievalMethodNodeXml;
     klassHref := None;
     dataNodeName := Some xmlSecNodeKeyName;
     dataNodeNs := Some xmlSecDSigNs |}.

Definition xmlSecKeyDataValueKlass : xmlSecKeyDataKlass :=
  {| klassName := xmlSecNameKeyValue;
     klassUsage := Z.lor xmlSecKeyDataUsageKeyInfoNode xmlSecKeyDataUsageRetrievalMethodNodeXml;
     klassHref := None;
     dataNodeName := Some xmlSecNodeKeyValue;
     dataNodeNs := Some xmlSecDSigNs |}.

Definition xmlSecKeyDataRetrievalMethodKlass : xmlSecKeyDataKlass :=
  {| klassName := xmlSecNameRetrievalMethod;
     klassUsage := Z.lor xmlSecKeyDataUsageKeyInfoNode xmlSecKeyDataUsageRetrievalMethodNodeXml;
     klassHref := None;
     dataNodeName := Some xmlSecNodeRetrievalMethod;
     dataNodeNs := Some xmlSecDSigNs |}.

Definition xmlSecKeyDataKeyInfoReferenceKlass : xmlSecKeyDataKlass :=
  {| klassName := xmlSecNameKeyInfoReference;
     klassUsage := Z.lor xmlSecKeyDataUsageKeyInfoNode xmlSecKeyDataUsageRetrievalMethodNodeXml;
     klassHref := None;
     dataNodeName := Some xmlSecNodeKeyInfoReference;
     dataNodeNs := Some xmlSecDSig11Ns |}.

Definition xmlSecKeyDataEncryptedKeyKlass : xmlSecKeyDataKlass :=
  {| klassName := xmlSecNameEncryptedKey;
     klassUsage := Z.lor xmlSecKeyDataUsageKeyInfoNode xmlSecKeyDataUsageRetrievalMethodNodeXml;
     klassHref := Some xmlSecHrefEncryptedKey;
     dataNodeName := Some xmlSecNodeEncryptedKey;
     dataNodeNs := Some xmlSecEncNs |}.

Definition xmlSecKeyDataDerivedKeyKlass : xmlSecKeyDataKlass :=
  {| klassName := xmlSecNameDerivedKey;
     klassUsage := Z.lor xmlSecKeyDataUsageKeyInfoNode xmlSecKeyDataUsageRetrievalMethodNodeXml;
     klassHref := Some xmlSecHrefDerivedKey;
     dataNodeName := Some xmlSecNodeDerivedKey;
     dataNodeNs := Some xmlSecEnc11Ns |}.

Definition xmlSecKeyDataAgreementMethodKlass : xmlSecKeyDataKlass :=
  {| klassName := xmlSecNameAgreementMethod;
     klassUsage := Z.lor xmlSecKeyDataUsageKeyInfoNode xmlSecKeyDataUsageRetrievalMethodNodeXml;
     klassHref := Some xmlSecHrefAgreementMethod;
     dataNodeName := Some xmlSecNodeAgreementMethod;
     dataNodeNs := Some xmlSecEncNs |}.

Definition xmlSecKeyDataNameId : xmlSecKeyDataId := Some xmlSecKeyDataNameKlass.
Definition xmlSecKeyDataValueId : xmlSecKeyDataId := Some xmlSecKeyDataValueKlass.
Definition xmlSecKeyDataRetrievalMethodId : xmlSecKeyDataId :=
  Some xmlSecKeyDataRetrievalMethodKlass.
Definition xmlSecKeyDataKeyInfoReferenceId : xmlSecKeyDataId :=
  Some xmlSecKeyDataKeyInfoReferenceKlass.
Definition xmlSecKeyDataEncryptedKeyId : xmlSecKeyDataId :=
  Some xmlSecKeyDataEncryptedKeyKlass.
Definition xmlSecKeyDataDerivedKeyId : xmlSecKeyDataId :=
  Some xmlSecKeyDataDerivedKeyKlass.
Definition xmlSecKeyDataAgreementMethodId : xmlSecKeyDataId :=
  Some xmlSecKeyDataAgreementMethodKlass.

(** A list of key-data ids ([xmlSecPtrList] of [xmlSecKeyDataId]). *)
Definition xmlSecKeyDataIdList : Type := list xmlSecKeyDataKlass.

Definition xmlSecPtrListGetSize {A : Type} (l : list A) : Z := Z.of_nat (List.length l).

(** Modelled from the spec: [xmlSecKeyDataIdListFindByNode] of keysdata.c,
    which is not among the sources (section 4.2: find-by-(localname,
    namespace, usage-bit); "Matching is case-sensitive on local name;
    namespace match is by exact URI string.  When multiple candidates match,
    the first registered wins"; section 3: "A handler is selected only if its
    usage-bitset intersects the requested dispatch usage"). *)
Fixpoint xmlSecKeyDataIdListFindByNode (lst : xmlSecKeyDataIdList)
    (nodeName nodeNs : option string) (usage : Z) : xmlSecKeyDataId :=
  match lst with
  | [] => xmlSecKeyDataIdUnknown
  | dataId :: rest =>
      if negb (Z.land usage (klassUsage dataId) =? 0) &&
         xmlStrEqual nodeName (dataNodeName dataId) &&
         xmlStrEqual nodeNs (dataNodeNs dataId)
      then Some dataId
      else xmlSecKeyDataIdListFindByNode rest nodeName nodeNs usage
  end.

(** Modelled from the spec: [xmlSecKeyDataIdListFindByHref] of keysdata.c,
    which is not among the sources (section 4.2: find-by-(href-URI,
    usage-bit), first registered wins). *)
Fixpoint xmlSecKeyDataIdListFindByHref (lst : xmlSecKeyDataIdList)
    (href : option string) (usage : Z) : xmlSecKeyDataId :=
  match lst with
  | [] => xmlSecKeyDataIdUnknown
  | dataId :: rest =>
      if negb (Z.land usage (klassUsage dataId) =? 0) &&
         match klassHref dataId with
         | Some h => xmlStrEqual href (Some h)
         | None => false
         end
      then Some dataId
      else xmlSecKeyDataIdListFindByHref rest href usage
  end.

(** Modelled from the spec: [xmlSecKeyDataIdListFind] of keysdata.c (1 when
    the id is in the list, 0 otherwise). *)
Definition xmlSecKeyDataIdListFind (lst : xmlSecKeyDataIdList)
    (dataId : xmlSecKeyDataId) : Z :=
  if existsb (fun k => id_eqb (Some k) dataId) lst then 1 else 0.

(** Octet buffers. *)
Definition xmlSecBuffer : Type := list byte.

(** Modelled from the spec: [xmlSecBufferGetData] / [xmlSecBufferGetSize] of
    buffer.c; the data pointer of an empty buffer is [NULL] (section 4.6,
    step 6: "Any non-empty result buffer is required; empty is an error"). *)
Definition xmlSecBufferGetData (buf : xmlSecBuffer) : option (list byte) :=
  match buf with [] => None | _ => Some buf end.
Definition xmlSecBufferGetSize (buf : xmlSecBuffer) : Z := Z.of_nat (List.length buf).

(** A key value: the material tagged by the id of its handler. *)
Record xmlSecKeyData : Type := {
  kd_id : xmlSecKeyDataId;
  kd_material : list byte
}.

(** [xmlSecKey]: an optional name, at most one value, auxiliary data. *)
Record xmlSecKey : Type := {
  key_name : option string;
  key_value : option xmlSecKeyData;
  key_dataList : list xmlSecKeyData
}.

Record xmlSecKeyReq : Type := {
  keyId : xmlSecKeyDataId;
  keyType : Z;
  keyUsage : Z;
  keyBitsSize : Z
}.

(** Modelled from the spec: the key accessors of keys.h / keys.c, which are
    not among the sources (section 3: the key exposes [is_valid], [empty],
    [copy_from(other)], [get/set_name], [get_value]; a key is valid when it
    holds a value tagged by a handler id).  Storage allocation inside
    [xmlSecKeyCopy] and [xmlSecKeySetName] is taken to succeed, so they
    return 0. *)
Definition xmlSecKeyIsValid (key : xmlSecKey) : bool :=
  match key_value key with
  | Some d => match kd_id d with Some _ => true | None => false end
  | None => false
  end.
Definition xmlSecKeyGetValue (key : xmlSecKey) : option xmlSecKeyData := key_value key.
Definition xmlSecKeyGetName (key : xmlSecKey) : option string := key_name key.
Definition xmlSecKeyEmpty (key : xmlSecKey) : xmlSecKey :=
  {| key_name := None; key_value := None; key_dataList := [] |}.
Definition xmlSecKeyCopy (dst src : xmlSecKey) : Z * xmlSecKey := (0, src).
Definition xmlSecKeySetName (key : xmlSecKey) (name : option string) : Z * xmlSecKey :=
  (0, {| key_name := name; key_value := key_value key; key_dataList := key_dataList key |}).

(** Modelled from the spec: the keys manager (keysmngr.h), "external store
    that maps a textual key identifier to a Key". *)
Definition xmlSecKeysMngr : Type := list (string * xmlSecKey).

(* ================================================================== *)
(** ** Processing contexts *)
(* ================================================================== *)

Inductive xmlSecKeyInfoMode : Type :=
| xmlSecKeyInfoModeRead
| xmlSecKeyInfoModeWrite.

Definition mode_eqb (a b : xmlSecKeyInfoMode) : bool :=
  match a, b with
  | xmlSecKeyInfoModeRead, xmlSecKeyInfoModeRead => true
  | xmlSecKeyInfoModeWrite, xmlSecKeyInfoModeWrite => true
  | _, _ => false
  end.

Inductive xmlSecTransformOperation : Type :=
| xmlSecTransformOperationNone
| xmlSecTransformOperationEncode
| xmlSecTransformOperationDecode
| xmlSecTransformOperationSign
| xmlSecTransformOperationVerify
| xmlSecTransformOperationEncrypt
| xmlSecTransformOperationDecrypt.

Inductive xmlEncCtxMode : Type :=
| xmlEncCtxModeEncryptedData
| xmlEncCtxModeEncryptedKey.

(** [xmlSecTransformCtx] as far as keyinfo.c looks into it: the user
    preferences (opaque here), the start URI and the [result] buffer. *)
Record xmlSecTransformCtx : Type := {
  tr_userPrefs : Z;
  tr_uri : option string;
  tr_result : option xmlSecBuffer
}.

(** [struct _xmlSecKeyInfoCtx] (fields in declaration order) and the part of
    [struct _xmlSecEncCtx] keyinfo.c touches: the mode and the two nested
    KeyInfo contexts; the rest of the encryption context is opaque. *)
Inductive xmlSecKeyInfoCtx : Type := Build_xmlSecKeyInfoCtx {
  userData : Z;
  flags : Z;
  flags2 : Z;
  keysMngr : option xmlSecKeysMngr;
  mode : xmlSecKeyInfoMode;
  enabledKeyData : xmlSecKeyDataIdList;
  base64LineSize : Z;
  retrievalMethodCtx : xmlSecTransformCtx;
  maxRetrievalMethodLevel : Z;
  keyInfoReferenceCtx : xmlSecTransformCtx;
  maxKeyInfoReferenceLevel : Z;
  encCtx : option xmlSecEncCtx;
  maxEncryptedKeyLevel : Z;
  certsVerificationTime : Z;
  certsVerificationDepth : Z;
  operation : xmlSecTransformOperation;
  curRetrievalMethodLevel : Z;
  curKeyInfoReferenceLevel : Z;
  curEncryptedKeyLevel : Z;
  keyReq : xmlSecKeyReq
}
with xmlSecEncCtx : Type := Build_xmlSecEncCtx {
  encMode : xmlEncCtxMode;
  keyInfoReadCtx : xmlSecKeyInfoCtx;
  keyInfoWriteCtx : xmlSecKeyInfoCtx;
  encUserPrefs : Z;
  encState : Z
}.

(** Field assignments [ctx->f = v], one per field of the context. *)
Definition set_userData (v : Z) (c : xmlSecKeyInfoCtx) : xmlSecKeyInfoCtx :=
  Build_xmlSecKeyInfoCtx
    v (flags c) (flags2 c) (keysMngr c) (mode c) (enabledKeyData c)
    (base64LineSize c) (retrievalMethodCtx c) (maxRetrievalMethodLevel c)
    (keyInfoReferenceCtx c) (maxKeyInfoReferenceLevel c) (encCtx c)
    (maxEncryptedKeyLevel c) (certsVerificationTime c)
    (certsVerificationDepth c) (operation c) (curRetrievalMethodLevel c)
    (curKeyInfoReferenceLevel c) (curEncryptedKeyLevel c) (keyReq c).

Definition set_flags (v : Z) (c : xmlSecKeyInfoCtx) : xmlSecKeyInfoCtx :=
  Build_xmlSecKeyInfoCtx
    (userData c) v (flags2 c) (keysMngr c) (mode c) (enabledKeyData c)
    (base64LineSize c) (retrievalMethodCtx c) (maxRetrievalMethodLevel c)
    (keyInfoReferenceCtx c) (maxKeyInfoReferenceLevel c) (encCtx c)
    (maxEncryptedKeyLevel c) (certsVerificationTime c)
    (certsVerificationDepth c) (operation c) (curRetrievalMethodLevel c)
    (curKeyInfoReferenceLevel c) (curEncryptedKeyLevel c) (keyReq c).

Definition set_flags2 (v : Z) (c : xmlSecKeyInfoCtx) : xmlSecKeyInfoCtx :=
  Build_xmlSecKeyInfoCtx
    (userData c) (flags c) v (keysMngr c) (mode c) (enabledKeyData c)
    (base64LineSize c) (retrievalMethodCtx c) (maxRetrievalMethodLevel c)
    (keyInfoReferenceCtx c) (maxKeyInfoReferenceLevel c) (encCtx c)
    (maxEncryptedKeyLevel c) (certsVerificationTime c)
    (certsVerificationDepth c) (operation c) (curRetrievalMethodLevel c)
    (curKeyInfoReferenceLevel c) (curEncryptedKeyLevel c) (keyReq c).

Definition set_keysMngr (v : option xmlSecKeysMngr)
    (c : xmlSecKeyInfoCtx) : xmlSecKeyInfoCtx :=
  Build_xmlSecKeyInfoCtx
    (userData c) (flags c) (flags2 c) v (mode c) (enabledKeyData c)
    (base64LineSize c) (retrievalMethodCtx c) (maxRetrievalMethodLevel c)
    (keyInfoReferenceCtx c) (maxKeyInfoReferenceLevel c) (encCtx c)
    (maxEncryptedKeyLevel c) (certsVerificationTime c)
    (certsVerificationDepth c) (operation c) (curRetrievalMethodLevel c)
    (curKeyInfoReferenceLevel c) (curEncryptedKeyLevel c) (keyReq c).

Definition set_mode (v : xmlSecKeyInfoMode) (c : xmlSecKeyInfoCtx) : xmlSecKeyInfoCtx :=
  Build_xmlSecKeyInfoCtx
    (userData c) (flags c) (flags2 c) (keysMngr c) v (enabledKeyData c)
    (base64LineSize c) (retrievalMethodCtx c) (maxRetrievalMethodLevel c)
    (keyInfoReferenceCtx c) (maxKeyInfoReferenceLevel c) (encCtx c)
    (maxEncryptedKeyLevel c) (certsVerificationTime c)
    (certsVerificationDepth c) (operation c) (curRetrievalMethodLevel c)
    (curKeyInfoReferenceLevel c) (curEncryptedKeyLevel c) (keyReq c).

Definition set_enabledKeyData (v : xmlSecKeyDataIdList)
    (c : xmlSecKeyInfoCtx) : xmlSecKeyInfoCtx :=
  Build_xmlSecKeyInfoCtx
    (userData c) (flags c) (flags2 c) (keysMngr c) (mode c) v
    (base64LineSize c) (retrievalMethodCtx c) (maxRetrievalMethodLevel c)
    (keyInfoReferenceCtx c) (maxKeyInfoReferenceLevel c) (encCtx c)
    (maxEncryptedKeyLevel c) (certsVerificationTime c)
    (certsVerificationDepth c) (operation c) (curRetrievalMethodLevel c)
    (curKeyInfoReferenceLevel c) (curEncryptedKeyLevel c) (keyReq c).

Definition set_base64LineSize (v : Z) (c : xmlSecKeyInfoCtx) : xmlSecKeyInfoCtx :=
  Build_xmlSecKeyInfoCtx
    (userData c) (flags c) (flags2 c) (keysMngr c) (mode c) (enabledKeyData c)
    v (retrievalMethodCtx c) (maxRetrievalMethodLevel c)
    (keyInfoReferenceCtx c) (maxKeyInfoReferenceLevel c) (encCtx c)
    (maxEncryptedKeyLevel c) (certsVerificationTime c)
    (certsVerificationDepth c) (operation c) (curRetrievalMethodLevel c)
    (curKeyInfoReferenceLevel c) (curEncryptedKeyLevel c) (keyReq c).

Definition set_retrievalMethodCtx (v : xmlSecTransformCtx)
    (c : xmlSecKeyInfoCtx) : xmlSecKeyInfoCtx :=
  Build_xmlSecKeyInfoCtx
    (userData c) (flags c) (flags2 c) (keysMngr c) (mode c) (enabledKeyData c)
    (base64LineSize c) v (maxRetrievalMethodLevel c) (keyInfoReferenceCtx c)
    (maxKeyInfoReferenceLevel c) (encCtx c) (maxEncryptedKeyLevel c)
    (certsVerificationTime c) (certsVerificationDepth c) (operation c)
    (curRetrievalMethodLevel c) (curKeyInfoReferenceLevel c)
    (curEncryptedKeyLevel c) (keyReq c).

Definition set_maxRetrievalMethodLevel (v : Z)
    (c : xmlSecKeyInfoCtx) : xmlSecKeyInfoCtx :=
  Build_xmlSecKeyInfoCtx
    (userData c) (flags c) (flags2 c) (keysMngr c) (mode c) (enabledKeyData c)
    (base64LineSize c) (retrievalMethodCtx c) v (keyInfoReferenceCtx c)
    (maxKeyInfoReferenceLevel c) (encCtx c) (maxEncryptedKeyLevel c)
    (certsVerificationTime c) (certsVerificationDepth c) (operation c)
    (curRetrievalMethodLevel c) (curKeyInfoReferenceLevel c)
    (curEncryptedKeyLevel c) (keyReq c).

Definition set_keyInfoReferenceCtx (v : xmlSecTransformCtx)
    (c : xmlSecKeyInfoCtx) : xmlSecKeyInfoCtx :=
  Build_xmlSecKeyInfoCtx
    (userData c) (flags c) (flags2 c) (keysMngr c) (mode c) (enabledKeyData c)
    (base64LineSize c) (retrievalMethodCtx c) (maxRetrievalMethodLevel c) v
    (maxKeyInfoReferenceLevel c) (encCtx c) (maxEncryptedKeyLevel c)
    (certsVerificationTime c) (certsVerificationDepth c) (operation c)
    (curRetrievalMethodLevel c) (curKeyInfoReferenceLevel c)
    (curEncryptedKeyLevel c) (keyReq c).

Definition set_maxKeyInfoReferenceLevel (v : Z)
    (c : xmlSecKeyInfoCtx) : xmlSecKeyInfoCtx :=
  Build_xmlSecKeyInfoCtx
    (userData c) (flags c) (flags2 c) (keysMngr c) (mode c) (enabledKeyData c)
    (base64LineSize c) (retrievalMethodCtx c) (maxRetrievalMethodLevel c)
    (keyInfoReferenceCtx c) v (encCtx c) (maxEncryptedKeyLevel c)
    (certsVerificationTime c) (certsVerificationDepth c) (operation c)
    (curRetrievalMethodLevel c) (curKeyInfoReferenceLevel c)
    (curEncryptedKeyLevel c) (keyReq c).

Definition set_encCtx (v : option xmlSecEncCtx)
    (c : xmlSecKeyInfoCtx) : xmlSecKeyInfoCtx :=
  Build_xmlSecKeyInfoCtx
    (userData c) (flags c) (flags2 c) (keysMngr c) (mode c) (enabledKeyData c)
    (base64LineSize c) (retrievalMethodCtx c) (maxRetrievalMethodLevel c)
    (keyInfoReferenceCtx c) (maxKeyInfoReferenceLevel c) v
    (maxEncryptedKeyLevel c) (certsVerificationTime c)
    (certsVerificationDepth c) (operation c) (curRetrievalMethodLevel c)
    (curKeyInfoReferenceLevel c) (curEncryptedKeyLevel c) (keyReq c).

Definition set_maxEncryptedKeyLevel (v : Z) (c : xmlSecKeyInfoCtx) : xmlSecKeyInfoCtx :=
  Build_xmlSecKeyInfoCtx
    (userData c) (flags c) (flags2 c) (keysMngr c) (mode c) (enabledKeyData c)
    (base64LineSize c) (retrievalMethodCtx c) (maxRetrievalMethodLevel c)
    (keyInfoReferenceCtx c) (maxKeyInfoReferenceLevel c) (encCtx c) v
    (certsVerificationTime c) (certsVerificationDepth c) (operation c)
    (curRetrievalMethodLevel c) (curKeyInfoReferenceLevel c)
    (curEncryptedKeyLevel c) (keyReq c).

Definition set_certsVerificationTime (v : Z)
    (c : xmlSecKeyInfoCtx) : xmlSecKeyInfoCtx :=
  Build_xmlSecKeyInfoCtx
    (userData c) (flags c) (flags2 c) (keysMngr c) (mode c) (enabledKeyData c)
    (base64LineSize c) (retrievalMethodCtx c) (maxRetrievalMethodLevel c)
    (keyInfoReferenceCtx c) (maxKeyInfoReferenceLevel c) (encCtx c)
    (maxEncryptedKeyLevel c) v (certsVerificationDepth c) (operation c)
    (curRetrievalMethodLevel c) (curKeyInfoReferenceLevel c)
    (curEncryptedKeyLevel c) (keyReq c).

Definition set_certsVerificationDepth (v : Z)
    (c : xmlSecKeyInfoCtx) : xmlSecKeyInfoCtx :=
  Build_xmlSecKeyInfoCtx
    (userData c) (flags c) (flags2 c) (keysMngr c) (mode c) (enabledKeyData c)
    (base64LineSize c) (retrievalMethodCtx c) (maxRetrievalMethodLevel c)
    (keyInfoReferenceCtx c) (maxKeyInfoReferenceLevel c) (encCtx c)
    (maxEncryptedKeyLevel c) (certsVerificationTime c) v (operation c)
    (curRetrievalMethodLevel c) (curKeyInfoReferenceLevel c)
    (curEncryptedKeyLevel c) (keyReq c).

Definition set_operation (v : xmlSecTransformOperation)
    (c : xmlSecKeyInfoCtx) : xmlSecKeyInfoCtx :=
  Build_xmlSecKeyInfoCtx
    (userData c) (flags c) (flags2 c) (keysMngr c) (mode c) (enabledKeyData c)
    (base64LineSize c) (retrievalMethodCtx c) (maxRetrievalMethodLevel c)
    (keyInfoReferenceCtx c) (maxKeyInfoReferenceLevel c) (encCtx c)
    (maxEncryptedKeyLevel c) (certsVerificationTime c)
    (certsVerificationDepth c) v (curRetrievalMethodLevel c)
    (curKeyInfoReferenceLevel c) (curEncryptedKeyLevel c) (keyReq c).

Definition set_curRetrievalMethodLevel (v : Z)
    (c : xmlSecKeyInfoCtx) : xmlSecKeyInfoCtx :=
  Build_xmlSecKeyInfoCtx
    (userData c) (flags c) (flags2 c) (keysMngr c) (mode c) (enabledKeyData c)
    (base64LineSize c) (retrievalMethodCtx c) (maxRetrievalMethodLevel c)
    (keyInfoReferenceCtx c) (maxKeyInfoReferenceLevel c) (encCtx c)
    (maxEncryptedKeyLevel c) (certsVerificationTime c)
    (certsVerificationDepth c) (operation c) v (curKeyInfoReferenceLevel c)
    (curEncryptedKeyLevel c) (keyReq c).

Definition set_curKeyInfoReferenceLevel (v : Z)
    (c : xmlSecKeyInfoCtx) : xmlSecKeyInfoCtx :=
  Build_xmlSecKeyInfoCtx
    (userData c) (flags c) (flags2 c) (keysMngr c) (mode c) (enabledKeyData c)
    (base64LineSize c) (retrievalMethodCtx c) (maxRetrievalMethodLevel c)
    (keyInfoReferenceCtx c) (maxKeyInfoReferenceLevel c) (encCtx c)
    (maxEncryptedKeyLevel c) (certsVerificationTime c)
    (certsVerificationDepth c) (operation c) (curRetrievalMethodLevel c) v
    (curEncryptedKeyLevel c) (keyReq c).

Definition set_curEncryptedKeyLevel (v : Z) (c : xmlSecKeyInfoCtx) : xmlSecKeyInfoCtx :=
  Build_xmlSecKeyInfoCtx
    (userData c) (flags c) (flags2 c) (keysMngr c) (mode c) (enabledKeyData c)
    (base64LineSize c) (retrievalMethodCtx c) (maxRetrievalMethodLevel c)
    (keyInfoReferenceCtx c) (maxKeyInfoReferenceLevel c) (encCtx c)
    (maxEncryptedKeyLevel c) (certsVerificationTime c)
    (certsVerificationDepth c) (operation c) (curRetrievalMethodLevel c)
    (curKeyInfoReferenceLevel c) v (keyReq c).

Definition set_keyReq (v : xmlSecKeyReq) (c : xmlSecKeyInfoCtx) : xmlSecKeyInfoCtx :=
  Build_xmlSecKeyInfoCtx
    (userData c) (flags c) (flags2 c) (keysMngr c) (mode c) (enabledKeyData c)
    (base64LineSize c) (retrievalMethodCtx c) (maxRetrievalMethodLevel c)
    (keyInfoReferenceCtx c) (maxKeyInfoReferenceLevel c) (encCtx c)
    (maxEncryptedKeyLevel c) (certsVerificationTime c)
    (certsVerificationDepth c) (operation c) (curRetrievalMethodLevel c)
    (curKeyInfoReferenceLevel c) (curEncryptedKeyLevel c) v.

Definition set_encMode (v : xmlEncCtxMode) (e : xmlSecEncCtx) : xmlSecEncCtx :=
  Build_xmlSecEncCtx v (keyInfoReadCtx e) (keyInfoWriteCtx e) (encUserPrefs e) (encState e).

Definition set_keyInfoReadCtx (v : xmlSecKeyInfoCtx) (e : xmlSecEncCtx) : xmlSecEncCtx :=
  Build_xmlSecEncCtx (encMode e) v (keyInfoWriteCtx e) (encUserPrefs e) (encState e).

Definition set_keyInfoWriteCtx (v : xmlSecKeyInfoCtx) (e : xmlSecEncCtx) : xmlSecEncCtx :=
  Build_xmlSecEncCtx (encMode e) (keyInfoReadCtx e) v (encUserPrefs e) (encState e).

(** Modelled from the spec: the flag bits of keyinfo.h, which is not among
    the sources (section 6, "Flag semantics (each is one bit)").  No theorem
    below depends on which bit a flag occupies. *)
Definition XMLSEC_KEYINFO_FLAGS_DONT_STOP_ON_KEY_FOUND : Z := 0x00000001.
Definition XMLSEC_KEYINFO_FLAGS_STOP_ON_UNKNOWN_CHILD : Z := 0x00000002.
Definition XMLSEC_KEYINFO_FLAGS_KEYVALUE_STOP_ON_UNKNOWN_CHILD : Z := 0x00000008.
Definition XMLSEC_KEYINFO_FLAGS_RETRMETHOD_STOP_ON_UNKNOWN_HREF : Z := 0x00000010.
Definition XMLSEC_KEYINFO_FLAGS_RETRMETHOD_STOP_ON_MISMATCH_HREF : Z := 0x00000020.
Definition XMLSEC_KEYINFO_FLAGS_ENCKEY_DONT_STOP_ON_FAILED_DECRYPTION : Z := 0x00001000.

(** Modelled from the spec: [xmlSecTransformUsageDSigTransform] of
    transforms.h, the usage passed when a <dsig:Transforms/> child is read. *)
Definition xmlSecTransformUsageDSigTransform : Z := 0x0001.

(** The test [(flags & FLAG) != 0]. *)
Definition flag_is_set (fl mask : Z) : bool := negb (Z.land fl mask =? 0).

(** Results of the read-side and of the write-side functions. *)
Definition readResult : Type := (Z * xmlSecKey * xmlSecKeyInfoCtx)%type.
Definition writeResult : Type := (Z * xmlNode * xmlSecKeyInfoCtx)%type.

Definition status_of {A B : Type} (r : Z * A * B) : Z := fst (fst r).
Definition key_of (r : readResult) : xmlSecKey := snd (fst r).
Definition node_of (r : writeResult) : xmlNode := snd (fst r).
Definition ctx_of {A : Type} (r : Z * A * xmlSecKeyInfoCtx) : xmlSecKeyInfoCtx := snd r.

(* ================================================================== *)
(** ** Collaborators *)
(* ================================================================== *)

(** The global key-data registry ([xmlSecKeyDataIdsGet()] of keysdata.c). *)
Class KeyDataRegistry : Type := {
  xmlSecKeyDataIdsGet : xmlSecKeyDataIdList
}.

(** Method dispatch of keysdata.c: each function calls the corresponding
    method slot of the klass [id] points to.  A read method may change the
    key and the context, a write method the node and the context. *)
Class KeyDataOps : Type := {
  xmlSecKeyDataXmlRead :
    xmlSecKeyDataId -> xmlSecKey -> xmlNode -> xmlSecKeyInfoCtx -> readResult;
  xmlSecKeyDataXmlWrite :
    xmlSecKeyDataId -> xmlSecKey -> xmlNode -> xmlSecKeyInfoCtx -> writeResult;
  xmlSecKeyDataBinRead :
    xmlSecKeyDataId -> xmlSecKey -> option (list byte) -> Z -> xmlSecKeyInfoCtx -> readResult
}.

(** Key matching (keys.c) and the keys manager (keysmngr.c). *)
Class KeysOps : Type := {
  xmlSecKeyReqInitialize : Z * xmlSecKeyReq;
  xmlSecKeyReqReset : xmlSecKeyReq -> xmlSecKeyReq;
  xmlSecKeyMatch : xmlSecKey -> option string -> xmlSecKeyReq -> Z;
  xmlSecKeyReqMatchKey : xmlSecKeyReq -> xmlSecKey -> Z;
  xmlSecKeysMngrFindKey : xmlSecKeysMngr -> string -> xmlSecKeyInfoCtx -> option xmlSecKey
}.

(** libxml2, xmltree.c and base64.c: the owning document of a node
    ([node->doc]), trimmed text content, emptiness test, text serialisation,
    the error-tolerant parser, and the default base64 line size. *)
Class XmlTreeOps : Type := {
  xmlSecBase64GetDefaultLineSize : Z;
  node_doc : xmlNode -> option xmlDoc;
  xmlSecGetNodeContentAndTrim : xmlNode -> option string;
  xmlSecIsEmptyNode : xmlNode -> Z;
  xmlSecNodeEncodeAndSetContent : xmlNode -> option string -> Z * xmlNode;
  xmlRecoverMemory : option (list byte) -> Z -> option xmlDoc
}.

(** The transform engine (transforms.c). *)
Class TransformEngine : Type := {
  xmlSecTransformCtxInitialize : Z * xmlSecTransformCtx;
  xmlSecTransformCtxReset : xmlSecTransformCtx -> xmlSecTransformCtx;
  xmlSecTransformCtxSetUri :
    xmlSecTransformCtx -> option string -> xmlNode -> Z * xmlSecTransformCtx;
  xmlSecTransformCtxNodesListRead :
    xmlSecTransformCtx -> xmlNode -> Z -> Z * xmlSecTransformCtx;
  xmlSecTransformCtxExecute :
    xmlSecTransformCtx -> option xmlDoc -> Z * xmlSecTransformCtx;
  xmlSecTransformCtxCopyUserPref :
    xmlSecTransformCtx -> xmlSecTransformCtx -> Z * xmlSecTransformCtx
}.

(** The pointer lists of list.c: initialisation yields a status and the new
    list, [xmlSecPtrListCopy(dst, src)] a status and the new contents of
    [dst]. *)
Class PtrListOps : Type := {
  xmlSecPtrListInitialize : Z * xmlSecKeyDataIdList;
  xmlSecPtrListCopy : xmlSecKeyDataIdList -> xmlSecKeyDataIdList -> Z * xmlSecKeyDataIdList
}.

(** The encryption engine (xmlenc.c).  The two key generators and the
    AgreementMethod writer receive the KeyInfo context, whose [encCtx] field
    is the encryption context they work on. *)
Class EncEngine : Type := {
  xmlSecEncCtxCreate : option xmlSecKeysMngr -> option xmlSecEncCtx;
  xmlSecEncCtxReset : xmlSecEncCtx -> xmlSecEncCtx;
  xmlSecEncCtxCopyUserPref : xmlSecEncCtx -> xmlSecEncCtx -> Z * xmlSecEncCtx;
  xmlSecEncCtxDecryptToBuffer : xmlSecEncCtx -> xmlNode -> option xmlSecBuffer * xmlSecEncCtx;
  xmlSecEncCtxDerivedKeyGenerate :
    xmlSecKeyDataId -> xmlNode -> xmlSecKeyInfoCtx -> option xmlSecKey * xmlSecKeyInfoCtx;
  xmlSecEncCtxAgreementMethodGenerate :
    xmlSecKeyDataId -> xmlNode -> xmlSecKeyInfoCtx -> option xmlSecKey * xmlSecKeyInfoCtx;
  xmlSecEncCtxAgreementMethodXmlWrite :
    xmlNode -> xmlSecKeyInfoCtx -> Z * xmlNode * xmlSecKeyInfoCtx
}.

(** Serialisation of a key value (keysdata.c):
    [xmlSecKeyDataBinWrite(id, key, &buf, &bufSize, keyInfoCtx)] yields a
    status, the buffer it allocated ([NULL] when none), the size of the
    buffer and the context as the method leaves it. *)
Class KeyDataBinWriteOps : Type := {
  xmlSecKeyDataBinWrite :
    xmlSecKeyDataId -> xmlSecKey -> xmlSecKeyInfoCtx
    -> Z * option (list byte) * Z * xmlSecKeyInfoCtx
}.

(** What [xmlSecAddChild(parent, name, ns)] of xmltree.c leaves behind: on
    failure [NULL] and the parent as the failed call left it; on success the
    new child [cur], which stands among the children of the parent between
    the siblings [before] and [after] (the function may add text nodes
    around the element). *)
Inductive addChildResult : Type :=
| AddChildNull (parent : xmlNode)
| AddChildAt (before : list xmlNode) (cur : xmlNode) (after : list xmlNode).

Class XmlBuildOps : Type := {
  xmlSecAddChild : xmlNode -> option string -> option string -> addChildResult
}.

(** [xmlSecEncCtxBinaryEncrypt(encCtx, tmpl, data, dataSize)] of xmlenc.c: a
    status, the template node with the cipher data written into it, and the
    encryption context. *)
Class EncWriteEngine : Type := {
  xmlSecEncCtxBinaryEncrypt :
    xmlSecEncCtx -> xmlNode -> option (list byte) -> Z -> Z * xmlNode * xmlSecEncCtx
}.

(** The debug dumps of the collaborators (keysdata.c, transforms.c, xmlenc.c,
    keys.c): each takes the text the stream [output] holds and returns it
    with its own lines appended. *)
Class DebugDumpOps : Type := {
  xmlSecKeyDataIdListDebugDump : xmlSecKeyDataIdList -> string -> string;
  xmlSecKeyDataIdListDebugXmlDump : xmlSecKeyDataIdList -> string -> string;
  xmlSecTransformCtxDebugDump : xmlSecTransformCtx -> string -> string;
  xmlSecTransformCtxDebugXmlDump : xmlSecTransformCtx -> string -> string;
  xmlSecEncCtxDebugDump : xmlSecEncCtx -> string -> string;
  xmlSecEncCtxDebugXmlDump : xmlSecEncCtx -> string -> string;
  xmlSecKeyReqDebugDump : xmlSecKeyReq -> string -> string;
  xmlSecKeyReqDebugXmlDump : xmlSecKeyReq -> string -> string
}.

(* ================================================================== *)
(** ** The functions of keyinfo.c *)
(* ================================================================== *)

(** Replacing the children of an element (a handler writes into the child
    nodes of the template in place). *)
Definition set_node_children (n : xmlNode) (ch : list xmlNode) : xmlNode :=
  match n with
  | XmlElement nm ns at_ _ => XmlElement nm ns at_ ch
  | _ => n
  end.

(** Modelled from the spec: [XMLSEC_SAFE_CAST_SIZE_TO_INT] of cast_helpers.h
    fails when the size does not fit a C [int]. *)
Definition INT_MAX : Z := 2147483647.

(** [xmlNodeSetContent(cur, NULL)] of libxml2, the one form keyinfo.c calls
    (the content argument is left out): the children of the node are
    removed. *)
Definition xmlNodeSetContent (cur : xmlNode) : xmlNode := set_node_children cur [].

(** Modelled from the spec: the macros [xmlSecKeyDataIsValid] and
    [xmlSecKeyDataCheckUsage] of keysdata.h, which is not among the sources
    (section 3: a value is tagged by the id of its handler; section 4.5,
    write: "no-op if the key has no value OR the value's handler lacks the
    KeyValueNodeWrite usage"). *)
Definition xmlSecKeyDataIsValid (data : option xmlSecKeyData) : bool :=
  match data with
  | Some d => match kd_id d with Some _ => true | None => false end
  | None => false
  end.

Definition xmlSecKeyDataCheckUsage (data : option xmlSecKeyData) (usg : Z) : bool :=
  match data with
  | Some d =>
      match kd_id d with
      | Some klass => negb (Z.land (klassUsage klass) usg =? 0)
      | None => false
      end
  | None => false
  end.

(** Modelled from the spec: [xmlSecKeyDataTypeAny] of keysdata.h (section 3:
    "key-type bitmask (public/private/symmetric/any)"; section 4.8, write:
    "a requirement of any type").  No theorem below depends on its value. *)
Definition xmlSecKeyDataTypeAny : Z := 0xFFFF.

(** The assignment [keyReq.keyType = v]. *)
Definition set_keyType (v : Z) (r : xmlSecKeyReq) : xmlSecKeyReq :=
  {| keyId := keyId r; keyType := v; keyUsage := keyUsage r;
     keyBitsSize := keyBitsSize r |}.

(** *** Formatted output *)

(** [fprintf(output, ...)]: the formatted text is appended to what the
    stream holds. *)
Definition fprintf (output text : string) : string := (output ++ text)%string.

(** The line feed the formats end with, and the quotation mark. *)
Definition LF : string := String (Ascii.ascii_of_nat 10) EmptyString.
Definition QUOT : string := String (Ascii.ascii_of_nat 34) EmptyString.

Definition hexDigit (d : Z) : Ascii.ascii :=
  nth (Z.to_nat d) (list_ascii_of_string "0123456789abcdef") (Ascii.ascii_of_nat 48).

Fixpoint hexDigits (width : nat) (v : Z) (acc : string) : string :=
  match width with
  | O => acc
  | S width' => hexDigits width' (v / 16) (String (hexDigit (v mod 16)) acc)
  end.

(** The conversion [%08x] of an [unsigned int]: eight lower-case hexadecimal
    digits, which is all a 32-bit value has. *)
Definition fmt_08x (v : Z) : string := hexDigits 8 (v mod 2 ^ 32) EmptyString.

(** The conversion [%d] of an [int]. *)
Definition fmt_d (v : Z) : string := NilZero.string_of_int (Z.to_int v).

Section KeyInfoProcessor.

Context {registry : KeyDataRegistry} {dataOps : KeyDataOps} {keysOps : KeysOps}
        {xmlOps : XmlTreeOps} {transforms : TransformEngine}
        {listOps : PtrListOps} {enc : EncEngine}.
Context {binWrite : KeyDataBinWriteOps} {xmlBuild : XmlBuildOps}
        {encWrite : EncWriteEngine} {debugOps : DebugDumpOps}.

(** *** High-level functions *)

(** The [for] loop of [xmlSecKeyInfoNodeRead], started with the cursor at
    [cur].  Non-element siblings are skipped ([xmlSecGetNextElementNode]);
    at an element the loop condition is tested before the body runs. *)
Fixpoint xmlSecKeyInfoNodeRead_loop (cur : list xmlNode) (key : xmlSecKey)
    (keyInfoCtx : xmlSecKeyInfoCtx) : readResult :=
  match cur with
  | [] => (0, key, keyInfoCtx)
  | n :: next =>
      if negb (isElementNode n) then xmlSecKeyInfoNodeRead_loop next key keyInfoCtx
      else if flag_is_set (flags keyInfoCtx) XMLSEC_KEYINFO_FLAGS_DONT_STOP_ON_KEY_FOUND
              || negb (xmlSecKeyIsValid key)
              || (xmlSecKeyMatch key None (keyReq keyInfoCtx) =? 0)
      then
        (* find data id *)
        let nodeName := node_name n in
        let nodeNs := xmlSecGetNodeNsHref n in
        (* use global list only if we don't have a local one *)
        let dataId :=
          if 0 <? xmlSecPtrListGetSize (enabledKeyData keyInfoCtx)
          then xmlSecKeyDataIdListFindByNode (enabledKeyData keyInfoCtx)
                 nodeName nodeNs xmlSecKeyDataUsageKeyInfoNodeRead
          else xmlSecKeyDataIdListFindByNode xmlSecKeyDataIdsGet
                 nodeName nodeNs xmlSecKeyDataUsageKeyInfoNodeRead in
        match dataId with
        | Some _ =>
            (* read data node *)
            let '(ret, key', ctx') := xmlSecKeyDataXmlRead dataId key n keyInfoCtx in
            if ret <? 0 then (-1, key', ctx')
            else xmlSecKeyInfoNodeRead_loop next key' ctx'
        | None =>
            if flag_is_set (flags keyInfoCtx) XMLSEC_KEYINFO_FLAGS_STOP_ON_UNKNOWN_CHILD
            then (-1, key, keyInfoCtx)
            else xmlSecKeyInfoNodeRead_loop next key keyInfoCtx
        end
      else (0, key, keyInfoCtx)
  end.

Definition xmlSecKeyInfoNodeRead (keyInfoNode : xmlNode) (key : xmlSecKey)
    (keyInfoCtx : xmlSecKeyInfoCtx) : readResult :=
  if negb (mode_eqb (mode keyInfoCtx) xmlSecKeyInfoModeRead) then (-1, key, keyInfoCtx)
  else xmlSecKeyInfoNodeRead_loop (node_children keyInfoNode) key keyInfoCtx.

(** The [for] loop of [xmlSecKeyInfoNodeWrite]; the second component is the
    sibling list from [cur] on after the handlers have written into it. *)
Fixpoint xmlSecKeyInfoNodeWrite_loop (cur : list xmlNode) (key : xmlSecKey)
    (keyInfoCtx : xmlSecKeyInfoCtx) : Z * list xmlNode * xmlSecKeyInfoCtx :=
  match cur with
  | [] => (0, [], keyInfoCtx)
  | n :: next =>
      if negb (isElementNode n) then
        let '(res, next', ctx') := xmlSecKeyInfoNodeWrite_loop next key keyInfoCtx in
        (res, n :: next', ctx')
      else
        (* find data id *)
        let nodeName := node_name n in
        let nodeNs := xmlSecGetNodeNsHref n in
        (* use global list only if we don't have a local one *)
        let dataId :=
          if 0 <? xmlSecPtrListGetSize (enabledKeyData keyInfoCtx)
          then xmlSecKeyDataIdListFindByNode (enabledKeyData keyInfoCtx)
                 nodeName nodeNs xmlSecKeyDataUsageKeyInfoNodeWrite
          else xmlSecKeyDataIdListFindByNode xmlSecKeyDataIdsGet
                 nodeName nodeNs xmlSecKeyDataUsageKeyInfoNodeWrite in
        match dataId with
        | Some _ =>
            let '(ret, n', ctx') := xmlSecKeyDataXmlWrite dataId key n keyInfoCtx in
            if ret <? 0 then (-1, n' :: next, ctx')
            else
              let '(res, next', ctx'') := xmlSecKeyInfoNodeWrite_loop next key ctx' in
              (res, n' :: next', ctx'')
        | None =>
            if flag_is_set (flags keyInfoCtx) XMLSEC_KEYINFO_FLAGS_STOP_ON_UNKNOWN_CHILD
            then (-1, n :: next, keyInfoCtx)
            else
              let '(res, next', ctx') := xmlSecKeyInfoNodeWrite_loop next key keyInfoCtx in
              (res, n :: next', ctx')
        end
  end.

Definition xmlSecKeyInfoNodeWrite (keyInfoNode : xmlNode) (key : xmlSecKey)
    (keyInfoCtx : xmlSecKeyInfoCtx) : writeResult :=
  if negb (mode_eqb (mode keyInfoCtx) xmlSecKeyInfoModeWrite)
  then (-1, keyInfoNode, keyInfoCtx)
  else
    let '(res, children', ctx') :=
      xmlSecKeyInfoNodeWrite_loop (node_children keyInfoNode) key keyInfoCtx in
    (res, set_node_children keyInfoNode children', ctx').

(** *** KeyInfo context *)

(** [memset(keyInfoCtx, 0, sizeof(xmlSecKeyInfoCtx))]: the first enumerator
    of each enumeration is 0. *)
Definition zeroed_xmlSecKeyInfoCtx : xmlSecKeyInfoCtx :=
  let zeroTransformCtx :=
    {| tr_userPrefs := 0; tr_uri := None; tr_result := None |} in
  Build_xmlSecKeyInfoCtx 0 0 0 None xmlSecKeyInfoModeRead [] 0
    zeroTransformCtx 0 zeroTransformCtx 0 None 0 0 0
    xmlSecTransformOperationNone 0 0 0
    {| keyId := None; keyType := 0; keyUsage := 0; keyBitsSize := 0 |}.

Definition xmlSecKeyInfoCtxInitialize (mngr : option xmlSecKeysMngr)
  : Z * xmlSecKeyInfoCtx :=
  let keyInfoCtx := zeroed_xmlSecKeyInfoCtx in
  let keyInfoCtx := set_keysMngr mngr keyInfoCtx in
  let keyInfoCtx := set_base64LineSize xmlSecBase64GetDefaultLineSize keyInfoCtx in
  let '(ret, l) := xmlSecPtrListInitialize in
  let keyInfoCtx := set_enabledKeyData l keyInfoCtx in
  if ret <? 0 then (-1, keyInfoCtx) else
  let keyInfoCtx := set_maxRetrievalMethodLevel 1 keyInfoCtx in
  let '(ret, t) := xmlSecTransformCtxInitialize in
  let keyInfoCtx := set_retrievalMethodCtx t keyInfoCtx in
  if ret <? 0 then (-1, keyInfoCtx) else
  let keyInfoCtx := set_maxKeyInfoReferenceLevel 1 keyInfoCtx in
  let '(ret, t) := xmlSecTransformCtxInitialize in
  let keyInfoCtx := set_keyInfoReferenceCtx t keyInfoCtx in
  if ret <? 0 then (-1, keyInfoCtx) else
  let keyInfoCtx := set_maxEncryptedKeyLevel 1 keyInfoCtx in
  let keyInfoCtx := set_certsVerificationDepth 9 keyInfoCtx in
  let '(ret, r) := xmlSecKeyReqInitialize in
  let keyInfoCtx := set_keyReq r keyInfoCtx in
  if ret <? 0 then (-1, keyInfoCtx) else
  (0, keyInfoCtx).

Definition xmlSecKeyInfoCtxReset (keyInfoCtx : xmlSecKeyInfoCtx) : xmlSecKeyInfoCtx :=
  let keyInfoCtx :=
    set_retrievalMethodCtx
      (xmlSecTransformCtxReset (retrievalMethodCtx keyInfoCtx)) keyInfoCtx in
  let keyInfoCtx := set_curRetrievalMethodLevel 0 keyInfoCtx in
  let keyInfoCtx :=
    set_keyInfoReferenceCtx
      (xmlSecTransformCtxReset (keyInfoReferenceCtx keyInfoCtx)) keyInfoCtx in
  let keyInfoCtx := set_curKeyInfoReferenceLevel 0 keyInfoCtx in
  let keyInfoCtx := set_curEncryptedKeyLevel 0 keyInfoCtx in
  let keyInfoCtx := set_operation xmlSecTransformOperationNone keyInfoCtx in
  let keyInfoCtx :=
    match encCtx keyInfoCtx with
    | Some e => set_encCtx (Some (xmlSecEncCtxReset e)) keyInfoCtx
    | None => keyInfoCtx
    end in
  set_keyReq (xmlSecKeyReqReset (keyReq keyInfoCtx)) keyInfoCtx.

Definition xmlSecKeyInfoCtxCopyUserPref (dst src : xmlSecKeyInfoCtx)
  : Z * xmlSecKeyInfoCtx :=
  let dst := set_userData (userData src) dst in
  let dst := set_flags (flags src) dst in
  let dst := set_flags2 (flags2 src) dst in
  let dst := set_keysMngr (keysMngr src) dst in
  let dst := set_base64LineSize (base64LineSize src) dst in
  let '(ret, l) := xmlSecPtrListCopy (enabledKeyData dst) (enabledKeyData src) in
  let dst := set_enabledKeyData l dst in
  if ret <? 0 then (-1, dst) else
  (* <dsig:RetrievalMethod/> *)
  let dst := set_maxRetrievalMethodLevel (maxRetrievalMethodLevel src) dst in
  let '(ret, t) :=
    xmlSecTransformCtxCopyUserPref (retrievalMethodCtx dst) (retrievalMethodCtx src) in
  let dst := set_retrievalMethodCtx t dst in
  if ret <? 0 then (-1, dst) else
  (* <dsig:KeyInfoReference/> *)
  let dst := set_maxKeyInfoReferenceLevel (maxKeyInfoReferenceLevel src) dst in
  let '(ret, t) :=
    xmlSecTransformCtxCopyUserPref (keyInfoReferenceCtx dst) (keyInfoReferenceCtx src) in
  let dst := set_keyInfoReferenceCtx t dst in
  if ret <? 0 then (-1, dst) else
  (* <enc:EncryptedContext /> *)
  let '(ret, dst) :=
    match encCtx src, encCtx dst with
    | Some srcEnc, Some dstEnc =>
        let dstEnc := set_encMode xmlEncCtxModeEncryptedKey dstEnc in
        let '(ret, dstEnc) := xmlSecEncCtxCopyUserPref dstEnc srcEnc in
        (ret, set_encCtx (Some dstEnc) dst)
    | _, _ => (0, dst)
    end in
  if ret <? 0 then (-1, dst) else
  let dst := set_maxEncryptedKeyLevel (maxEncryptedKeyLevel src) dst in
  (* <dsig:X509Data /> *)
  let dst := set_certsVerificationTime (certsVerificationTime src) dst in
  let dst := set_certsVerificationDepth (certsVerificationDepth src) dst in
  (0, dst).

Definition xmlSecKeyInfoCtxCreateEncCtx (keyInfoCtx : xmlSecKeyInfoCtx)
  : Z * xmlSecKeyInfoCtx :=
  match encCtx keyInfoCtx with
  | Some _ => (-1, keyInfoCtx)
  | None =>
      (* we have to use tmp variable to avoid a recursive loop *)
      match xmlSecEncCtxCreate (keysMngr keyInfoCtx) with
      | None => (-1, keyInfoCtx)
      | Some tmp =>
          let tmp := set_encMode xmlEncCtxModeEncryptedKey tmp in
          (* copy user preferences from our current ctx *)
          let '(ret, tmp) :=
            match mode keyInfoCtx with
            | xmlSecKeyInfoModeRead =>
                let '(ret, c) :=
                  xmlSecKeyInfoCtxCopyUserPref (keyInfoReadCtx tmp) keyInfoCtx in
                (ret, set_keyInfoReadCtx c tmp)
            | xmlSecKeyInfoModeWrite =>
                let '(ret, c) :=
                  xmlSecKeyInfoCtxCopyUserPref (keyInfoWriteCtx tmp) keyInfoCtx in
                (ret, set_keyInfoWriteCtx c tmp)
            end in
          if ret <? 0 then (-1, keyInfoCtx) else
          let tmp :=
            set_keyInfoReadCtx
              (set_operation (operation keyInfoCtx) (keyInfoReadCtx tmp)) tmp in
          let tmp :=
            set_keyInfoWriteCtx
              (set_operation (operation keyInfoCtx) (keyInfoWriteCtx tmp)) tmp in
          (0, set_encCtx (Some tmp) keyInfoCtx)
      end
  end.

(** [xmlSecKeyInfoCtxFinalize]: the list, the two transform contexts, the
    key requirement and the encryption context are released (storage is not
    part of the state), then the structure is cleared by [memset]. *)
Definition xmlSecKeyInfoCtxFinalize (keyInfoCtx : xmlSecKeyInfoCtx) : xmlSecKeyInfoCtx :=
  zeroed_xmlSecKeyInfoCtx.

(** [xmlSecKeyInfoCtxCreate]: [NULL] when the initialisation fails (the
    context is destroyed again); the allocation itself is taken to
    succeed. *)
Definition xmlSecKeyInfoCtxCreate (mngr : option xmlSecKeysMngr)
  : option xmlSecKeyInfoCtx :=
  let '(ret, keyInfoCtx) := xmlSecKeyInfoCtxInitialize mngr in
  if ret <? 0 then None else Some keyInfoCtx.

(** [xmlSecKeyInfoCtxDebugDump]: the text printed to [output]. *)
Definition xmlSecKeyInfoCtxDebugDump (keyInfoCtx : xmlSecKeyInfoCtx) (output : string)
  : string :=
  let output :=
    match mode keyInfoCtx with
    | xmlSecKeyInfoModeRead => fprintf output ("= KEY INFO READ CONTEXT" ++ LF)%string
    | xmlSecKeyInfoModeWrite => fprintf output ("= KEY INFO WRITE CONTEXT" ++ LF)%string
    end in
  let output :=
    fprintf output ("== flags: 0x" ++ fmt_08x (flags keyInfoCtx) ++ LF)%string in
  let output :=
    fprintf output ("== flags2: 0x" ++ fmt_08x (flags2 keyInfoCtx) ++ LF)%string in
  let output :=
    if 0 <? xmlSecPtrListGetSize (enabledKeyData keyInfoCtx) then
      let output := fprintf output "== enabled key data: " in
      xmlSecKeyDataIdListDebugDump (enabledKeyData keyInfoCtx) output
    else fprintf output ("== enabled key data: all" ++ LF)%string in
  let output :=
    fprintf output
      ("== RetrievalMethod level (cur/max): "
       ++ fmt_d (curRetrievalMethodLevel keyInfoCtx) ++ "/"
       ++ fmt_d (maxRetrievalMethodLevel keyInfoCtx) ++ LF)%string in
  let output := xmlSecTransformCtxDebugDump (retrievalMethodCtx keyInfoCtx) output in
  let output :=
    fprintf output
      ("== KeyInfoReference level (cur/max): "
       ++ fmt_d (curKeyInfoReferenceLevel keyInfoCtx) ++ "/"
       ++ fmt_d (maxKeyInfoReferenceLevel keyInfoCtx) ++ LF)%string in
  let output := xmlSecTransformCtxDebugDump (keyInfoReferenceCtx keyInfoCtx) output in
  let output :=
    fprintf output
      ("== EncryptedKey level (cur/max): "
       ++ fmt_d (curEncryptedKeyLevel keyInfoCtx) ++ "/"
       ++ fmt_d (maxEncryptedKeyLevel keyInfoCtx) ++ LF)%string in
  let output :=
    match encCtx keyInfoCtx with
    | Some e => xmlSecEncCtxDebugDump e output
    | None => output
    end in
  xmlSecKeyReqDebugDump (keyReq keyInfoCtx) output.

(** [xmlSecKeyInfoCtxDebugXmlDump]: the text printed to [output]. *)
Definition xmlSecKeyInfoCtxDebugXmlDump (keyInfoCtx : xmlSecKeyInfoCtx) (output : string)
  : string :=
  let output :=
    match mode keyInfoCtx with
    | xmlSecKeyInfoModeRead => fprintf output ("<KeyInfoReadContext>" ++ LF)%string
    | xmlSecKeyInfoModeWrite => fprintf output ("<KeyInfoWriteContext>" ++ LF)%string
    end in
  let output :=
    fprintf output ("<Flags>" ++ fmt_08x (flags keyInfoCtx) ++ "</Flags>" ++ LF)%string in
  let output :=
    fprintf output
      ("<Flags2>" ++ fmt_08x (flags2 keyInfoCtx) ++ "</Flags2>" ++ LF)%string in
  let output :=
    if 0 <? xmlSecPtrListGetSize (enabledKeyData keyInfoCtx) then
      let output := fprintf output ("<EnabledKeyData>" ++ LF)%string in
      let output := xmlSecKeyDataIdListDebugXmlDump (enabledKeyData keyInfoCtx) output in
      fprintf output ("</EnabledKeyData>" ++ LF)%string
    else fprintf output ("<EnabledKeyData>all</EnabledKeyData>" ++ LF)%string in
  let output :=
    fprintf output
      ("<RetrievalMethodLevel cur=" ++ QUOT
       ++ fmt_d (curEncryptedKeyLevel keyInfoCtx) ++ QUOT ++ " max=" ++ QUOT
       ++ fmt_d (maxEncryptedKeyLevel keyInfoCtx) ++ QUOT ++ " />" ++ LF)%string in
  let output := xmlSecTransformCtxDebugXmlDump (retrievalMethodCtx keyInfoCtx) output in
  let output :=
    fprintf output
      ("<KeyInfoReferenceLevel cur=" ++ QUOT
       ++ fmt_d (curEncryptedKeyLevel keyInfoCtx) ++ QUOT ++ " max=" ++ QUOT
       ++ fmt_d (maxEncryptedKeyLevel keyInfoCtx) ++ QUOT ++ " />" ++ LF)%string in
  let output := xmlSecTransformCtxDebugXmlDump (keyInfoReferenceCtx keyInfoCtx) output in
  let output :=
    fprintf output
      ("<EncryptedKeyLevel cur=" ++ QUOT
       ++ fmt_d (curEncryptedKeyLevel keyInfoCtx) ++ QUOT ++ " max=" ++ QUOT
       ++ fmt_d (maxEncryptedKeyLevel keyInfoCtx) ++ QUOT ++ " />" ++ LF)%string in
  let output :=
    match encCtx keyInfoCtx with
    | Some e => xmlSecEncCtxDebugXmlDump e output
    | None => output
    end in
  let output := xmlSecKeyReqDebugXmlDump (keyReq keyInfoCtx) output in
  match mode keyInfoCtx with
  | xmlSecKeyInfoModeRead => fprintf output ("</KeyInfoReadContext>" ++ LF)%string
  | xmlSecKeyInfoModeWrite => fprintf output ("</KeyInfoWriteContext>" ++ LF)%string
  end.

(** *** <dsig:KeyName/> processing *)

Definition xmlSecKeyDataNameXmlRead (id : xmlSecKeyDataId) (key : xmlSecKey)
    (node : xmlNode) (keyInfoCtx : xmlSecKeyInfoCtx) : readResult :=
  if negb (id_eqb id xmlSecKeyDataNameId) then (-1, key, keyInfoCtx) else
  if negb (mode_eqb (mode keyInfoCtx) xmlSecKeyInfoModeRead) then (-1, key, keyInfoCtx) else
  (* read key name *)
  match xmlSecGetNodeContentAndTrim node with
  | None => (-1, key, keyInfoCtx)
  | Some newName =>
      (* try to find key in the manager *)
      match xmlSecKeyGetValue key, keysMngr keyInfoCtx with
      | None, Some mngr =>
          match xmlSecKeysMngrFindKey mngr newName keyInfoCtx with
          | Some tmpKey =>
              (* erase any current information in the key *)
              let key := xmlSecKeyEmpty key in
              (* and copy what we've found *)
              let '(ret, key) := xmlSecKeyCopy key tmpKey in
              if ret <? 0 then (-1, key, keyInfoCtx) else
              (* and set the key name *)
              let '(ret, key) := xmlSecKeySetName key (Some newName) in
              if ret <? 0 then (-1, key, keyInfoCtx) else
              (0, key, keyInfoCtx)
          | None => (0, key, keyInfoCtx)
          end
      | _, _ =>
          (* if we already have a keyname, make sure that it matches or set it *)
          match xmlSecKeyGetName key with
          | Some oldName =>
              if negb (xmlStrEqual (Some oldName) (Some newName))
              then (-1, key, keyInfoCtx)
              else (0, key, keyInfoCtx)
          | None =>
              let '(ret, key) := xmlSecKeySetName key (Some newName) in
              if ret <? 0 then (-1, key, keyInfoCtx) else
              (0, key, keyInfoCtx)
          end
      end
  end.

Definition xmlSecKeyDataNameXmlWrite (id : xmlSecKeyDataId) (key : xmlSecKey)
    (node : xmlNode) (keyInfoCtx : xmlSecKeyInfoCtx) : writeResult :=
  if negb (id_eqb id xmlSecKeyDataNameId) then (-1, node, keyInfoCtx) else
  if negb (mode_eqb (mode keyInfoCtx) xmlSecKeyInfoModeWrite) then (-1, node, keyInfoCtx) else
  match xmlSecKeyGetName key with
  | None => (8, node, keyInfoCtx)
  | Some name =>
      if xmlSecIsEmptyNode node =? 0 then (0, node, keyInfoCtx) else
      let '(ret, node') := xmlSecNodeEncodeAndSetContent node (Some name) in
      if ret <? 0 then (-1, node', keyInfoCtx) else
      (0, node', keyInfoCtx)
  end.

(** *** <dsig:KeyValue/> processing *)

Definition xmlSecKeyDataValueXmlRead (id : xmlSecKeyDataId) (key : xmlSecKey)
    (node : xmlNode) (keyInfoCtx : xmlSecKeyInfoCtx) : readResult :=
  if negb (id_eqb id xmlSecKeyDataValueId) then (-1, key, keyInfoCtx) else
  if negb (mode_eqb (mode keyInfoCtx) xmlSecKeyInfoModeRead) then (-1, key, keyInfoCtx) else
  match xmlSecGetNextElementNode (node_children node) with
  | [] =>
      (* just an empty node *)
      (0, key, keyInfoCtx)
  | cur :: next =>
      (* find data id *)
      let nodeName := node_name cur in
      let nodeNs := xmlSecGetNodeNsHref cur in
      (* use global list only if we don't have a local one *)
      let dataId :=
        if 0 <? xmlSecPtrListGetSize (enabledKeyData keyInfoCtx)
        then xmlSecKeyDataIdListFindByNode (enabledKeyData keyInfoCtx)
               nodeName nodeNs xmlSecKeyDataUsageKeyValueNodeRead
        else xmlSecKeyDataIdListFindByNode xmlSecKeyDataIdsGet
               nodeName nodeNs xmlSecKeyDataUsageKeyValueNodeRead in
      let '(stop, key, keyInfoCtx) :=
        match dataId with
        | Some _ =>
            (* read data node *)
            let '(ret, key', ctx') := xmlSecKeyDataXmlRead dataId key cur keyInfoCtx in
            (ret <? 0, key', ctx')
        | None =>
            (flag_is_set (flags keyInfoCtx)
               XMLSEC_KEYINFO_FLAGS_KEYVALUE_STOP_ON_UNKNOWN_CHILD,
             key, keyInfoCtx)
        end in
      if stop then (-1, key, keyInfoCtx) else
      (* <dsig:KeyValue/> might have only one node *)
      match xmlSecGetNextElementNode next with
      | _ :: _ => (-1, key, keyInfoCtx)
      | [] => (0, key, keyInfoCtx)
      end
  end.

(** The new child is written in place: the node returned holds what the
    handler made of [cur] between the siblings [xmlSecAddChild] left. *)
Definition xmlSecKeyDataValueXmlWrite (id : xmlSecKeyDataId) (key : xmlSecKey)
    (node : xmlNode) (keyInfoCtx : xmlSecKeyInfoCtx) : writeResult :=
  if negb (id_eqb id xmlSecKeyDataValueId) then (-1, node, keyInfoCtx) else
  if negb (mode_eqb (mode keyInfoCtx) xmlSecKeyInfoModeWrite) then (-1, node, keyInfoCtx) else
  if negb (xmlSecKeyDataIsValid (key_value key))
     || negb (xmlSecKeyDataCheckUsage (key_value key) xmlSecKeyDataUsageKeyValueNodeWrite)
  then
    (* nothing to write *)
    (0, node, keyInfoCtx)
  else
  if (0 <? xmlSecPtrListGetSize (enabledKeyData keyInfoCtx))
     && negb (xmlSecKeyDataIdListFind (enabledKeyData keyInfoCtx) id =? 1)
  then
    (* we are not enabled to write out key data with this id *)
    (0, node, keyInfoCtx)
  else
  if negb (xmlSecKeyReqMatchKey (keyReq keyInfoCtx) key =? 1)
  then
    (* we are not allowed to write out this key *)
    (0, node, keyInfoCtx)
  else
  match key_value key with
  | None => (-1, node, keyInfoCtx)     (* not reached: the value is valid *)
  | Some value =>
      match kd_id value with
      | None => (-1, node, keyInfoCtx) (* not reached: the value is valid *)
      | Some klass =>
          let nodeName := dataNodeName klass in
          let nodeNs := dataNodeNs klass in
          match nodeName with
          | None => (-1, node, keyInfoCtx)
          | Some _ =>
              (* remove all existing key value *)
              let node := xmlNodeSetContent node in
              (* create key node *)
              match xmlSecAddChild node nodeName nodeNs with
              | AddChildNull node => (-1, node, keyInfoCtx)
              | AddChildAt before cur after =>
                  let '(ret, cur', ctx') :=
                    xmlSecKeyDataXmlWrite (kd_id value) key cur keyInfoCtx in
                  let node := set_node_children node (before ++ cur' :: after) in
                  if ret <? 0 then (-1, node, ctx') else (0, node, ctx')
              end
          end
      end
  end.

(** *** <dsig:RetrievalMethod/> processing *)

Definition xmlSecKeyDataRetrievalMethodReadXmlResult (typeId : xmlSecKeyDataId)
    (key : xmlSecKey) (buffer : option (list byte)) (bufferSize : Z)
    (keyInfoCtx : xmlSecKeyInfoCtx) : readResult :=
  match buffer with
  | None => (-1, key, keyInfoCtx)
  | Some _ =>
  if negb (0 <? bufferSize) then (-1, key, keyInfoCtx) else
  if negb (mode_eqb (mode keyInfoCtx) xmlSecKeyInfoModeRead) then (-1, key, keyInfoCtx) else
  if INT_MAX <? bufferSize then (-1, key, keyInfoCtx) else
  match xmlRecoverMemory buffer bufferSize with
  | None => (-1, key, keyInfoCtx)
  | Some doc =>
      match xmlDocGetRootElement doc with
      | None => (-1, key, keyInfoCtx)
      | Some cur =>
          let nodeName := node_name cur in
          let nodeNs := xmlSecGetNodeNsHref cur in
          (* use global list only if we don't have a local one *)
          let dataId :=
            if 0 <? xmlSecPtrListGetSize (enabledKeyData keyInfoCtx)
            then xmlSecKeyDataIdListFindByNode (enabledKeyData keyInfoCtx)
                   nodeName nodeNs xmlSecKeyDataUsageRetrievalMethodNodeXml
            else xmlSecKeyDataIdListFindByNode xmlSecKeyDataIdsGet
                   nodeName nodeNs xmlSecKeyDataUsageRetrievalMethodNodeXml in
          match dataId with
          | None =>
              (* laxi schema validation but application can disable it *)
              if flag_is_set (flags keyInfoCtx)
                   XMLSEC_KEYINFO_FLAGS_KEYVALUE_STOP_ON_UNKNOWN_CHILD
              then (-1, key, keyInfoCtx)
              else (0, key, keyInfoCtx)
          | Some _ =>
              if negb (id_eqb typeId xmlSecKeyDataIdUnknown)
                 && negb (id_eqb typeId dataId)
                 && flag_is_set (flags keyInfoCtx)
                      XMLSEC_KEYINFO_FLAGS_RETRMETHOD_STOP_ON_MISMATCH_HREF
              then (-1, key, keyInfoCtx)
              else
                (* read data node *)
                let '(ret, key', ctx') := xmlSecKeyDataXmlRead dataId key cur keyInfoCtx in
                if ret <? 0 then (-1, key', ctx') else (0, key', ctx')
          end
      end
  end
  end.

Definition xmlSecKeyDataRetrievalMethodXmlRead (id : xmlSecKeyDataId) (key : xmlSecKey)
    (node : xmlNode) (keyInfoCtx : xmlSecKeyInfoCtx) : readResult :=
  if negb (id_eqb id xmlSecKeyDataRetrievalMethodId) then (-1, key, keyInfoCtx) else
  match node_doc node with
  | None => (-1, key, keyInfoCtx)
  | Some _ =>
  if negb (mode_eqb (mode keyInfoCtx) xmlSecKeyInfoModeRead) then (-1, key, keyInfoCtx) else
  (* check retrieval level *)
  if maxRetrievalMethodLevel keyInfoCtx <=? curRetrievalMethodLevel keyInfoCtx
  then (-1, key, keyInfoCtx) else
  let keyInfoCtx :=
    set_curRetrievalMethodLevel (curRetrievalMethodLevel keyInfoCtx + 1) keyInfoCtx in
  let retrType := xmlGetProp node xmlSecAttrType in
  let dataId :=
    match retrType with
    | Some _ =>
        (* use global list only if we don't have a local one *)
        if 0 <? xmlSecPtrListGetSize (enabledKeyData keyInfoCtx)
        then xmlSecKeyDataIdListFindByHref (enabledKeyData keyInfoCtx)
               retrType xmlSecKeyDataUsageRetrievalMethodNode
        else xmlSecKeyDataIdListFindByHref xmlSecKeyDataIdsGet
               retrType xmlSecKeyDataUsageRetrievalMethodNode
    | None => xmlSecKeyDataIdUnknown
    end in
  (* laxi schema validation but application can disable it *)
  match dataId with
  | None =>
      if flag_is_set (flags keyInfoCtx)
           XMLSEC_KEYINFO_FLAGS_RETRMETHOD_STOP_ON_UNKNOWN_HREF
      then (-1, key, keyInfoCtx)
      else (0, key, keyInfoCtx)
  | Some klass =>
      (* destroy prev retrieval method context *)
      let keyInfoCtx :=
        set_retrievalMethodCtx
          (xmlSecTransformCtxReset (retrievalMethodCtx keyInfoCtx)) keyInfoCtx in
      (* set start URI and check that it is enabled *)
      let uri := xmlGetProp node xmlSecAttrURI in
      let '(ret, t) := xmlSecTransformCtxSetUri (retrievalMethodCtx keyInfoCtx) uri node in
      let keyInfoCtx := set_retrievalMethodCtx t keyInfoCtx in
      if ret <? 0 then (-1, key, keyInfoCtx) else
      (* the only one node is optional Transforms node *)
      let cur := xmlSecGetNextElementNode (node_children node) in
      let '(ret, cur, keyInfoCtx) :=
        match cur with
        | c :: next =>
            if xmlSecCheckNodeName c xmlSecNodeTransforms xmlSecDSigNs then
              let '(ret, t) :=
                xmlSecTransformCtxNodesListRead (retrievalMethodCtx keyInfoCtx)
                  c xmlSecTransformUsageDSigTransform in
              (ret, xmlSecGetNextElementNode next, set_retrievalMethodCtx t keyInfoCtx)
            else (0, cur, keyInfoCtx)
        | [] => (0, cur, keyInfoCtx)
        end in
      if ret <? 0 then (-1, key, keyInfoCtx) else
      match cur with
      | _ :: _ => (-1, key, keyInfoCtx)
      | [] =>
          (* finally get transforms results *)
          let '(ret, t) :=
            xmlSecTransformCtxExecute (retrievalMethodCtx keyInfoCtx) (node_doc node) in
          let keyInfoCtx := set_retrievalMethodCtx t keyInfoCtx in
          match (if ret <? 0 then None else tr_result (retrievalMethodCtx keyInfoCtx)) with
          | None => (-1, key, keyInfoCtx)
          | Some result =>
              match xmlSecBufferGetData result with
              | None => (-1, key, keyInfoCtx)
              | Some _ =>
                  (* assume that the data is in XML if we could not find id *)
                  let '(ret, key', ctx') :=
                    if id_eqb dataId xmlSecKeyDataIdUnknown
                       || negb (Z.land (klassUsage klass)
                                  xmlSecKeyDataUsageRetrievalMethodNodeXml =? 0)
                    then xmlSecKeyDataRetrievalMethodReadXmlResult dataId key
                           (xmlSecBufferGetData result) (xmlSecBufferGetSize result)
                           keyInfoCtx
                    else xmlSecKeyDataBinRead dataId key
                           (xmlSecBufferGetData result) (xmlSecBufferGetSize result)
                           keyInfoCtx in
                  if ret <? 0 then (-1, key', ctx') else
                  (0, key',
                   set_curRetrievalMethodLevel (curRetrievalMethodLevel ctx' - 1) ctx')
              end
          end
      end
  end
  end.

Definition xmlSecKeyDataRetrievalMethodXmlWrite (id : xmlSecKeyDataId) (key : xmlSecKey)
    (node : xmlNode) (keyInfoCtx : xmlSecKeyInfoCtx) : writeResult :=
  if negb (id_eqb id xmlSecKeyDataRetrievalMethodId) then (-1, node, keyInfoCtx) else
  if negb (mode_eqb (mode keyInfoCtx) xmlSecKeyInfoModeWrite) then (-1, node, keyInfoCtx) else
  (* just do nothing *)
  (0, node, keyInfoCtx).

(** *** <dsig11:KeyInfoReference/> processing *)

Definition xmlSecKeyDataKeyInfoReferenceReadXmlResult (typeId : xmlSecKeyDataId)
    (key : xmlSecKey) (buffer : option (list byte)) (bufferSize : Z)
    (keyInfoCtx : xmlSecKeyInfoCtx) : readResult :=
  match buffer with
  | None => (-1, key, keyInfoCtx)
  | Some _ =>
  if negb (0 <? bufferSize) then (-1, key, keyInfoCtx) else
  if negb (mode_eqb (mode keyInfoCtx) xmlSecKeyInfoModeRead) then (-1, key, keyInfoCtx) else
  if INT_MAX <? bufferSize then (-1, key, keyInfoCtx) else
  match xmlRecoverMemory buffer bufferSize with
  | None => (-1, key, keyInfoCtx)
  | Some doc =>
      match xmlDocGetRootElement doc with
      | None => (-1, key, keyInfoCtx)
      | Some cur =>
          (* The result of dereferencing a KeyInfoReference MUST be a KeyInfo
             element, or an XML document with a KeyInfo element as the root *)
          if negb (xmlSecCheckNodeName cur xmlSecNodeKeyInfo xmlSecDSigNs)
          then (-1, key, keyInfoCtx)
          else
            let '(ret, key', ctx') := xmlSecKeyInfoNodeRead cur key keyInfoCtx in
            if ret <? 0 then (-1, key', ctx') else (0, key', ctx')
      end
  end
  end.

Definition xmlSecKeyDataKeyInfoReferenceXmlRead (id : xmlSecKeyDataId) (key : xmlSecKey)
    (node : xmlNode) (keyInfoCtx : xmlSecKeyInfoCtx) : readResult :=
  let dataId := xmlSecKeyDataIdUnknown in
  if negb (id_eqb id xmlSecKeyDataKeyInfoReferenceId) then (-1, key, keyInfoCtx) else
  match node_doc node with
  | None => (-1, key, keyInfoCtx)
  | Some _ =>
  if negb (mode_eqb (mode keyInfoCtx) xmlSecKeyInfoModeRead) then (-1, key, keyInfoCtx) else
  (* check retrieval level *)
  if maxKeyInfoReferenceLevel keyInfoCtx <=? curKeyInfoReferenceLevel keyInfoCtx
  then (-1, key, keyInfoCtx) else
  let keyInfoCtx :=
    set_curKeyInfoReferenceLevel (curKeyInfoReferenceLevel keyInfoCtx + 1) keyInfoCtx in
  (* uri attribute is required *)
  match xmlGetProp node xmlSecAttrURI with
  | None => (-1, key, keyInfoCtx)
  | Some uri =>
      (* destroy prev retrieval method context if any and set start URI *)
      let keyInfoCtx :=
        set_keyInfoReferenceCtx
          (xmlSecTransformCtxReset (keyInfoReferenceCtx keyInfoCtx)) keyInfoCtx in
      let '(ret, t) :=
        xmlSecTransformCtxSetUri (keyInfoReferenceCtx keyInfoCtx) (Some uri) node in
      let keyInfoCtx := set_keyInfoReferenceCtx t keyInfoCtx in
      if ret <? 0 then (-1, key, keyInfoCtx) else
      (* no children are expected *)
      match xmlSecGetNextElementNode (node_children node) with
      | _ :: _ => (-1, key, keyInfoCtx)
      | [] =>
          (* get transforms results *)
          let '(ret, t) :=
            xmlSecTransformCtxExecute (keyInfoReferenceCtx keyInfoCtx) (node_doc node) in
          let keyInfoCtx := set_keyInfoReferenceCtx t keyInfoCtx in
          match (if ret <? 0 then None else tr_result (keyInfoReferenceCtx keyInfoCtx)) with
          | None => (-1, key, keyInfoCtx)
          | Some result =>
              match xmlSecBufferGetData result with
              | None => (-1, key, keyInfoCtx)
              | Some _ =>
                  let '(ret, key', ctx') :=
                    xmlSecKeyDataKeyInfoReferenceReadXmlResult dataId key
                      (xmlSecBufferGetData result) (xmlSecBufferGetSize result)
                      keyInfoCtx in
                  if ret <? 0 then (-1, key', ctx') else
                  (0, key',
                   set_curKeyInfoReferenceLevel (curKeyInfoReferenceLevel ctx' - 1) ctx')
              end
          end
      end
  end
  end.

Definition xmlSecKeyDataKeyInfoReferenceXmlWrite (id : xmlSecKeyDataId) (key : xmlSecKey)
    (node : xmlNode) (keyInfoCtx : xmlSecKeyInfoCtx) : writeResult :=
  if negb (id_eqb id xmlSecKeyDataKeyInfoReferenceId) then (-1, node, keyInfoCtx) else
  if negb (mode_eqb (mode keyInfoCtx) xmlSecKeyInfoModeWrite) then (-1, node, keyInfoCtx) else
  (* just do nothing *)
  (0, node, keyInfoCtx).

(** *** <enc:EncryptedKey/>, <enc11:DerivedKey/>, <enc:AgreementMethod/> *)

(** The statements under the comments "init Enc context" and "copy prefs",
    which open the EncryptedKey, DerivedKey and AgreementMethod handlers in
    the same words.  (The destination of each preference copy is a context
    nested in [keyInfoCtx->encCtx]; it is written back after the copy.) *)
Definition initEncCtxAndCopyPrefs (keyInfoCtx : xmlSecKeyInfoCtx)
  : Z * xmlSecKeyInfoCtx :=
  (* init Enc context *)
  let '(ret, keyInfoCtx) :=
    match encCtx keyInfoCtx with
    | Some e => (0, set_encCtx (Some (xmlSecEncCtxReset e)) keyInfoCtx)
    | None => xmlSecKeyInfoCtxCreateEncCtx keyInfoCtx
    end in
  if ret <? 0 then (-1, keyInfoCtx) else
  match encCtx keyInfoCtx with
  | None => (-1, keyInfoCtx)
  | Some e =>
      (* copy prefs *)
      let '(ret, c) := xmlSecKeyInfoCtxCopyUserPref (keyInfoReadCtx e) keyInfoCtx in
      let e := set_keyInfoReadCtx c e in
      let keyInfoCtx := set_encCtx (Some e) keyInfoCtx in
      if ret <? 0 then (-1, keyInfoCtx) else
      let '(ret, c) := xmlSecKeyInfoCtxCopyUserPref (keyInfoWriteCtx e) keyInfoCtx in
      let e := set_keyInfoWriteCtx c e in
      let keyInfoCtx := set_encCtx (Some e) keyInfoCtx in
      if ret <? 0 then (-1, keyInfoCtx) else
      (0, keyInfoCtx)
  end.

Definition xmlSecKeyDataEncryptedKeyXmlRead (id : xmlSecKeyDataId) (key : xmlSecKey)
    (node : xmlNode) (keyInfoCtx : xmlSecKeyInfoCtx) : readResult :=
  if negb (id_eqb id xmlSecKeyDataEncryptedKeyId) then (-1, key, keyInfoCtx) else
  if negb (mode_eqb (mode keyInfoCtx) xmlSecKeyInfoModeRead) then (-1, key, keyInfoCtx) else
  (* check the enc level *)
  if maxEncryptedKeyLevel keyInfoCtx <=? curEncryptedKeyLevel keyInfoCtx
  then (-1, key, keyInfoCtx) else
  let '(ret, keyInfoCtx) := initEncCtxAndCopyPrefs keyInfoCtx in
  if ret <? 0 then (-1, key, keyInfoCtx) else
  match encCtx keyInfoCtx with
  | None => (-1, key, keyInfoCtx)
  | Some e =>
      (* decrypt *)
      let keyInfoCtx :=
        set_curEncryptedKeyLevel (curEncryptedKeyLevel keyInfoCtx + 1) keyInfoCtx in
      let '(result, e') := xmlSecEncCtxDecryptToBuffer e node in
      let keyInfoCtx := set_encCtx (Some e') keyInfoCtx in
      let keyInfoCtx :=
        set_curEncryptedKeyLevel (curEncryptedKeyLevel keyInfoCtx - 1) keyInfoCtx in
      (* We might have multiple EncryptedKey elements, encrypted
         for different recipients but application can enforce
         correct enc key. *)
      let failed : readResult :=
        if flag_is_set (flags keyInfoCtx)
             XMLSEC_KEYINFO_FLAGS_ENCKEY_DONT_STOP_ON_FAILED_DECRYPTION
        then (-1, key, keyInfoCtx)
        else (0, key, keyInfoCtx) in
      match result with
      | None => failed
      | Some result =>
          match xmlSecBufferGetData result with
          | None => failed
          | Some _ =>
              let '(ret, key', ctx') :=
                xmlSecKeyDataBinRead (keyId (keyReq keyInfoCtx)) key
                  (xmlSecBufferGetData result) (xmlSecBufferGetSize result)
                  keyInfoCtx in
              if ret <? 0 then (-1, key', ctx') else (0, key', ctx')
          end
      end
  end.

(** The buffer [keyBuf] is cleared and freed at [done]; storage is not part
    of the state.  The context [keyInfoCtx2] is local to the function. *)
Definition xmlSecKeyDataEncryptedKeyXmlWrite (id : xmlSecKeyDataId) (key : xmlSecKey)
    (node : xmlNode) (keyInfoCtx : xmlSecKeyInfoCtx) : writeResult :=
  if negb (id_eqb id xmlSecKeyDataEncryptedKeyId) then (-1, node, keyInfoCtx) else
  if negb (xmlSecKeyIsValid key) then (-1, node, keyInfoCtx) else
  if negb (mode_eqb (mode keyInfoCtx) xmlSecKeyInfoModeWrite) then (-1, node, keyInfoCtx) else
  (* dump key to a binary buffer *)
  let '(ret, keyInfoCtx2) := xmlSecKeyInfoCtxInitialize None in
  if ret <? 0 then (-1, node, keyInfoCtx) else
  let '(ret, keyInfoCtx2) := xmlSecKeyInfoCtxCopyUserPref keyInfoCtx2 keyInfoCtx in
  if ret <? 0 then (-1, node, keyInfoCtx) else
  let keyInfoCtx2 :=
    set_keyReq (set_keyType xmlSecKeyDataTypeAny (keyReq keyInfoCtx2)) keyInfoCtx2 in
  let '(ret, keyBuf, keySize, keyInfoCtx2) :=
    xmlSecKeyDataBinWrite
      (match key_value key with Some value => kd_id value | None => None end)
      key keyInfoCtx2 in
  if ret <? 0 then (-1, node, keyInfoCtx) else
  let keyInfoCtx2 := xmlSecKeyInfoCtxFinalize keyInfoCtx2 in
  let '(ret, keyInfoCtx) := initEncCtxAndCopyPrefs keyInfoCtx in
  if ret <? 0 then (-1, node, keyInfoCtx) else
  match encCtx keyInfoCtx with
  | None => (-1, node, keyInfoCtx)
  | Some e =>
      (* encrypt *)
      let '(ret, node', e') := xmlSecEncCtxBinaryEncrypt e node keyBuf keySize in
      let keyInfoCtx := set_encCtx (Some e') keyInfoCtx in
      if ret <? 0 then (-1, node', keyInfoCtx) else
      (0, node', keyInfoCtx)
  end.

Definition xmlSecKeyDataDerivedKeyXmlRead (id : xmlSecKeyDataId) (key : xmlSecKey)
    (node : xmlNode) (keyInfoCtx : xmlSecKeyInfoCtx) : readResult :=
  if negb (id_eqb id xmlSecKeyDataDerivedKeyId) then (-1, key, keyInfoCtx) else
  if negb (mode_eqb (mode keyInfoCtx) xmlSecKeyInfoModeRead) then (-1, key, keyInfoCtx) else
  (* check the enc level *)
  if maxEncryptedKeyLevel keyInfoCtx <=? curEncryptedKeyLevel keyInfoCtx
  then (-1, key, keyInfoCtx) else
  let '(ret, keyInfoCtx) := initEncCtxAndCopyPrefs keyInfoCtx in
  if ret <? 0 then (-1, key, keyInfoCtx) else
  match encCtx keyInfoCtx with
  | None => (-1, key, keyInfoCtx)
  | Some _ =>
      let keyInfoCtx :=
        set_curEncryptedKeyLevel (curEncryptedKeyLevel keyInfoCtx + 1) keyInfoCtx in
      let '(generatedKey, keyInfoCtx) :=
        xmlSecEncCtxDerivedKeyGenerate (keyId (keyReq keyInfoCtx)) node keyInfoCtx in
      let keyInfoCtx :=
        set_curEncryptedKeyLevel (curEncryptedKeyLevel keyInfoCtx - 1) keyInfoCtx in
      match generatedKey with
      | None =>
          (* We might have multiple DerivedKey elements, encrypted
             for different recipients but application can enforce
             correct enc key. *)
          if flag_is_set (flags keyInfoCtx)
               XMLSEC_KEYINFO_FLAGS_ENCKEY_DONT_STOP_ON_FAILED_DECRYPTION
          then (-1, key, keyInfoCtx)
          else (0, key, keyInfoCtx)
      | Some generatedKey =>
          if negb (xmlSecKeyReqMatchKey (keyReq keyInfoCtx) generatedKey =? 1)
          then
            (* we are not allowed to use  this key, ignore and continue *)
            (0, key, keyInfoCtx)
          else
            let '(ret, key') := xmlSecKeyCopy key generatedKey in
            if ret <? 0 then (-1, key', keyInfoCtx) else
            (* success *)
            (0, key', keyInfoCtx)
      end
  end.

Definition xmlSecKeyDataDerivedKeyXmlWrite (id : xmlSecKeyDataId) (key : xmlSecKey)
    (node : xmlNode) (keyInfoCtx : xmlSecKeyInfoCtx) : writeResult :=
  if negb (id_eqb id xmlSecKeyDataDerivedKeyId) then (-1, node, keyInfoCtx) else
  if negb (xmlSecKeyIsValid key) then (-1, node, keyInfoCtx) else
  if negb (mode_eqb (mode keyInfoCtx) xmlSecKeyInfoModeWrite) then (-1, node, keyInfoCtx) else
  (* do nothing, the template should already have all the necesary data to
     generate the key correctly *)
  (0, node, keyInfoCtx).

Definition xmlSecKeyDataAgreementMethodXmlRead (id : xmlSecKeyDataId) (key : xmlSecKey)
    (node : xmlNode) (keyInfoCtx : xmlSecKeyInfoCtx) : readResult :=
  if negb (id_eqb id xmlSecKeyDataAgreementMethodId) then (-1, key, keyInfoCtx) else
  if negb (mode_eqb (mode keyInfoCtx) xmlSecKeyInfoModeRead) then (-1, key, keyInfoCtx) else
  (* check the enc level *)
  if maxEncryptedKeyLevel keyInfoCtx <=? curEncryptedKeyLevel keyInfoCtx
  then (-1, key, keyInfoCtx) else
  let '(ret, keyInfoCtx) := initEncCtxAndCopyPrefs keyInfoCtx in
  if ret <? 0 then (-1, key, keyInfoCtx) else
  match encCtx keyInfoCtx with
  | None => (-1, key, keyInfoCtx)
  | Some _ =>
      let keyInfoCtx :=
        set_curEncryptedKeyLevel (curEncryptedKeyLevel keyInfoCtx + 1) keyInfoCtx in
      let '(generatedKey, keyInfoCtx) :=
        xmlSecEncCtxAgreementMethodGenerate (keyId (keyReq keyInfoCtx)) node keyInfoCtx in
      let keyInfoCtx :=
        set_curEncryptedKeyLevel (curEncryptedKeyLevel keyInfoCtx - 1) keyInfoCtx in
      match generatedKey with
      | None =>
          (* We might have multiple AgreementMethod elements, encrypted
             for different recipients but application can enforce
             correct enc key. *)
          if flag_is_set (flags keyInfoCtx)
               XMLSEC_KEYINFO_FLAGS_ENCKEY_DONT_STOP_ON_FAILED_DECRYPTION
          then (-1, key, keyInfoCtx)
          else (0, key, keyInfoCtx)
      | Some generatedKey =>
          if negb (xmlSecKeyReqMatchKey (keyReq keyInfoCtx) generatedKey =? 1)
          then
            (* we are not allowed to use  this key, ignore and continue *)
            (0, key, keyInfoCtx)
          else
            let '(ret, key') := xmlSecKeyCopy key generatedKey in
            if ret <? 0 then (-1, key', keyInfoCtx) else
            (* success *)
            (0, key', keyInfoCtx)
      end
  end.

Definition xmlSecKeyDataAgreementMethodXmlWrite (id : xmlSecKeyDataId) (key : xmlSecKey)
    (node : xmlNode) (keyInfoCtx : xmlSecKeyInfoCtx) : writeResult :=
  if negb (id_eqb id xmlSecKeyDataAgreementMethodId) then (-1, node, keyInfoCtx) else
  if negb (xmlSecKeyIsValid key) then (-1, node, keyInfoCtx) else
  if negb (mode_eqb (mode keyInfoCtx) xmlSecKeyInfoModeWrite) then (-1, node, keyInfoCtx) else
  (* check the enc level *)
  if maxEncryptedKeyLevel keyInfoCtx <=? curEncryptedKeyLevel keyInfoCtx
  then (-1, node, keyInfoCtx) else
  let '(ret, keyInfoCtx) := initEncCtxAndCopyPrefs keyInfoCtx in
  if ret <? 0 then (-1, node, keyInfoCtx) else
  match encCtx keyInfoCtx with
  | None => (-1, node, keyInfoCtx)
  | Some _ =>
      let keyInfoCtx :=
        set_curEncryptedKeyLevel (curEncryptedKeyLevel keyInfoCtx + 1) keyInfoCtx in
      let '(ret, node', keyInfoCtx) :=
        xmlSecEncCtxAgreementMethodXmlWrite node keyInfoCtx in
      let keyInfoCtx :=
        set_curEncryptedKeyLevel (curEncryptedKeyLevel keyInfoCtx - 1) keyInfoCtx in
      if ret <? 0 then (-1, node', keyInfoCtx) else
      (0, node', keyInfoCtx)
  end.

End KeyInfoProcessor.

(** *** The method slots of the klass tables *)

(** [xmlSecKeyDataXmlRead], [xmlSecKeyDataXmlWrite] and
    [xmlSecKeyDataBinRead] restricted to the seven klasses keyinfo.c defines:
    a call goes to the function the klass table names in its [xmlRead] /
    [xmlWrite] slot; the [binRead] slot of all seven tables is [NULL], which
    the dispatcher refuses.  Every other id is served by [ext], the handlers
    registered by other files.  The handlers call the dispatcher again on the
    nodes they find or fetch, so the definition is indexed by the depth of
    nested dispatch it still allows; when it is exhausted the call fails. *)
Section KlassTables.

Context {registry : KeyDataRegistry} {keysOps : KeysOps}
        {xmlOps : XmlTreeOps} {transforms : TransformEngine}
        {listOps : PtrListOps} {enc : EncEngine}
        {binWrite : KeyDataBinWriteOps} {xmlBuild : XmlBuildOps}
        {encWrite : EncWriteEngine}.
Variable ext : KeyDataOps.

Definition exhaustedDataOps : KeyDataOps :=
  {| xmlSecKeyDataXmlRead := fun _ key _ ctx => (-1, key, ctx);
     xmlSecKeyDataXmlWrite := fun _ _ node ctx => (-1, node, ctx);
     xmlSecKeyDataBinRead := fun _ key _ _ ctx => (-1, key, ctx) |}.

Definition defined_in_keyinfo (id : xmlSecKeyDataId) : bool :=
  id_eqb id xmlSecKeyDataNameId || id_eqb id xmlSecKeyDataValueId
  || id_eqb id xmlSecKeyDataRetrievalMethodId
  || id_eqb id xmlSecKeyDataKeyInfoReferenceId
  || id_eqb id xmlSecKeyDataEncryptedKeyId
  || id_eqb id xmlSecKeyDataDerivedKeyId
  || id_eqb id xmlSecKeyDataAgreementMethodId.

Fixpoint keyinfoDataOps (depth : nat) : KeyDataOps :=
  match depth with
  | O => exhaustedDataOps
  | S depth' =>
      let inner := keyinfoDataOps depth' in
      {| xmlSecKeyDataXmlRead := fun id key node ctx =>
           if id_eqb id xmlSecKeyDataNameId then
             xmlSecKeyDataNameXmlRead id key node ctx
           else if id_eqb id xmlSecKeyDataValueId then
             xmlSecKeyDataValueXmlRead (dataOps := inner) id key node ctx
           else if id_eqb id xmlSecKeyDataRetrievalMethodId then
             xmlSecKeyDataRetrievalMethodXmlRead (dataOps := inner) id key node ctx
           else if id_eqb id xmlSecKeyDataKeyInfoReferenceId then
             xmlSecKeyDataKeyInfoReferenceXmlRead (dataOps := inner) id key node ctx
           else if id_eqb id xmlSecKeyDataEncryptedKeyId then
             xmlSecKeyDataEncryptedKeyXmlRead (dataOps := inner) id key node ctx
           else if id_eqb id xmlSecKeyDataDerivedKeyId then
             xmlSecKeyDataDerivedKeyXmlRead id key node ctx
           else if id_eqb id xmlSecKeyDataAgreementMethodId then
             xmlSecKeyDataAgreementMethodXmlRead id key node ctx
           else xmlSecKeyDataXmlRead (KeyDataOps := ext) id key node ctx;
         xmlSecKeyDataXmlWrite := fun id key node ctx =>
           if id_eqb id xmlSecKeyDataNameId then
             xmlSecKeyDataNameXmlWrite id key node ctx
           else if id_eqb id xmlSecKeyDataValueId then
             xmlSecKeyDataValueXmlWrite (dataOps := inner) id key node ctx
           else if id_eqb id xmlSecKeyDataRetrievalMethodId then
             xmlSecKeyDataRetrievalMethodXmlWrite id key node ctx
           else if id_eqb id xmlSecKeyDataKeyInfoReferenceId then
             xmlSecKeyDataKeyInfoReferenceXmlWrite id key node ctx
           else if id_eqb id xmlSecKeyDataEncryptedKeyId then
             xmlSecKeyDataEncryptedKeyXmlWrite id key node ctx
           else if id_eqb id xmlSecKeyDataDerivedKeyId then
             xmlSecKeyDataDerivedKeyXmlWrite id key node ctx
           else if id_eqb id xmlSecKeyDataAgreementMethodId then
             xmlSecKeyDataAgreementMethodXmlWrite id key node ctx
           else xmlSecKeyDataXmlWrite (KeyDataOps := ext) id key node ctx;
         xmlSecKeyDataBinRead := fun id key buf bufSize ctx =>
           if defined_in_keyinfo id then (-1, key, ctx)
           else xmlSecKeyDataBinRead (KeyDataOps := ext) id key buf bufSize ctx |}
  end.

End KlassTables.

(* ================================================================== *)
(** ** A sample configuration of the collaborators *)
(* ================================================================== *)

(** A small concrete library around keyinfo.c, used to run the handlers on
    documents and to instantiate the theorems: two externally registered
    key-data classes (an XML one and a binary one), a keys manager that is an
    association list, a transform engine that resolves a handful of
    same-document URIs, a parser that knows the documents these URIs stand
    for, and an encryption engine that can decrypt what is addressed to the
    recipient "me". *)
Module Sample.

Definition rsaKlass : xmlSecKeyDataKlass :=
  {| klassName := "rsa";
     klassUsage := Z.lor (Z.lor xmlSecKeyDataUsageKeyInfoNode xmlSecKeyDataUsageKeyValueNode)
                         xmlSecKeyDataUsageRetrievalMethodNodeXml;
     klassHref := Some "http://www.w3.org/2000/09/xmldsig#RSAKeyValue";
     dataNodeName := Some "RSAKeyValue";
     dataNodeNs := Some xmlSecDSigNs |}.

Definition aesKlass : xmlSecKeyDataKlass :=
  {| klassName := "aes";
     klassUsage := xmlSecKeyDataUsageRetrievalMethodNodeBin;
     klassHref := Some "http://www.aleksey.com/xmlsec/2002#AESKeyValue";
     dataNodeName := Some "AESKeyValue";
     dataNodeNs := Some "http://www.aleksey.com/xmlsec/2002" |}.

Definition registry : KeyDataRegistry :=
  {| xmlSecKeyDataIdsGet :=
       [ xmlSecKeyDataNameKlass; xmlSecKeyDataValueKlass;
         xmlSecKeyDataRetrievalMethodKlass; xmlSecKeyDataKeyInfoReferenceKlass;
         xmlSecKeyDataEncryptedKeyKlass; xmlSecKeyDataDerivedKeyKlass;
         xmlSecKeyDataAgreementMethodKlass; rsaKlass; aesKlass ] |}.

Definition set_key_value (v : option xmlSecKeyData) (key : xmlSecKey) : xmlSecKey :=
  {| key_name := key_name key; key_value := v; key_dataList := key_dataList key |}.

(** The externally registered handlers: reading stores a value tagged with
    the handler id, writing puts a text child into the node. *)
Definition externalOps : KeyDataOps :=
  {| xmlSecKeyDataXmlRead := fun id key node ctx =>
       (0, set_key_value (Some {| kd_id := id; kd_material := [] |}) key, ctx);
     xmlSecKeyDataXmlWrite := fun id key node ctx =>
       (0, set_node_children node [XmlText "key material"], ctx);
     xmlSecKeyDataBinRead := fun id key buf bufSize ctx =>
       match id, buf with
       | Some _, Some octets =>
           (0, set_key_value (Some {| kd_id := id; kd_material := octets |}) key, ctx)
       | _, _ => (-1, key, ctx)
       end |}.

Definition reqMatchKey (req : xmlSecKeyReq) (key : xmlSecKey) : Z :=
  match key_value key with
  | Some d => if id_eqb (keyId req) None || id_eqb (keyId req) (kd_id d) then 1 else 0
  | None => 0
  end.

Fixpoint findKey (mngr : xmlSecKeysMngr) (name : string) : option xmlSecKey :=
  match mngr with
  | [] => None
  | (n, k) :: rest => if String.eqb n name then Some k else findKey rest name
  end.

Definition keysOps : KeysOps :=
  {| xmlSecKeyReqInitialize :=
       (0, {| keyId := None; keyType := 0; keyUsage := 0; keyBitsSize := 0 |});
     xmlSecKeyReqReset := fun _ =>
       {| keyId := None; keyType := 0; keyUsage := 0; keyBitsSize := 0 |};
     xmlSecKeyMatch := fun key name req =>
       match name with
       | Some _ => if xmlStrEqual (xmlSecKeyGetName key) name then reqMatchKey req key else 0
       | None => reqMatchKey req key
       end;
     xmlSecKeyReqMatchKey := reqMatchKey;
     xmlSecKeysMngrFindKey := fun mngr name _ => findKey mngr name |}.

(** The documents the sample parser knows, chosen by the first octet. *)
Definition docKeyName : xmlDoc :=
  {| doc_children := [XmlElement "KeyName" (Some xmlSecDSigNs) [] [XmlText "alice"]] |}.
Definition docRsa : xmlDoc :=
  {| doc_children := [XmlComment "a key"; XmlElement "RSAKeyValue" (Some xmlSecDSigNs) [] []] |}.
Definition docKeyInfo : xmlDoc :=
  {| doc_children :=
       [XmlElement "KeyInfo" (Some xmlSecDSigNs) []
          [XmlElement "KeyName" (Some xmlSecDSigNs) [] [XmlText "alice"]]] |}.
Definition docChain : xmlDoc :=
  {| doc_children :=
       [XmlElement "RetrievalMethod" (Some xmlSecDSigNs)
          [("URI", "#rsa"); ("Type", "http://www.w3.org/2000/09/xmldsig#RSAKeyValue")] []] |}.
Definition docUnknown : xmlDoc :=
  {| doc_children := [XmlElement "Other" (Some "urn:example") [] []] |}.

Fixpoint dropSpaces (s : string) : string :=
  match s with
  | String c rest => if Ascii.eqb c (Ascii.ascii_of_nat 32) then dropSpaces rest else s
  | EmptyString => EmptyString
  end.

Definition reverse (s : string) : string :=
  string_of_list_ascii (List.rev (list_ascii_of_string s)).

Definition trim (s : string) : string :=
  reverse (dropSpaces (reverse (dropSpaces s))).

Definition firstText (children : list xmlNode) : option string :=
  match children with
  | XmlText s :: _ => if String.eqb (trim s) "" then None else Some (trim s)
  | _ => None
  end.

Definition xmlOps : XmlTreeOps :=
  {| xmlSecBase64GetDefaultLineSize := 64;
     node_doc := fun n => Some {| doc_children := [n] |};
     xmlSecGetNodeContentAndTrim := fun n => firstText (node_children n);
     xmlSecIsEmptyNode := fun n => match node_children n with [] => 1 | _ => 0 end;
     xmlSecNodeEncodeAndSetContent := fun n name =>
       match name with
       | Some s => (0, set_node_children n [XmlText s])
       | None => (-1, n)
       end;
     xmlRecoverMemory := fun buf _ =>
       match buf with
       | Some [x01] => Some docKeyName
       | Some [x02] => Some docRsa
       | Some [x03] => Some docKeyInfo
       | Some [x04] => Some docChain
       | Some [x05] => Some docUnknown
       | _ => None
       end |}.

Definition fetch (uri : option string) : option xmlSecBuffer :=
  match uri with
  | Some u =>
      if String.eqb u "#name" then Some [x01]
      else if String.eqb u "#rsa" then Some [x02]
      else if String.eqb u "#keyinfo" then Some [x03]
      else if String.eqb u "#chain" then Some [x04]
      else if String.eqb u "#other" then Some [x05]
      else if String.eqb u "#raw" then Some [x61; x62; x63]
      else if String.eqb u "#empty" then Some []
      else None
  | None => None
  end.

Definition transforms : TransformEngine :=
  {| xmlSecTransformCtxInitialize :=
       (0, {| tr_userPrefs := 0; tr_uri := None; tr_result := None |});
     xmlSecTransformCtxReset := fun t =>
       {| tr_userPrefs := tr_userPrefs t; tr_uri := None; tr_result := None |};
     xmlSecTransformCtxSetUri := fun t uri _ =>
       (0, {| tr_userPrefs := tr_userPrefs t; tr_uri := uri; tr_result := tr_result t |});
     xmlSecTransformCtxNodesListRead := fun t _ _ => (0, t);
     xmlSecTransformCtxExecute := fun t _ =>
       match fetch (tr_uri t) with
       | Some octets =>
           (0, {| tr_userPrefs := tr_userPrefs t; tr_uri := tr_uri t;
                  tr_result := Some octets |})
       | None => (-1, t)
       end;
     xmlSecTransformCtxCopyUserPref := fun dst src =>
       (0, {| tr_userPrefs := tr_userPrefs src; tr_uri := tr_uri dst;
              tr_result := tr_result dst |}) |}.

Definition listOps : PtrListOps :=
  {| xmlSecPtrListInitialize := (0, []);
     xmlSecPtrListCopy := fun _ src => (0, src) |}.

Definition addressedToMe (node : xmlNode) : bool :=
  xmlStrEqual (xmlGetProp node "Recipient") (Some "me").

Definition sessionKey (id : xmlSecKeyDataId) : xmlSecKey :=
  {| key_name := None;
     key_value := Some {| kd_id := id; kd_material := [x2a] |};
     key_dataList := [] |}.

Definition enc : EncEngine :=
  {| xmlSecEncCtxCreate := fun _ =>
       Some (Build_xmlSecEncCtx xmlEncCtxModeEncryptedData
               zeroed_xmlSecKeyInfoCtx
               (set_mode xmlSecKeyInfoModeWrite zeroed_xmlSecKeyInfoCtx) 0 0);
     xmlSecEncCtxReset := fun e =>
       Build_xmlSecEncCtx (encMode e) (keyInfoReadCtx e) (keyInfoWriteCtx e)
         (encUserPrefs e) 0;
     xmlSecEncCtxCopyUserPref := fun dst src =>
       (0, Build_xmlSecEncCtx (encMode dst) (keyInfoReadCtx dst) (keyInfoWriteCtx dst)
             (encUserPrefs src) (encState dst));
     xmlSecEncCtxDecryptToBuffer := fun e node =>
       if addressedToMe node
       then (Some [x2a; x2b],
             Build_xmlSecEncCtx (encMode e) (keyInfoReadCtx e) (keyInfoWriteCtx e)
               (encUserPrefs e) 1)
       else (None,
             Build_xmlSecEncCtx (encMode e) (keyInfoReadCtx e) (keyInfoWriteCtx e)
               (encUserPrefs e) 2);
     xmlSecEncCtxDerivedKeyGenerate := fun id node ctx =>
       if addressedToMe node then (Some (sessionKey id), ctx) else (None, ctx);
     xmlSecEncCtxAgreementMethodGenerate := fun id node ctx =>
       if addressedToMe node then (Some (sessionKey id), ctx) else (None, ctx);
     xmlSecEncCtxAgreementMethodXmlWrite := fun node ctx => (0, node, ctx) |}.

(** The write side of the sample library: a key value is serialised as its
    material (a value without material cannot be serialised), a new child is
    set between line breaks, the encryption engine replaces the content of
    the template when it is given octets, and each debug dump prints one
    line. *)
Definition binWrite : KeyDataBinWriteOps :=
  {| xmlSecKeyDataBinWrite := fun id key ctx =>
       match key_value key with
       | Some d =>
           match kd_material d with
           | [] => (-1, None, 0, ctx)
           | octets => (0, Some octets, Z.of_nat (List.length octets), ctx)
           end
       | None => (-1, None, 0, ctx)
       end |}.

Definition xmlBuild : XmlBuildOps :=
  {| xmlSecAddChild := fun parent name ns =>
       match parent, name with
       | XmlElement _ _ _ [], Some nm =>
           AddChildAt [XmlText LF] (XmlElement nm ns [] []) [XmlText LF]
       | XmlElement _ _ _ children, Some nm =>
           AddChildAt children (XmlElement nm ns [] []) [XmlText LF]
       | _, _ => AddChildNull parent
       end |}.

Definition encWrite : EncWriteEngine :=
  {| xmlSecEncCtxBinaryEncrypt := fun e tmpl data dataSize =>
       match data with
       | Some _ =>
           (0, set_node_children tmpl [XmlText "cipher value"],
            Build_xmlSecEncCtx (encMode e) (keyInfoReadCtx e) (keyInfoWriteCtx e)
              (encUserPrefs e) 3)
       | None => (-1, tmpl, e)
       end |}.

Definition debugOps : DebugDumpOps :=
  {| xmlSecKeyDataIdListDebugDump := fun _ output => fprintf output ("ids" ++ LF)%string;
     xmlSecKeyDataIdListDebugXmlDump := fun _ output =>
       fprintf output ("<KeyDataId />" ++ LF)%string;
     xmlSecTransformCtxDebugDump := fun _ output =>
       fprintf output ("== TRANSFORMS CTX" ++ LF)%string;
     xmlSecTransformCtxDebugXmlDump := fun _ output =>
       fprintf output ("<TransformCtx />" ++ LF)%string;
     xmlSecEncCtxDebugDump := fun _ output =>
       fprintf output ("= ENCRYPTION CONTEXT" ++ LF)%string;
     xmlSecEncCtxDebugXmlDump := fun _ output =>
       fprintf output ("<EncryptionContext />" ++ LF)%string;
     xmlSecKeyReqDebugDump := fun _ output => fprintf output ("=== KeyReq" ++ LF)%string;
     xmlSecKeyReqDebugXmlDump := fun _ output =>
       fprintf output ("<KeyReq />" ++ LF)%string |}.

(** The dispatcher of the sample library: the klass tables of keyinfo.c over
    the external handlers, four levels of nested dispatch deep. *)
Definition dataOps : KeyDataOps :=
  keyinfoDataOps (registry := registry) (keysOps := keysOps) (xmlOps := xmlOps)
    (transforms := transforms) (listOps := listOps) (enc := enc)
    (binWrite := binWrite) (xmlBuild := xmlBuild) (encWrite := encWrite) externalOps 4.

(** A context as [xmlSecKeyInfoCtxInitialize] leaves it, and variants. *)
Definition readCtx : xmlSecKeyInfoCtx :=
  snd (xmlSecKeyInfoCtxInitialize (keysOps := keysOps) (xmlOps := xmlOps)
         (transforms := transforms) (listOps := listOps) None).
Definition writeCtx : xmlSecKeyInfoCtx := set_mode xmlSecKeyInfoModeWrite readCtx.

Definition emptyKey : xmlSecKey :=
  {| key_name := None; key_value := None; key_dataList := [] |}.
Definition rsaKey : xmlSecKey :=
  {| key_name := None;
     key_value := Some {| kd_id := Some rsaKlass; kd_material := [x01; x02] |};
     key_dataList := [] |}.

Definition dsElement (name : string) (attrs : list (string * string))
    (children : list xmlNode) : xmlNode :=
  XmlElement name (Some xmlSecDSigNs) attrs children.
Definition encElement (name : string) (attrs : list (string * string))
    (children : list xmlNode) : xmlNode :=
  XmlElement name (Some xmlSecEncNs) attrs children.

Definition keyNameNode (s : string) : xmlNode := dsElement "KeyName" [] [XmlText s].
Definition keyInfo (children : list xmlNode) : xmlNode := dsElement "KeyInfo" [] children.

Definition rsaType : string := "http://www.w3.org/2000/09/xmldsig#RSAKeyValue".
Definition rsaValue : option xmlSecKeyData :=
  Some {| kd_id := Some rsaKlass; kd_material := [] |}.

End Sample.

(* ================================================================== *)
(** ** Definitions that follow the words of the specification *)
(* ================================================================== *)

(** Section 4.2 of the specification, [find_by_node]: the lookup goes to the
    context's [enabled_key_data] when that list is non-empty and to the
    global registry otherwise. *)
Definition find_by_node {registry : KeyDataRegistry} (ctx : xmlSecKeyInfoCtx)
    (n : xmlNode) (usage : Z) : xmlSecKeyDataId :=
  match enabledKeyData ctx with
  | [] => xmlSecKeyDataIdListFindByNode xmlSecKeyDataIdsGet
            (node_name n) (xmlSecGetNodeNsHref n) usage
  | _ :: _ => xmlSecKeyDataIdListFindByNode (enabledKeyData ctx)
            (node_name n) (xmlSecGetNodeNsHref n) usage
  end.

(** Section 4.2 of the specification, [find_by_href]. *)
Definition find_by_href {registry : KeyDataRegistry} (ctx : xmlSecKeyInfoCtx)
    (uri : option string) (usage : Z) : xmlSecKeyDataId :=
  match enabledKeyData ctx with
  | [] => xmlSecKeyDataIdListFindByHref xmlSecKeyDataIdsGet uri usage
  | _ :: _ => xmlSecKeyDataIdListFindByHref (enabledKeyData ctx) uri usage
  end.

(** Sections 4.2 and 8 of the specification: [ids] is the one list a lookup
    made under [ctx] goes to, the allow-list of the context when that list
    is non-empty and the global registry when it is empty. *)
Definition consulted_list {registry : KeyDataRegistry} (ctx : xmlSecKeyInfoCtx)
    (ids : xmlSecKeyDataIdList) : Prop :=
  (enabledKeyData ctx <> [] /\ ids = enabledKeyData ctx) \/
  (enabledKeyData ctx = [] /\ ids = xmlSecKeyDataIdsGet).

(** Section 4.3 of the specification without the early termination: every
    element child, in document order, is resolved and handed to its handler;
    an unresolved child is ignored unless [STOP_ON_UNKNOWN_CHILD] is set; an
    error aborts the pass.  The state of the key is never consulted. *)
Fixpoint read_every_element_child {registry : KeyDataRegistry} {dataOps : KeyDataOps}
    (cur : list xmlNode) (key : xmlSecKey) (ctx : xmlSecKeyInfoCtx) : readResult :=
  match cur with
  | [] => (0, key, ctx)
  | n :: next =>
      if isElementNode n then
        match find_by_node ctx n xmlSecKeyDataUsageKeyInfoNodeRead with
        | Some k =>
            let '(ret, key', ctx') := xmlSecKeyDataXmlRead (Some k) key n ctx in
            if ret <? 0 then (-1, key', ctx')
            else read_every_element_child next key' ctx'
        | None =>
            if flag_is_set (flags ctx) XMLSEC_KEYINFO_FLAGS_STOP_ON_UNKNOWN_CHILD
            then (-1, key, ctx)
            else read_every_element_child next key ctx
        end
      else read_every_element_child next key ctx
  end.

(** Section 4.6 of the specification, step 3: the expected handler named by
    the [Type] attribute of a RetrievalMethod node, Unknown when the
    attribute is absent or does not resolve. *)
Definition expected_retrieval_type {registry : KeyDataRegistry}
    (ctx : xmlSecKeyInfoCtx) (node : xmlNode) : xmlSecKeyDataId :=
  match xmlGetProp node xmlSecAttrType with
  | Some t => find_by_href ctx (Some t) xmlSecKeyDataUsageRetrievalMethodNode
  | None => xmlSecKeyDataIdUnknown
  end.

(** Sections 3 and 7 of the specification, the discipline of a recursion
    counter across a call entered with context [entry]: a call that succeeds
    leaves the counter as it found it, a call that fails does not lower
    it. *)
Definition keeps_level {A : Type} (level : xmlSecKeyInfoCtx -> Z)
    (entry : xmlSecKeyInfoCtx) (r : Z * A * xmlSecKeyInfoCtx) : Prop :=
  (0 <= status_of r -> level (ctx_of r) = level entry) /\
  (level entry <= level (ctx_of r)).

(** The outcome of a handler that raises its counter on entry and lowers it
    on the successful exit only: status 0 with the counter back at its entry
    value, or status -1 with the counter still raised. *)
Definition restored_on_success_only {A : Type} (level : xmlSecKeyInfoCtx -> Z)
    (entry : xmlSecKeyInfoCtx) (r : Z * A * xmlSecKeyInfoCtx) : Prop :=
  (status_of r = 0 /\ level (ctx_of r) = level entry) \/
  (status_of r = -1 /\ level entry + 1 <= level (ctx_of r)).

(** The outcome of a handler that raises its counter around one call and
    lowers it right after: status 0 or -1, the counter at its entry value
    either way. *)
Definition restored_always {A : Type} (level : xmlSecKeyInfoCtx -> Z)
    (entry : xmlSecKeyInfoCtx) (r : Z * A * xmlSecKeyInfoCtx) : Prop :=
  (status_of r = 0 \/ status_of r = -1) /\ level (ctx_of r) = level entry.

(** The element children of a node. *)
Definition element_children (n : xmlNode) : list xmlNode :=
  filter isElementNode (node_children n).

(* ================================================================== *)
(** ** Definitions used to state the further properties *)
(* ================================================================== *)

(** A context with another transient state: the key requirement and the
    three level counters are replaced, everything else is kept. *)
Definition with_transient_state (req : xmlSecKeyReq) (rm kir ek : Z)
    (ctx : xmlSecKeyInfoCtx) : xmlSecKeyInfoCtx :=
  set_keyReq req
    (set_curRetrievalMethodLevel rm
       (set_curKeyInfoReferenceLevel kir (set_curEncryptedKeyLevel ek ctx))).

(** The plain user settings of [a] are those of [b]: the fields
    [xmlSecKeyInfoCtxCopyUserPref] assigns. *)
Definition same_user_settings (a b : xmlSecKeyInfoCtx) : Prop :=
  userData a = userData b /\ flags a = flags b /\ flags2 a = flags2 b /\
  keysMngr a = keysMngr b /\ base64LineSize a = base64LineSize b /\
  maxRetrievalMethodLevel a = maxRetrievalMethodLevel b /\
  maxKeyInfoReferenceLevel a = maxKeyInfoReferenceLevel b /\
  maxEncryptedKeyLevel a = maxEncryptedKeyLevel b /\
  certsVerificationTime a = certsVerificationTime b /\
  certsVerificationDepth a = certsVerificationDepth b.

(** A transform engine with another [xmlSecTransformCtxExecute], an XML
    library with another parser, a method dispatch with another
    [xmlSecKeyDataBinRead]: a function that gives the same result with
    every replacement does not call the method replaced. *)
Definition with_execute
    (execute : xmlSecTransformCtx -> option xmlDoc -> Z * xmlSecTransformCtx)
    (engine : TransformEngine) : TransformEngine :=
  {| xmlSecTransformCtxInitialize := xmlSecTransformCtxInitialize (TransformEngine := engine);
     xmlSecTransformCtxReset := xmlSecTransformCtxReset (TransformEngine := engine);
     xmlSecTransformCtxSetUri := xmlSecTransformCtxSetUri (TransformEngine := engine);
     xmlSecTransformCtxNodesListRead :=
       xmlSecTransformCtxNodesListRead (TransformEngine := engine);
     xmlSecTransformCtxExecute := execute;
     xmlSecTransformCtxCopyUserPref :=
       xmlSecTransformCtxCopyUserPref (TransformEngine := engine) |}.

Definition with_parser (parser : option (list byte) -> Z -> option xmlDoc)
    (ops : XmlTreeOps) : XmlTreeOps :=
  {| xmlSecBase64GetDefaultLineSize := xmlSecBase64GetDefaultLineSize (XmlTreeOps := ops);
     node_doc := node_doc (XmlTreeOps := ops);
     xmlSecGetNodeContentAndTrim := xmlSecGetNodeContentAndTrim (XmlTreeOps := ops);
     xmlSecIsEmptyNode := xmlSecIsEmptyNode (XmlTreeOps := ops);
     xmlSecNodeEncodeAndSetContent := xmlSecNodeEncodeAndSetContent (XmlTreeOps := ops);
     xmlRecoverMemory := parser |}.

Definition with_bin_read
    (binRead : xmlSecKeyDataId -> xmlSecKey -> option (list byte) -> Z
               -> xmlSecKeyInfoCtx -> readResult)
    (ops : KeyDataOps) : KeyDataOps :=
  {| xmlSecKeyDataXmlRead := xmlSecKeyDataXmlRead (KeyDataOps := ops);
     xmlSecKeyDataXmlWrite := xmlSecKeyDataXmlWrite (KeyDataOps := ops);
     xmlSecKeyDataBinRead := binRead |}.

(** The element children of a RetrievalMethod node are not "at most one
    child, a <dsig:Transforms/>". *)
Definition unexpected_retrieval_child (node : xmlNode) : bool :=
  match xmlSecGetNextElementNode (node_children node) with
  | [] => false
  | c :: next =>
      if xmlSecCheckNodeName c xmlSecNodeTransforms xmlSecDSigNs
      then match xmlSecGetNextElementNode next with [] => false | _ :: _ => true end
      else true
  end.

(** The three klasses whose write method leaves the template as it is. *)
Definition written_from_template_only (id : xmlSecKeyDataId) : bool :=
  id_eqb id xmlSecKeyDataRetrievalMethodId
  || id_eqb id xmlSecKeyDataKeyInfoReferenceId
  || id_eqb id xmlSecKeyDataDerivedKeyId.

(* ================================================================== *)
(** ** Basic facts *)
(* ================================================================== *)

(** Proof steps shared by the proofs below. *)

(** Reading a field of a context after field assignments. *)
Ltac ctx_simpl :=
  cbn [userData flags flags2 keysMngr mode enabledKeyData base64LineSize
       retrievalMethodCtx maxRetrievalMethodLevel keyInfoReferenceCtx
       maxKeyInfoReferenceLevel encCtx maxEncryptedKeyLevel
       certsVerificationTime certsVerificationDepth operation
       curRetrievalMethodLevel curKeyInfoReferenceLevel curEncryptedKeyLevel
       keyReq set_userData set_flags set_flags2 set_keysMngr set_mode
       set_enabledKeyData set_base64LineSize set_retrievalMethodCtx
       set_maxRetrievalMethodLevel set_keyInfoReferenceCtx
       set_maxKeyInfoReferenceLevel set_encCtx set_maxEncryptedKeyLevel
       set_certsVerificationTime set_certsVerificationDepth set_operation
       set_curRetrievalMethodLevel set_curKeyInfoReferenceLevel
       set_curEncryptedKeyLevel set_keyReq encMode keyInfoReadCtx
       keyInfoWriteCtx encUserPrefs encState set_encMode set_keyInfoReadCtx
       set_keyInfoWriteCtx] in *.

(** Case analysis on the test the left-hand side is blocked on. *)
Ltac head_scrutinee x :=
  lazymatch x with
  | match ?y with _ => _ end => head_scrutinee y
  | _ => x
  end.

Ltac step_lhs :=
  lazymatch goal with
  | |- ?lhs = _ =>
      lazymatch lhs with
      | match ?y with _ => _ end =>
          let z := head_scrutinee y in destruct z eqn:?; cbv beta iota
      end
  end.

Ltac same := lazymatch goal with |- ?a = ?a => reflexivity end.

Lemma xmlSecPtrListGetSize_pos {A : Type} (l : list A) :
  (0 <? xmlSecPtrListGetSize l) = match l with [] => false | _ :: _ => true end.
Proof.
  destruct l as [|a l]; [reflexivity|].
  unfold xmlSecPtrListGetSize. apply Z.ltb_lt. simpl List.length. lia.
Qed.

(** The lookup written out at each dispatch site of keyinfo.c is
    [find_by_node]. *)
Lemma site_lookup_by_node {registry : KeyDataRegistry} ctx n usage :
  (if 0 <? xmlSecPtrListGetSize (enabledKeyData ctx)
   then xmlSecKeyDataIdListFindByNode (enabledKeyData ctx)
          (node_name n) (xmlSecGetNodeNsHref n) usage
   else xmlSecKeyDataIdListFindByNode xmlSecKeyDataIdsGet
          (node_name n) (xmlSecGetNodeNsHref n) usage)
  = find_by_node ctx n usage.
Proof.
  unfold find_by_node. rewrite xmlSecPtrListGetSize_pos.
  destruct (enabledKeyData ctx); reflexivity.
Qed.

Lemma site_lookup_by_href {registry : KeyDataRegistry} ctx uri usage :
  (if 0 <? xmlSecPtrListGetSize (enabledKeyData ctx)
   then xmlSecKeyDataIdListFindByHref (enabledKeyData ctx) uri usage
   else xmlSecKeyDataIdListFindByHref xmlSecKeyDataIdsGet uri usage)
  = find_by_href ctx uri usage.
Proof.
  unfold find_by_href. rewrite xmlSecPtrListGetSize_pos.
  destruct (enabledKeyData ctx); reflexivity.
Qed.

Lemma site_expected_retrieval_type {registry : KeyDataRegistry} ctx node :
  match xmlGetProp node xmlSecAttrType with
  | Some _ =>
      if 0 <? xmlSecPtrListGetSize (enabledKeyData ctx)
      then xmlSecKeyDataIdListFindByHref (enabledKeyData ctx)
             (xmlGetProp node xmlSecAttrType) xmlSecKeyDataUsageRetrievalMethodNode
      else xmlSecKeyDataIdListFindByHref xmlSecKeyDataIdsGet
             (xmlGetProp node xmlSecAttrType) xmlSecKeyDataUsageRetrievalMethodNode
  | None => xmlSecKeyDataIdUnknown
  end = expected_retrieval_type ctx node.
Proof.
  unfold expected_retrieval_type.
  rewrite site_lookup_by_href.
  destruct (xmlGetProp node xmlSecAttrType); reflexivity.
Qed.

Lemma xmlSecGetNextElementNode_nil_iff (l : list xmlNode) :
  xmlSecGetNextElementNode l = [] <-> Forall (fun n => isElementNode n = false) l.
Proof.
  induction l as [|n l IH]; simpl.
  - split; auto.
  - destruct (isElementNode n) eqn:E.
    + split; [discriminate|]. intros H. inversion H; congruence.
    + rewrite IH. split; intros H.
      * constructor; assumption.
      * inversion H; assumption.
Qed.

Lemma xmlSecGetNextElementNode_head (l : list xmlNode) n rest :
  xmlSecGetNextElementNode l = n :: rest -> isElementNode n = true.
Proof.
  induction l as [|m l IH]; simpl; [discriminate|].
  destruct (isElementNode m) eqn:E; [|exact IH].
  intros H. inversion H; subst. exact E.
Qed.

Lemma mode_eqb_refl m : mode_eqb m m = true.
Proof. destruct m; reflexivity. Qed.

Lemma mode_eqb_eq a b : mode_eqb a b = true <-> a = b.
Proof. destruct a, b; simpl; split; congruence. Qed.

(* ================================================================== *)
(** ** The KeyInfo read driver *)
(* ================================================================== *)

Section ReadDriver.

Context {registry : KeyDataRegistry} {keysOps : KeysOps}.

(** One turn of the loop of [xmlSecKeyInfoNodeRead] at an element node whose
    handler is found and succeeds: the loop goes on with the next sibling. *)
Lemma read_loop_dispatch {dataOps : KeyDataOps} n next key ctx k ret key' ctx' :
  isElementNode n = true ->
  (flag_is_set (flags ctx) XMLSEC_KEYINFO_FLAGS_DONT_STOP_ON_KEY_FOUND
   || negb (xmlSecKeyIsValid key)
   || (xmlSecKeyMatch key None (keyReq ctx) =? 0)) = true ->
  find_by_node ctx n xmlSecKeyDataUsageKeyInfoNodeRead = Some k ->
  xmlSecKeyDataXmlRead (Some k) key n ctx = (ret, key', ctx') ->
  0 <= ret ->
  xmlSecKeyInfoNodeRead_loop (n :: next) key ctx
  = xmlSecKeyInfoNodeRead_loop next key' ctx'.
Proof.
  intros He Hg Hk Hr Hret.
  cbn [xmlSecKeyInfoNodeRead_loop]. rewrite He. cbn [negb].
  rewrite Hg, site_lookup_by_node, Hk, Hr.
  destruct (ret <? 0) eqn:E; [apply Z.ltb_lt in E; lia | reflexivity].
Qed.

(** When the loop condition fails at the cursor the function returns at
    once. *)
Lemma read_loop_key_found {dataOps : KeyDataOps} cur key ctx :
  flag_is_set (flags ctx) XMLSEC_KEYINFO_FLAGS_DONT_STOP_ON_KEY_FOUND = false ->
  xmlSecKeyIsValid key = true ->
  xmlSecKeyMatch key None (keyReq ctx) <> 0 ->
  xmlSecKeyInfoNodeRead_loop cur key ctx = (0, key, ctx).
Proof.
  intros Hf Hv Hm.
  induction cur as [|n next IH]; [reflexivity|].
  cbn [xmlSecKeyInfoNodeRead_loop].
  destruct (isElementNode n); cbn [negb]; [|exact IH].
  rewrite Hf, Hv. cbn [negb orb].
  destruct (xmlSecKeyMatch key None (keyReq ctx) =? 0) eqn:E.
  - apply Z.eqb_eq in E. contradiction.
  - reflexivity.
Qed.

Lemma read_loop_dont_stop {dataOps : KeyDataOps}
    (Hflags : forall id k n c, flags (ctx_of (xmlSecKeyDataXmlRead id k n c)) = flags c)
    cur : forall key ctx,
  flag_is_set (flags ctx) XMLSEC_KEYINFO_FLAGS_DONT_STOP_ON_KEY_FOUND = true ->
  xmlSecKeyInfoNodeRead_loop cur key ctx = read_every_element_child cur key ctx.
Proof.
  induction cur as [|n next IH]; intros key ctx Hf; [reflexivity|].
  cbn [xmlSecKeyInfoNodeRead_loop read_every_element_child].
  destruct (isElementNode n); cbn [negb]; [|apply IH; exact Hf].
  rewrite Hf. cbn [orb]. rewrite site_lookup_by_node.
  destruct (find_by_node ctx n xmlSecKeyDataUsageKeyInfoNodeRead) as [k|].
  - pose proof (Hflags (Some k) key n ctx) as Hp.
    destruct (xmlSecKeyDataXmlRead (Some k) key n ctx) as [[ret key'] ctx'].
    unfold ctx_of in Hp. simpl in Hp.
    destruct (ret <? 0); [reflexivity|].
    apply IH. rewrite Hp. exact Hf.
  - destruct (flag_is_set (flags ctx) XMLSEC_KEYINFO_FLAGS_STOP_ON_UNKNOWN_CHILD);
      [reflexivity|]. apply IH. exact Hf.
Qed.

(** A pass over children none of which resolves to a handler, in lax mode,
    changes nothing. *)
Lemma read_loop_all_unknown {dataOps : KeyDataOps} cur key ctx :
  flag_is_set (flags ctx) XMLSEC_KEYINFO_FLAGS_STOP_ON_UNKNOWN_CHILD = false ->
  Forall (fun n => isElementNode n = true ->
                   find_by_node ctx n xmlSecKeyDataUsageKeyInfoNodeRead = None) cur ->
  xmlSecKeyInfoNodeRead_loop cur key ctx = (0, key, ctx).
Proof.
  intros Hf Hall.
  induction Hall as [|n next Hn Hall IH]; [reflexivity|].
  cbn [xmlSecKeyInfoNodeRead_loop].
  destruct (isElementNode n) eqn:He; cbn [negb]; [|exact IH].
  rewrite site_lookup_by_node, (Hn eq_refl), Hf, IH.
  destruct (_ || _ || _); reflexivity.
Qed.

Lemma read_loop_no_element {dataOps : KeyDataOps} cur key ctx :
  xmlSecGetNextElementNode cur = [] ->
  xmlSecKeyInfoNodeRead_loop cur key ctx = (0, key, ctx).
Proof.
  rewrite xmlSecGetNextElementNode_nil_iff. intros Hall.
  induction Hall as [|n next Hn Hall IH]; [reflexivity|].
  cbn [xmlSecKeyInfoNodeRead_loop]. rewrite Hn. exact IH.
Qed.

End ReadDriver.

(** C1.  In read mode the condition of the child loop is evaluated before
    every iteration.  (1) With [DONT_STOP_ON_KEY_FOUND] clear, a valid key
    and a matching key requirement, the loop stops at whatever sibling the
    cursor stands on and the function returns 0 with key and context as they
    are, for every handler dispatch: no further child is handed to a
    handler.  (2) In particular, once a handler has produced such a key the
    siblings after its node are not dispatched.  (3) With the flag set (and
    handlers that leave the flags alone) the pass is
    [read_every_element_child]: every element child is dispatched in
    document order whatever the state of the key, until a handler fails or
    an unknown child is refused. *)
Theorem keyinfo_read_stops_once_key_found
    {registry : KeyDataRegistry} {keysOps : KeysOps} :
  forall (keyInfoNode : xmlNode) (cur : list xmlNode) (key : xmlSecKey)
         (ctx : xmlSecKeyInfoCtx),
    (flag_is_set (flags ctx) XMLSEC_KEYINFO_FLAGS_DONT_STOP_ON_KEY_FOUND = false ->
     xmlSecKeyIsValid key = true ->
     xmlSecKeyMatch key None (keyReq ctx) <> 0 ->
     forall dataOps : KeyDataOps,
       xmlSecKeyInfoNodeRead_loop cur key ctx = (0, key, ctx) /\
       (mode ctx = xmlSecKeyInfoModeRead ->
        xmlSecKeyInfoNodeRead keyInfoNode key ctx = (0, key, ctx)))
    /\
    (forall (dataOps : KeyDataOps) n k ret key' ctx',
       isElementNode n = true ->
       xmlSecKeyIsValid key = false ->
       find_by_node ctx n xmlSecKeyDataUsageKeyInfoNodeRead = Some k ->
       xmlSecKeyDataXmlRead (Some k) key n ctx = (ret, key', ctx') ->
       0 <= ret ->
       flag_is_set (flags ctx') XMLSEC_KEYINFO_FLAGS_DONT_STOP_ON_KEY_FOUND = false ->
       xmlSecKeyIsValid key' = true ->
       xmlSecKeyMatch key' None (keyReq ctx') <> 0 ->
       xmlSecKeyInfoNodeRead_loop (n :: cur) key ctx = (0, key', ctx'))
    /\
    (forall dataOps : KeyDataOps,
       (forall id k n c, flags (ctx_of (xmlSecKeyDataXmlRead id k n c)) = flags c) ->
       flag_is_set (flags ctx) XMLSEC_KEYINFO_FLAGS_DONT_STOP_ON_KEY_FOUND = true ->
       xmlSecKeyInfoNodeRead_loop cur key ctx = read_every_element_child cur key ctx /\
       (mode ctx = xmlSecKeyInfoModeRead ->
        xmlSecKeyInfoNodeRead keyInfoNode key ctx
        = read_every_element_child (node_children keyInfoNode) key ctx)).
Proof.
  intros keyInfoNode cur key ctx. split; [|split].
  - intros Hf Hv Hm dataOps. split.
    + apply read_loop_key_found; assumption.
    + intros Hmode. unfold xmlSecKeyInfoNodeRead.
      rewrite Hmode. cbn [mode_eqb negb].
      apply read_loop_key_found; assumption.
  - intros dataOps n k ret key' ctx' He Hinv Hk Hr Hret Hf Hv Hm.
    rewrite (read_loop_dispatch n cur key ctx k ret key' ctx'); try assumption.
    + apply read_loop_key_found; assumption.
    + rewrite Hinv. cbn [negb]. rewrite orb_true_r. reflexivity.
  - intros dataOps Hflags Hf. split.
    + apply read_loop_dont_stop; assumption.
    + intros Hmode. unfold xmlSecKeyInfoNodeRead.
      rewrite Hmode. cbn [mode_eqb negb].
      apply read_loop_dont_stop; assumption.
Qed.

(** C10.  A KeyInfo node without element children, and a KeyInfo node whose
    element children all fail to resolve to a handler while
    [STOP_ON_UNKNOWN_CHILD] is clear, are read with status 0 and leave the
    key (and the context) as they were, whatever the key held: a successful
    pass does not mean a key was found. *)
Theorem keyinfo_read_success_without_key
    {registry : KeyDataRegistry} {dataOps : KeyDataOps} {keysOps : KeysOps} :
  forall (keyInfoNode : xmlNode) (key : xmlSecKey) (ctx : xmlSecKeyInfoCtx),
    mode ctx = xmlSecKeyInfoModeRead ->
    element_children keyInfoNode = [] \/
    (flag_is_set (flags ctx) XMLSEC_KEYINFO_FLAGS_STOP_ON_UNKNOWN_CHILD = false /\
     Forall (fun n => find_by_node ctx n xmlSecKeyDataUsageKeyInfoNodeRead
                      = xmlSecKeyDataIdUnknown)
            (element_children keyInfoNode)) ->
    xmlSecKeyInfoNodeRead keyInfoNode key ctx = (0, key, ctx).
Proof.
  intros keyInfoNode key ctx Hmode H.
  unfold xmlSecKeyInfoNodeRead. rewrite Hmode. cbn [mode_eqb negb].
  unfold element_children in H.
  destruct H as [Hnone | [Hf Hall]].
  - apply read_loop_no_element.
    apply xmlSecGetNextElementNode_nil_iff.
    induction (node_children keyInfoNode) as [|n l IH]; [constructor|].
    simpl in Hnone. destruct (isElementNode n) eqn:E; [discriminate|].
    constructor; [exact E | exact (IH Hnone)].
  - apply read_loop_all_unknown; [exact Hf|].
    rewrite Forall_forall in *. intros n Hin He.
    apply Hall. apply filter_In. split; assumption.
Qed.

Lemma keyinfo_read_stops_once_key_found_witness :
  let keyInfoNode :=
    Sample.dsElement "KeyInfo" []
      [Sample.keyNameNode "bob"; Sample.dsElement "RSAKeyValue" [] []] in
  let rsaNode := Sample.dsElement "RSAKeyValue" [] [] in
  let found :=
    Sample.set_key_value
      (Some {| kd_id := Some Sample.rsaKlass; kd_material := [] |}) Sample.emptyKey in
  let eager :=
    set_flags XMLSEC_KEYINFO_FLAGS_DONT_STOP_ON_KEY_FOUND Sample.readCtx in
  xmlSecKeyInfoNodeRead (registry := Sample.registry) (dataOps := Sample.dataOps)
    (keysOps := Sample.keysOps) keyInfoNode Sample.rsaKey Sample.readCtx
  = (0, Sample.rsaKey, Sample.readCtx)
  /\
  xmlSecKeyInfoNodeRead_loop (registry := Sample.registry) (dataOps := Sample.dataOps)
    (keysOps := Sample.keysOps) [rsaNode; Sample.keyNameNode "bob"]
    Sample.emptyKey Sample.readCtx
  = (0, found, Sample.readCtx)
  /\
  xmlSecKeyInfoNodeRead (registry := Sample.registry) (dataOps := Sample.externalOps)
    (keysOps := Sample.keysOps) keyInfoNode Sample.rsaKey eager
  = read_every_element_child (registry := Sample.registry)
      (dataOps := Sample.externalOps) (node_children keyInfoNode) Sample.rsaKey eager.
Proof.
  intros keyInfoNode rsaNode found eager.
  split; [|split].
  - destruct (@keyinfo_read_stops_once_key_found Sample.registry Sample.keysOps
                keyInfoNode [] Sample.rsaKey Sample.readCtx) as [H _].
    apply H; [reflexivity | reflexivity | vm_compute; lia | reflexivity].
  - destruct (@keyinfo_read_stops_once_key_found Sample.registry Sample.keysOps
                keyInfoNode [Sample.keyNameNode "bob"] Sample.emptyKey Sample.readCtx)
      as [_ [H _]].
    apply (H Sample.dataOps rsaNode Sample.rsaKlass 0);
      [reflexivity | reflexivity | reflexivity | reflexivity | lia
       | reflexivity | reflexivity | vm_compute; lia].
  - destruct (@keyinfo_read_stops_once_key_found Sample.registry Sample.keysOps
                keyInfoNode [] Sample.rsaKey eager) as [_ [_ H]].
    apply (H Sample.externalOps); [intros; reflexivity | reflexivity | reflexivity].
Defined.

Lemma keyinfo_read_success_without_key_witness :
  let keyInfoNode :=
    Sample.dsElement "KeyInfo" []
      [XmlText " "; XmlElement "Other" (Some "urn:example") [] []; XmlComment "x"] in
  flag_is_set (flags Sample.readCtx) XMLSEC_KEYINFO_FLAGS_STOP_ON_UNKNOWN_CHILD = false /\
  xmlSecKeyIsValid Sample.emptyKey = false /\
  xmlSecKeyInfoNodeRead (registry := Sample.registry) (dataOps := Sample.dataOps)
    (keysOps := Sample.keysOps) keyInfoNode Sample.emptyKey Sample.readCtx
  = (0, Sample.emptyKey, Sample.readCtx).
Proof.
  intros keyInfoNode. split; [reflexivity | split; [reflexivity|]].
  apply (@keyinfo_read_success_without_key Sample.registry Sample.dataOps Sample.keysOps
           keyInfoNode Sample.emptyKey Sample.readCtx).
  - reflexivity.
  - right. split; [reflexivity|].
    vm_compute. repeat constructor.
Defined.

(* ================================================================== *)
(** ** <dsig:KeyValue/> *)
(* ================================================================== *)

Lemma next_element_of_no_elements (l : list xmlNode) :
  filter isElementNode l = [] -> xmlSecGetNextElementNode l = [].
Proof.
  induction l as [|n l IH]; simpl; [reflexivity|].
  destruct (isElementNode n); [discriminate | exact IH].
Qed.

Lemma next_element_of_elements (l : list xmlNode) c rest :
  filter isElementNode l = c :: rest ->
  exists tl, xmlSecGetNextElementNode l = c :: tl /\ filter isElementNode tl = rest.
Proof.
  induction l as [|n l IH]; simpl; [discriminate|].
  destruct (isElementNode n) eqn:E.
  - intros H. inversion H; subst. exists l. split; reflexivity.
  - exact IH.
Qed.

(** C7.  [xmlSecKeyDataValueXmlRead]: (1) a KeyValue node without element
    children is read successfully and changes nothing; (2) with exactly one
    element child, that child is resolved with the KeyValue-child usage and
    handed to its handler, whose failure is the failure of the read; an
    unresolved child is ignored, or refused when
    [KEYVALUE_STOP_ON_UNKNOWN_CHILD] is set; (3) with a second element child
    the status is -1 for every flag word, every dispatch and every first
    child. *)
Theorem keyvalue_read_child_count
    {registry : KeyDataRegistry} {dataOps : KeyDataOps} :
  forall (node : xmlNode) (key : xmlSecKey) (ctx : xmlSecKeyInfoCtx),
    (mode ctx = xmlSecKeyInfoModeRead ->
     element_children node = [] ->
     xmlSecKeyDataValueXmlRead xmlSecKeyDataValueId key node ctx = (0, key, ctx))
    /\
    (forall c,
       mode ctx = xmlSecKeyInfoModeRead ->
       element_children node = [c] ->
       xmlSecKeyDataValueXmlRead xmlSecKeyDataValueId key node ctx
       = match find_by_node ctx c xmlSecKeyDataUsageKeyValueNodeRead with
         | Some k =>
             let '(ret, key', ctx') := xmlSecKeyDataXmlRead (Some k) key c ctx in
             (if ret <? 0 then -1 else 0, key', ctx')
         | None =>
             if flag_is_set (flags ctx)
                  XMLSEC_KEYINFO_FLAGS_KEYVALUE_STOP_ON_UNKNOWN_CHILD
             then (-1, key, ctx)
             else (0, key, ctx)
         end)
    /\
    (forall id c1 c2 rest,
       element_children node = c1 :: c2 :: rest ->
       status_of (xmlSecKeyDataValueXmlRead id key node ctx) = -1).
Proof.
  intros node key ctx. unfold element_children. split; [|split].
  - intros Hmode Hnone. unfold xmlSecKeyDataValueXmlRead.
    rewrite Hmode, (next_element_of_no_elements _ Hnone). reflexivity.
  - intros c Hmode Hone. unfold xmlSecKeyDataValueXmlRead.
    destruct (next_element_of_elements _ _ _ Hone) as [tl [Hcur Htl]].
    rewrite Hmode, Hcur, site_lookup_by_node.
    rewrite (next_element_of_no_elements _ Htl).
    cbn [id_eqb negb mode_eqb].
    replace (klass_eqb xmlSecKeyDataValueKlass xmlSecKeyDataValueKlass) with true
      by reflexivity.
    cbn [negb].
    destruct (find_by_node ctx c xmlSecKeyDataUsageKeyValueNodeRead) as [k|].
    + destruct (xmlSecKeyDataXmlRead (Some k) key c ctx) as [[ret key'] ctx'].
      destruct (ret <? 0); reflexivity.
    + destruct (flag_is_set _ _); reflexivity.
  - intros id c1 c2 rest Htwo. unfold xmlSecKeyDataValueXmlRead.
    destruct (next_element_of_elements _ _ _ Htwo) as [tl [Hcur Htl]].
    destruct (next_element_of_elements _ _ _ Htl) as [tl2 [Hnext _]].
    rewrite Hcur, Hnext, site_lookup_by_node.
    destruct (negb (id_eqb id xmlSecKeyDataValueId)); [reflexivity|].
    destruct (negb (mode_eqb (mode ctx) xmlSecKeyInfoModeRead)); [reflexivity|].
    destruct (find_by_node ctx c1 xmlSecKeyDataUsageKeyValueNodeRead) as [k|].
    + destruct (xmlSecKeyDataXmlRead (Some k) key c1 ctx) as [[ret key'] ctx'].
      destruct (ret <? 0); reflexivity.
    + destruct (flag_is_set _ _); reflexivity.
Qed.

Lemma keyvalue_read_child_count_witness :
  let rsaNode := Sample.dsElement "RSAKeyValue" [] [] in
  let other := XmlElement "Other" (Some "urn:example") [] [] in
  let found :=
    Sample.set_key_value
      (Some {| kd_id := Some Sample.rsaKlass; kd_material := [] |}) Sample.emptyKey in
  xmlSecKeyDataValueXmlRead (registry := Sample.registry) (dataOps := Sample.dataOps)
    xmlSecKeyDataValueId Sample.emptyKey
    (Sample.dsElement "KeyValue" [] [XmlText " "]) Sample.readCtx
  = (0, Sample.emptyKey, Sample.readCtx)
  /\
  xmlSecKeyDataValueXmlRead (registry := Sample.registry) (dataOps := Sample.dataOps)
    xmlSecKeyDataValueId Sample.emptyKey
    (Sample.dsElement "KeyValue" [] [XmlText " "; rsaNode]) Sample.readCtx
  = (0, found, Sample.readCtx)
  /\
  status_of
    (xmlSecKeyDataValueXmlRead (registry := Sample.registry) (dataOps := Sample.dataOps)
       xmlSecKeyDataValueId Sample.emptyKey
       (Sample.dsElement "KeyValue" [] [other; rsaNode]) Sample.readCtx)
  = -1.
Proof.
  intros rsaNode other found. split; [|split].
  - destruct (@keyvalue_read_child_count Sample.registry Sample.dataOps
                (Sample.dsElement "KeyValue" [] [XmlText " "])
                Sample.emptyKey Sample.readCtx) as [H _].
    apply H; reflexivity.
  - destruct (@keyvalue_read_child_count Sample.registry Sample.dataOps
                (Sample.dsElement "KeyValue" [] [XmlText " "; rsaNode])
                Sample.emptyKey Sample.readCtx) as [_ [H _]].
    rewrite (H rsaNode); reflexivity.
  - destruct (@keyvalue_read_child_count Sample.registry Sample.dataOps
                (Sample.dsElement "KeyValue" [] [other; rsaNode])
                Sample.emptyKey Sample.readCtx) as [_ [_ H]].
    apply (H xmlSecKeyDataValueId other rsaNode []). reflexivity.
Defined.

(* ================================================================== *)
(** ** <dsig:KeyName/> *)
(* ================================================================== *)

(** One turn of the loop of [xmlSecKeyInfoNodeWrite] at an element node whose
    handler is found and does not return a negative status: the handler's
    node replaces the child and the loop goes on with the next sibling. *)
Lemma write_loop_dispatch {registry : KeyDataRegistry} {dataOps : KeyDataOps}
    n next key ctx k ret n' ctx' :
  isElementNode n = true ->
  find_by_node ctx n xmlSecKeyDataUsageKeyInfoNodeWrite = Some k ->
  xmlSecKeyDataXmlWrite (Some k) key n ctx = (ret, n', ctx') ->
  0 <= ret ->
  xmlSecKeyInfoNodeWrite_loop (n :: next) key ctx
  = (let '(res, next', ctx'') := xmlSecKeyInfoNodeWrite_loop next key ctx' in
     (res, n' :: next', ctx'')).
Proof.
  intros He Hk Hw Hret.
  cbn [xmlSecKeyInfoNodeWrite_loop]. rewrite He. cbn [negb].
  rewrite site_lookup_by_node, Hk, Hw.
  destruct (ret <? 0) eqn:E; [apply Z.ltb_lt in E; lia | reflexivity].
Qed.

(** C9.  [xmlSecKeyDataNameXmlWrite] returns the integer 8 for a key without
    a name and leaves node and context untouched.  The write driver only
    treats a negative status as a failure: at a child that resolves to the
    KeyName klass (whose [xmlWrite] slot is this function) the pass keeps
    the child as it is and goes on with the remaining children in the same
    context, so its result is the result of the pass over the remaining
    children. *)
Theorem keyname_write_nameless_key_is_skipped
    {registry : KeyDataRegistry} {dataOps : KeyDataOps} {xmlOps : XmlTreeOps} :
  forall (key : xmlSecKey) (node : xmlNode) (ctx : xmlSecKeyInfoCtx),
    xmlSecKeyGetName key = None ->
    mode ctx = xmlSecKeyInfoModeWrite ->
    xmlSecKeyDataNameXmlWrite xmlSecKeyDataNameId key node ctx = (8, node, ctx)
    /\
    (forall next : list xmlNode,
       isElementNode node = true ->
       find_by_node ctx node xmlSecKeyDataUsageKeyInfoNodeWrite = xmlSecKeyDataNameId ->
       xmlSecKeyDataXmlWrite xmlSecKeyDataNameId key node ctx
       = xmlSecKeyDataNameXmlWrite xmlSecKeyDataNameId key node ctx ->
       xmlSecKeyInfoNodeWrite_loop (node :: next) key ctx
       = (let '(res, next', ctx') := xmlSecKeyInfoNodeWrite_loop next key ctx in
          (res, node :: next', ctx'))).
Proof.
  intros key node ctx Hname Hmode.
  assert (Hw : xmlSecKeyDataNameXmlWrite xmlSecKeyDataNameId key node ctx = (8, node, ctx)).
  { unfold xmlSecKeyDataNameXmlWrite. rewrite Hmode, Hname. reflexivity. }
  split; [exact Hw|].
  intros next He Hk Hslot.
  apply (write_loop_dispatch node next key ctx xmlSecKeyDataNameKlass 8 node ctx);
    [exact He | exact Hk | rewrite <- Hw; exact Hslot | lia].
Qed.

Lemma keyname_write_nameless_key_is_skipped_witness :
  let nameNode := Sample.dsElement "KeyName" [] [] in
  let rsaNode := Sample.dsElement "RSAKeyValue" [] [] in
  xmlSecKeyDataNameXmlWrite (xmlOps := Sample.xmlOps) xmlSecKeyDataNameId
    Sample.rsaKey nameNode Sample.writeCtx
  = (8, nameNode, Sample.writeCtx)
  /\
  xmlSecKeyInfoNodeWrite_loop (registry := Sample.registry) (dataOps := Sample.dataOps)
    [nameNode; rsaNode] Sample.rsaKey Sample.writeCtx
  = (0, [nameNode; set_node_children rsaNode [XmlText "key material"]], Sample.writeCtx).
Proof.
  intros nameNode rsaNode.
  destruct (@keyname_write_nameless_key_is_skipped Sample.registry Sample.dataOps
              Sample.xmlOps Sample.rsaKey nameNode Sample.writeCtx)
    as [H1 H2]; [reflexivity | reflexivity |].
  split; [exact H1|].
  rewrite (H2 [rsaNode]); reflexivity.
Defined.

(** C6 as stated fails when the key has no value and the context has a keys
    manager: the name is then only looked up in the manager.  On a miss the
    handler succeeds and a key without a name stays without a name. *)
Lemma keyname_read_manager_miss_sets_no_name :
  let ctx := set_keysMngr (Some []) Sample.readCtx in
  let node := Sample.keyNameNode "bob" in
  let r := xmlSecKeyDataNameXmlRead (keysOps := Sample.keysOps) (xmlOps := Sample.xmlOps)
             xmlSecKeyDataNameId Sample.emptyKey node ctx in
  xmlSecGetNodeContentAndTrim (XmlTreeOps := Sample.xmlOps) node = Some "bob" /\
  xmlSecKeyGetName Sample.emptyKey = None /\
  status_of r = 0 /\
  xmlSecKeyGetName (key_of r) <> Some "bob".
Proof.
  cbv zeta. repeat split; try reflexivity. vm_compute. discriminate.
Qed.

(** C6, amended.  For a KeyName node with non-empty trimmed text [newName]:
    (1) when the key has a value or the context has no keys manager, a key
    with a different name makes the handler fail (the branch that reports
    XMLSEC_ERRORS_R_INVALID_KEY_DATA) with the key untouched, a key with the
    same name makes it succeed with the key untouched, and a key without a
    name gets [newName]; (2) when the key has no value and there is a keys
    manager, the name is looked up there instead and no comparison with the
    existing name is made: on a hit the key becomes the found key named
    [newName], on a miss the handler succeeds and the key is untouched. *)
Theorem keyname_read_name_rule {keysOps : KeysOps} {xmlOps : XmlTreeOps} :
  forall (key : xmlSecKey) (node : xmlNode) (ctx : xmlSecKeyInfoCtx) (newName : string),
    mode ctx = xmlSecKeyInfoModeRead ->
    xmlSecGetNodeContentAndTrim node = Some newName ->
    let r := xmlSecKeyDataNameXmlRead xmlSecKeyDataNameId key node ctx in
    (xmlSecKeyGetValue key <> None \/ keysMngr ctx = None ->
     match xmlSecKeyGetName key with
     | Some oldName =>
         if String.eqb oldName newName
         then r = (0, key, ctx)
         else r = (-1, key, ctx)
     | None =>
         r = (0, {| key_name := Some newName; key_value := key_value key;
                    key_dataList := key_dataList key |}, ctx)
     end)
    /\
    (forall mngr,
       xmlSecKeyGetValue key = None ->
       keysMngr ctx = Some mngr ->
       match xmlSecKeysMngrFindKey mngr newName ctx with
       | Some found =>
           r = (0, {| key_name := Some newName; key_value := key_value found;
                      key_dataList := key_dataList found |}, ctx)
       | None => r = (0, key, ctx)
       end).
Proof.
  intros key node ctx newName Hmode Htext r. subst r.
  unfold xmlSecKeyDataNameXmlRead. rewrite Hmode, Htext.
  destruct key as [kname kvalue klist].
  unfold xmlSecKeyGetValue, xmlSecKeyGetName, xmlSecKeySetName, xmlSecKeyCopy,
    xmlSecKeyEmpty.
  cbn [key_name key_value key_dataList].
  split.
  - intros [Hv | Hm].
    + destruct kvalue as [v|]; [|contradiction].
      destruct kname as [oldName|]; [|reflexivity].
      cbn [xmlStrEqual]. destruct (String.eqb oldName newName); reflexivity.
    + rewrite Hm.
      destruct kvalue as [v|];
        (destruct kname as [oldName|]; [|reflexivity];
         cbn [xmlStrEqual]; destruct (String.eqb oldName newName); reflexivity).
  - intros mngr Hv Hm. rewrite Hv, Hm.
    destruct (xmlSecKeysMngrFindKey mngr newName ctx) as [found|]; reflexivity.
Qed.

Lemma keyname_read_name_rule_witness :
  let named := {| key_name := Some "alice"; key_value := None; key_dataList := [] |} in
  let store := [("carol", Sample.rsaKey)] in
  xmlSecKeyDataNameXmlRead (keysOps := Sample.keysOps) (xmlOps := Sample.xmlOps)
    xmlSecKeyDataNameId named (Sample.keyNameNode "bob") Sample.readCtx
  = (-1, named, Sample.readCtx)
  /\
  xmlSecKeyDataNameXmlRead (keysOps := Sample.keysOps) (xmlOps := Sample.xmlOps)
    xmlSecKeyDataNameId named (Sample.keyNameNode "carol")
    (set_keysMngr (Some store) Sample.readCtx)
  = (0, {| key_name := Some "carol"; key_value := key_value Sample.rsaKey;
           key_dataList := [] |},
     set_keysMngr (Some store) Sample.readCtx).
Proof.
  intros named store. split.
  - destruct (@keyname_read_name_rule Sample.keysOps Sample.xmlOps named
                (Sample.keyNameNode "bob") Sample.readCtx "bob") as [H _];
      [reflexivity | reflexivity |].
    apply H. right. reflexivity.
  - destruct (@keyname_read_name_rule Sample.keysOps Sample.xmlOps named
                (Sample.keyNameNode "carol")
                (set_keysMngr (Some store) Sample.readCtx) "carol") as [_ H];
      [reflexivity | reflexivity |].
    apply (H store); reflexivity.
Defined.

(* ================================================================== *)
(** ** Allow-list and global registry *)
(* ================================================================== *)

Lemma find_by_node_allow_list {registry : KeyDataRegistry} ctx n usage :
  enabledKeyData ctx <> [] ->
  find_by_node ctx n usage
  = xmlSecKeyDataIdListFindByNode (enabledKeyData ctx)
      (node_name n) (xmlSecGetNodeNsHref n) usage.
Proof.
  unfold find_by_node. destruct (enabledKeyData ctx); [contradiction | reflexivity].
Qed.

Lemma find_by_node_registry {registry : KeyDataRegistry} ctx n usage :
  enabledKeyData ctx = [] ->
  find_by_node ctx n usage
  = xmlSecKeyDataIdListFindByNode xmlSecKeyDataIdsGet
      (node_name n) (xmlSecGetNodeNsHref n) usage.
Proof. unfold find_by_node. intros ->. reflexivity. Qed.

Lemma find_by_href_allow_list {registry : KeyDataRegistry} ctx uri usage :
  enabledKeyData ctx <> [] ->
  find_by_href ctx uri usage
  = xmlSecKeyDataIdListFindByHref (enabledKeyData ctx) uri usage.
Proof.
  unfold find_by_href. destruct (enabledKeyData ctx); [contradiction | reflexivity].
Qed.

Section RegistryIrrelevant.

Variables G1 G2 : KeyDataRegistry.
Context {dataOps : KeyDataOps} {keysOps : KeysOps} {xmlOps : XmlTreeOps}
        {transforms : TransformEngine}.

Lemma read_loop_registry_irrelevant
    (Hkeep : forall id k n c,
        enabledKeyData (ctx_of (xmlSecKeyDataXmlRead id k n c)) = enabledKeyData c)
    cur : forall key ctx,
  enabledKeyData ctx <> [] ->
  xmlSecKeyInfoNodeRead_loop (registry := G1) cur key ctx
  = xmlSecKeyInfoNodeRead_loop (registry := G2) cur key ctx.
Proof.
  induction cur as [|n next IH]; intros key ctx Hne; [reflexivity|].
  cbn [xmlSecKeyInfoNodeRead_loop].
  rewrite (site_lookup_by_node (registry := G1)), (site_lookup_by_node (registry := G2)).
  rewrite !find_by_node_allow_list by exact Hne.
  destruct (negb (isElementNode n)); [apply IH; exact Hne|].
  destruct (_ || _ || _); [|reflexivity].
  destruct (xmlSecKeyDataIdListFindByNode _ _ _ _) as [k|].
  - pose proof (Hkeep (Some k) key n ctx) as Hp.
    destruct (xmlSecKeyDataXmlRead (Some k) key n ctx) as [[ret key'] ctx'].
    unfold ctx_of in Hp. simpl in Hp.
    destruct (ret <? 0); [reflexivity|].
    apply IH. rewrite Hp. exact Hne.
  - destruct (flag_is_set _ _); [reflexivity | apply IH; exact Hne].
Qed.

Lemma write_loop_registry_irrelevant
    (Hkeep : forall id k n c,
        enabledKeyData (ctx_of (xmlSecKeyDataXmlWrite id k n c)) = enabledKeyData c)
    cur : forall key ctx,
  enabledKeyData ctx <> [] ->
  xmlSecKeyInfoNodeWrite_loop (registry := G1) cur key ctx
  = xmlSecKeyInfoNodeWrite_loop (registry := G2) cur key ctx.
Proof.
  induction cur as [|n next IH]; intros key ctx Hne; [reflexivity|].
  cbn [xmlSecKeyInfoNodeWrite_loop].
  rewrite (site_lookup_by_node (registry := G1)), (site_lookup_by_node (registry := G2)).
  rewrite !find_by_node_allow_list by exact Hne.
  destruct (negb (isElementNode n)); [rewrite (IH key ctx Hne); reflexivity|].
  destruct (xmlSecKeyDataIdListFindByNode _ _ _ _) as [k|].
  - pose proof (Hkeep (Some k) key n ctx) as Hp.
    destruct (xmlSecKeyDataXmlWrite (Some k) key n ctx) as [[ret n'] ctx'].
    unfold ctx_of in Hp. simpl in Hp.
    destruct (ret <? 0); [reflexivity|].
    rewrite (IH key ctx'); [reflexivity|]. rewrite Hp. exact Hne.
  - destruct (flag_is_set _ _); [reflexivity|].
    rewrite (IH key ctx Hne); reflexivity.
Qed.

Lemma keyvalue_read_registry_irrelevant id key node ctx :
  enabledKeyData ctx <> [] ->
  xmlSecKeyDataValueXmlRead (registry := G1) id key node ctx
  = xmlSecKeyDataValueXmlRead (registry := G2) id key node ctx.
Proof.
  intros Hne. unfold xmlSecKeyDataValueXmlRead.
  destruct (xmlSecGetNextElementNode (node_children node)) as [|cur next];
    [reflexivity|].
  rewrite (site_lookup_by_node (registry := G1)), (site_lookup_by_node (registry := G2)).
  rewrite !find_by_node_allow_list by exact Hne. reflexivity.
Qed.

Lemma retrieval_result_registry_irrelevant typeId key buffer bufferSize ctx :
  enabledKeyData ctx <> [] ->
  xmlSecKeyDataRetrievalMethodReadXmlResult (registry := G1) typeId key buffer bufferSize ctx
  = xmlSecKeyDataRetrievalMethodReadXmlResult (registry := G2) typeId key buffer bufferSize ctx.
Proof.
  intros Hne. unfold xmlSecKeyDataRetrievalMethodReadXmlResult.
  destruct buffer as [b|]; [|reflexivity].
  destruct (negb (0 <? bufferSize)); [reflexivity|].
  destruct (negb (mode_eqb (mode ctx) xmlSecKeyInfoModeRead)); [reflexivity|].
  destruct (INT_MAX <? bufferSize); [reflexivity|].
  destruct (xmlRecoverMemory (Some b) bufferSize) as [doc|]; [|reflexivity].
  destruct (xmlDocGetRootElement doc) as [cur|]; [|reflexivity].
  rewrite (site_lookup_by_node (registry := G1)), (site_lookup_by_node (registry := G2)).
  rewrite !find_by_node_allow_list by exact Hne. reflexivity.
Qed.

Lemma retrieval_read_registry_irrelevant id key node ctx :
  enabledKeyData ctx <> [] ->
  xmlSecKeyDataRetrievalMethodXmlRead (registry := G1) id key node ctx
  = xmlSecKeyDataRetrievalMethodXmlRead (registry := G2) id key node ctx.
Proof.
  intros Hne.
  unfold xmlSecKeyDataRetrievalMethodXmlRead.
  cbv zeta. ctx_simpl.
  rewrite (site_lookup_by_href (registry := G1)), (site_lookup_by_href (registry := G2)).
  rewrite !find_by_href_allow_list by exact Hne.
  repeat (first [ rewrite retrieval_result_registry_irrelevant
                    by (ctx_simpl; exact Hne)
                | step_lhs ];
          try same).
Qed.

End RegistryIrrelevant.

Section ConsultedList.

Context {registry : KeyDataRegistry} {dataOps : KeyDataOps} {keysOps : KeysOps}
        {xmlOps : XmlTreeOps} {transforms : TransformEngine}.

Variable ctx : xmlSecKeyInfoCtx.
Variable ids : xmlSecKeyDataIdList.
Hypothesis Hids : consulted_list ctx ids.

Lemma find_by_node_consulted n usage :
  find_by_node ctx n usage
  = xmlSecKeyDataIdListFindByNode ids (node_name n) (xmlSecGetNodeNsHref n) usage.
Proof.
  destruct Hids as [[Hne ->] | [Hnil ->]].
  - apply find_by_node_allow_list. exact Hne.
  - apply find_by_node_registry. exact Hnil.
Qed.

Lemma find_by_href_consulted uri usage :
  find_by_href ctx uri usage = xmlSecKeyDataIdListFindByHref ids uri usage.
Proof.
  destruct Hids as [[Hne ->] | [Hnil ->]].
  - apply find_by_href_allow_list. exact Hne.
  - unfold find_by_href. rewrite Hnil. reflexivity.
Qed.

Lemma read_loop_consulted n next key :
  isElementNode n = true ->
  (flag_is_set (flags ctx) XMLSEC_KEYINFO_FLAGS_DONT_STOP_ON_KEY_FOUND
   || negb (xmlSecKeyIsValid key)
   || (xmlSecKeyMatch key None (keyReq ctx) =? 0)) = true ->
  xmlSecKeyInfoNodeRead_loop (n :: next) key ctx
  = match xmlSecKeyDataIdListFindByNode ids (node_name n) (xmlSecGetNodeNsHref n)
            xmlSecKeyDataUsageKeyInfoNodeRead with
    | Some k =>
        let '(ret, key', ctx') := xmlSecKeyDataXmlRead (Some k) key n ctx in
        if ret <? 0 then (-1, key', ctx')
        else xmlSecKeyInfoNodeRead_loop next key' ctx'
    | None =>
        if flag_is_set (flags ctx) XMLSEC_KEYINFO_FLAGS_STOP_ON_UNKNOWN_CHILD
        then (-1, key, ctx)
        else xmlSecKeyInfoNodeRead_loop next key ctx
    end.
Proof.
  intros He Hgo. cbn [xmlSecKeyInfoNodeRead_loop].
  rewrite He, Hgo. cbn [negb].
  rewrite site_lookup_by_node, find_by_node_consulted.
  destruct (xmlSecKeyDataIdListFindByNode _ _ _ _); reflexivity.
Qed.

Lemma write_loop_consulted n next key :
  isElementNode n = true ->
  xmlSecKeyInfoNodeWrite_loop (n :: next) key ctx
  = match xmlSecKeyDataIdListFindByNode ids (node_name n) (xmlSecGetNodeNsHref n)
            xmlSecKeyDataUsageKeyInfoNodeWrite with
    | Some k =>
        let '(ret, n', ctx') := xmlSecKeyDataXmlWrite (Some k) key n ctx in
        if ret <? 0 then (-1, n' :: next, ctx')
        else
          let '(res, next', ctx'') := xmlSecKeyInfoNodeWrite_loop next key ctx' in
          (res, n' :: next', ctx'')
    | None =>
        if flag_is_set (flags ctx) XMLSEC_KEYINFO_FLAGS_STOP_ON_UNKNOWN_CHILD
        then (-1, n :: next, ctx)
        else
          let '(res, next', ctx') := xmlSecKeyInfoNodeWrite_loop next key ctx in
          (res, n :: next', ctx')
    end.
Proof.
  intros He. cbn [xmlSecKeyInfoNodeWrite_loop].
  rewrite He. cbn [negb].
  rewrite site_lookup_by_node, find_by_node_consulted.
  destruct (xmlSecKeyDataIdListFindByNode _ _ _ _); reflexivity.
Qed.

Lemma keyvalue_read_consulted key node cur next :
  mode ctx = xmlSecKeyInfoModeRead ->
  xmlSecGetNextElementNode (node_children node) = cur :: next ->
  xmlSecKeyDataValueXmlRead xmlSecKeyDataValueId key node ctx
  = match xmlSecKeyDataIdListFindByNode ids (node_name cur) (xmlSecGetNodeNsHref cur)
            xmlSecKeyDataUsageKeyValueNodeRead with
    | Some k =>
        let '(ret, key', ctx') := xmlSecKeyDataXmlRead (Some k) key cur ctx in
        if ret <? 0 then (-1, key', ctx')
        else match xmlSecGetNextElementNode next with
             | _ :: _ => (-1, key', ctx')
             | [] => (0, key', ctx')
             end
    | None =>
        if flag_is_set (flags ctx) XMLSEC_KEYINFO_FLAGS_KEYVALUE_STOP_ON_UNKNOWN_CHILD
        then (-1, key, ctx)
        else match xmlSecGetNextElementNode next with
             | _ :: _ => (-1, key, ctx)
             | [] => (0, key, ctx)
             end
    end.
Proof.
  intros Hmode Hcur. unfold xmlSecKeyDataValueXmlRead.
  change (id_eqb xmlSecKeyDataValueId xmlSecKeyDataValueId) with true.
  rewrite Hmode, Hcur. cbn [negb mode_eqb]. cbv zeta.
  rewrite site_lookup_by_node, find_by_node_consulted.
  destruct (xmlSecKeyDataIdListFindByNode _ _ _ _) as [k|].
  - destruct (xmlSecKeyDataXmlRead (Some k) key cur ctx) as [[ret key'] ctx'].
    destruct (ret <? 0); reflexivity.
  - destruct (flag_is_set _ _); reflexivity.
Qed.

Lemma retrieval_result_consulted typeId key octets size doc root :
  0 < size -> size <= INT_MAX ->
  mode ctx = xmlSecKeyInfoModeRead ->
  xmlRecoverMemory (Some octets) size = Some doc ->
  xmlDocGetRootElement doc = Some root ->
  xmlSecKeyDataRetrievalMethodReadXmlResult typeId key (Some octets) size ctx
  = match xmlSecKeyDataIdListFindByNode ids (node_name root) (xmlSecGetNodeNsHref root)
            xmlSecKeyDataUsageRetrievalMethodNodeXml with
    | None =>
        if flag_is_set (flags ctx) XMLSEC_KEYINFO_FLAGS_KEYVALUE_STOP_ON_UNKNOWN_CHILD
        then (-1, key, ctx)
        else (0, key, ctx)
    | Some k =>
        if negb (id_eqb typeId xmlSecKeyDataIdUnknown)
           && negb (id_eqb typeId (Some k))
           && flag_is_set (flags ctx)
                XMLSEC_KEYINFO_FLAGS_RETRMETHOD_STOP_ON_MISMATCH_HREF
        then (-1, key, ctx)
        else
          let '(ret, key', ctx') := xmlSecKeyDataXmlRead (Some k) key root ctx in
          if ret <? 0 then (-1, key', ctx') else (0, key', ctx')
    end.
Proof.
  intros Hpos Hmax Hmode Hparse Hroot.
  unfold xmlSecKeyDataRetrievalMethodReadXmlResult.
  replace (0 <? size) with true by (symmetry; apply Z.ltb_lt; exact Hpos).
  replace (INT_MAX <? size) with false by (symmetry; apply Z.ltb_ge; exact Hmax).
  rewrite Hmode, Hparse, Hroot. cbn [negb mode_eqb]. cbv zeta.
  rewrite site_lookup_by_node, find_by_node_consulted.
  destruct (xmlSecKeyDataIdListFindByNode _ _ _ _); reflexivity.
Qed.

Lemma retrieval_type_consulted key node d t :
  node_doc node = Some d ->
  mode ctx = xmlSecKeyInfoModeRead ->
  curRetrievalMethodLevel ctx < maxRetrievalMethodLevel ctx ->
  xmlGetProp node xmlSecAttrType = Some t ->
  let entered :=
    set_curRetrievalMethodLevel (curRetrievalMethodLevel ctx + 1) ctx in
  (xmlSecKeyDataIdListFindByHref ids (Some t) xmlSecKeyDataUsageRetrievalMethodNode
   = xmlSecKeyDataIdUnknown ->
   xmlSecKeyDataRetrievalMethodXmlRead xmlSecKeyDataRetrievalMethodId key node ctx
   = if flag_is_set (flags ctx) XMLSEC_KEYINFO_FLAGS_RETRMETHOD_STOP_ON_UNKNOWN_HREF
     then (-1, key, entered)
     else (0, key, entered)) /\
  (forall k r1 t1 r2 t2 result octets,
     xmlSecKeyDataIdListFindByHref ids (Some t) xmlSecKeyDataUsageRetrievalMethodNode
     = Some k ->
     xmlSecTransformCtxSetUri (xmlSecTransformCtxReset (retrievalMethodCtx ctx))
       (xmlGetProp node xmlSecAttrURI) node = (r1, t1) ->
     0 <= r1 ->
     xmlSecGetNextElementNode (node_children node) = [] ->
     xmlSecTransformCtxExecute t1 (Some d) = (r2, t2) ->
     0 <= r2 ->
     tr_result t2 = Some result ->
     xmlSecBufferGetData result = Some octets ->
     xmlSecKeyDataRetrievalMethodXmlRead xmlSecKeyDataRetrievalMethodId key node ctx
     = let fetched := set_retrievalMethodCtx t2 entered in
       let '(ret, key', ctx') :=
         if negb (Z.land (klassUsage k) xmlSecKeyDataUsageRetrievalMethodNodeXml =? 0)
         then xmlSecKeyDataRetrievalMethodReadXmlResult (Some k) key
                (Some octets) (xmlSecBufferGetSize result) fetched
         else xmlSecKeyDataBinRead (Some k) key
                (Some octets) (xmlSecBufferGetSize result) fetched in
       if ret <? 0 then (-1, key', ctx')
       else (0, key',
             set_curRetrievalMethodLevel (curRetrievalMethodLevel ctx' - 1) ctx')).
Proof.
  intros Hdoc Hmode Hlevel Htype entered.
  split.
  - intros Hnone. unfold xmlSecKeyDataRetrievalMethodXmlRead.
    change (id_eqb xmlSecKeyDataRetrievalMethodId xmlSecKeyDataRetrievalMethodId)
      with true.
    rewrite Hdoc, Hmode. cbn [negb mode_eqb].
    replace (maxRetrievalMethodLevel ctx <=? curRetrievalMethodLevel ctx) with false
      by (symmetry; apply Z.leb_gt; exact Hlevel).
    cbv zeta. ctx_simpl. rewrite site_expected_retrieval_type.
    unfold expected_retrieval_type. rewrite Htype, find_by_href_consulted, Hnone.
    reflexivity.
  - intros k r1 t1 r2 t2 result octets Hk Huri Hr1 Hchildren Hexec Hr2 Hresult Hdata.
    unfold xmlSecKeyDataRetrievalMethodXmlRead.
    change (id_eqb xmlSecKeyDataRetrievalMethodId xmlSecKeyDataRetrievalMethodId)
      with true.
    rewrite Hdoc, Hmode. cbn [negb mode_eqb].
    replace (maxRetrievalMethodLevel ctx <=? curRetrievalMethodLevel ctx) with false
      by (symmetry; apply Z.leb_gt; exact Hlevel).
    cbv zeta. ctx_simpl. rewrite site_expected_retrieval_type.
    unfold expected_retrieval_type. rewrite Htype, find_by_href_consulted, Hk.
    rewrite Huri. ctx_simpl.
    replace (r1 <? 0) with false by (symmetry; apply Z.ltb_ge; exact Hr1).
    rewrite Hchildren. cbn [Z.ltb Z.compare]. ctx_simpl.
    rewrite Hexec. ctx_simpl.
    replace (r2 <? 0) with false by (symmetry; apply Z.ltb_ge; exact Hr2).
    rewrite Hresult, Hdata.
    cbn [id_eqb xmlSecKeyDataIdUnknown orb].
    reflexivity.
Qed.

End ConsultedList.



(* ================================================================== *)
(** ** xmlSecKeyInfoCtxCopyUserPref *)
(* ================================================================== *)

(** C8 as stated fails when both contexts own an encryption context: the
    copy then also reaches into the destination's encryption context, whose
    mode is forced to "encrypted key" and whose preferences are replaced by
    the engine's own preference copy. *)
Lemma copy_user_pref_reaches_into_enc_ctx :
  let e1 := Build_xmlSecEncCtx xmlEncCtxModeEncryptedData
              zeroed_xmlSecKeyInfoCtx zeroed_xmlSecKeyInfoCtx 0 0 in
  let e2 := Build_xmlSecEncCtx xmlEncCtxModeEncryptedData
              zeroed_xmlSecKeyInfoCtx zeroed_xmlSecKeyInfoCtx 7 0 in
  let dst := set_encCtx (Some e1) Sample.readCtx in
  let src := set_encCtx (Some e2) Sample.readCtx in
  let r := xmlSecKeyInfoCtxCopyUserPref (transforms := Sample.transforms)
             (listOps := Sample.listOps) (enc := Sample.enc) dst src in
  fst r = 0 /\
  option_map encMode (encCtx dst) = Some xmlEncCtxModeEncryptedData /\
  option_map encMode (encCtx (snd r)) = Some xmlEncCtxModeEncryptedKey /\
  option_map encUserPrefs (encCtx dst) = Some 0 /\
  option_map encUserPrefs (encCtx (snd r)) = Some 7.
Proof. cbv zeta. repeat split. Qed.

(** C8, amended.  Whenever the sub-copies it delegates to succeed (the list
    copy, the two transform-context preference copies and, when both
    contexts own an encryption context, the engine's preference copy),
    [xmlSecKeyInfoCtxCopyUserPref] returns 0 and the destination afterwards
    holds: the source's [userData], [flags], [flags2], [keysMngr],
    [base64LineSize], the three [max...Level] bounds and the two
    certificate-verification settings; the copy of the source's
    [enabledKeyData]; in both transform sub-contexts the source's user
    preferences with the destination's own URI and result; its own [mode],
    [operation], [keyReq] and three [cur...Level] counters; and its own
    encryption context, except that when both contexts own one, its mode is
    forced to "encrypted key" and the engine's preference copy is applied
    to it.  The list copy is taken to yield the source list, and the
    transform preference copy to replace the preferences only. *)
Theorem copy_user_pref_copies_configuration_only
    {transforms : TransformEngine} {listOps : PtrListOps} {enc : EncEngine} :
  forall dst src : xmlSecKeyInfoCtx,
    (forall d s, 0 <= fst (xmlSecPtrListCopy d s) -> snd (xmlSecPtrListCopy d s) = s) ->
    (forall d s,
       snd (xmlSecTransformCtxCopyUserPref d s)
       = {| tr_userPrefs := tr_userPrefs s; tr_uri := tr_uri d;
            tr_result := tr_result d |}) ->
    0 <= fst (xmlSecPtrListCopy (enabledKeyData dst) (enabledKeyData src)) ->
    0 <= fst (xmlSecTransformCtxCopyUserPref
                (retrievalMethodCtx dst) (retrievalMethodCtx src)) ->
    0 <= fst (xmlSecTransformCtxCopyUserPref
                (keyInfoReferenceCtx dst) (keyInfoReferenceCtx src)) ->
    (forall d s,
       encCtx dst = Some d -> encCtx src = Some s ->
       0 <= fst (xmlSecEncCtxCopyUserPref (set_encMode xmlEncCtxModeEncryptedKey d) s)) ->
    exists dst',
      xmlSecKeyInfoCtxCopyUserPref dst src = (0, dst') /\
      (* configuration taken from the source *)
      userData dst' = userData src /\
      flags dst' = flags src /\
      flags2 dst' = flags2 src /\
      keysMngr dst' = keysMngr src /\
      base64LineSize dst' = base64LineSize src /\
      enabledKeyData dst' = enabledKeyData src /\
      maxRetrievalMethodLevel dst' = maxRetrievalMethodLevel src /\
      maxKeyInfoReferenceLevel dst' = maxKeyInfoReferenceLevel src /\
      maxEncryptedKeyLevel dst' = maxEncryptedKeyLevel src /\
      tr_userPrefs (retrievalMethodCtx dst') = tr_userPrefs (retrievalMethodCtx src) /\
      tr_userPrefs (keyInfoReferenceCtx dst') = tr_userPrefs (keyInfoReferenceCtx src) /\
      certsVerificationTime dst' = certsVerificationTime src /\
      certsVerificationDepth dst' = certsVerificationDepth src /\
      (* state kept from the destination *)
      mode dst' = mode dst /\
      curRetrievalMethodLevel dst' = curRetrievalMethodLevel dst /\
      curKeyInfoReferenceLevel dst' = curKeyInfoReferenceLevel dst /\
      curEncryptedKeyLevel dst' = curEncryptedKeyLevel dst /\
      tr_uri (retrievalMethodCtx dst') = tr_uri (retrievalMethodCtx dst) /\
      tr_result (retrievalMethodCtx dst') = tr_result (retrievalMethodCtx dst) /\
      tr_uri (keyInfoReferenceCtx dst') = tr_uri (keyInfoReferenceCtx dst) /\
      tr_result (keyInfoReferenceCtx dst') = tr_result (keyInfoReferenceCtx dst) /\
      operation dst' = operation dst /\
      keyReq dst' = keyReq dst /\
      (* the encryption context *)
      encCtx dst'
      = match encCtx src, encCtx dst with
        | Some s, Some d =>
            Some (snd (xmlSecEncCtxCopyUserPref
                         (set_encMode xmlEncCtxModeEncryptedKey d) s))
        | _, _ => encCtx dst
        end.
Proof.
  intros dst src Hlist Htr Hl Hr Hk He.
  unfold xmlSecKeyInfoCtxCopyUserPref. ctx_simpl.
  pose proof (Hlist (enabledKeyData dst) (enabledKeyData src) Hl) as Hl'.
  pose proof (Htr (retrievalMethodCtx dst) (retrievalMethodCtx src)) as Hr'.
  pose proof (Htr (keyInfoReferenceCtx dst) (keyInfoReferenceCtx src)) as Hk'.
  destruct (xmlSecPtrListCopy (enabledKeyData dst) (enabledKeyData src)) as [r1 l].
  destruct (xmlSecTransformCtxCopyUserPref (retrievalMethodCtx dst)
              (retrievalMethodCtx src)) as [r2 t2].
  destruct (xmlSecTransformCtxCopyUserPref (keyInfoReferenceCtx dst)
              (keyInfoReferenceCtx src)) as [r3 t3].
  cbn [fst snd] in *. subst l t2 t3.
  assert (E1 : (r1 <? 0) = false) by (apply Z.ltb_ge; lia).
  assert (E2 : (r2 <? 0) = false) by (apply Z.ltb_ge; lia).
  assert (E3 : (r3 <? 0) = false) by (apply Z.ltb_ge; lia).
  rewrite E1. ctx_simpl. rewrite E2. ctx_simpl. rewrite E3. ctx_simpl.
  destruct (encCtx src) as [s|]; [destruct (encCtx dst) as [d|] eqn:Ed|].
  - pose proof (He d s eq_refl eq_refl) as He'.
    destruct (xmlSecEncCtxCopyUserPref (set_encMode xmlEncCtxModeEncryptedKey d) s)
      as [r4 e4].
    cbn [fst snd] in *.
    assert (E4 : (r4 <? 0) = false) by (apply Z.ltb_ge; lia).
    rewrite E4. eexists. split; [reflexivity|]. ctx_simpl.
    try rewrite Ed. repeat split; reflexivity.
  - cbn [Z.ltb Z.compare]. eexists. split; [reflexivity|]. ctx_simpl.
    try rewrite Ed. repeat split; reflexivity.
  - cbn [Z.ltb Z.compare]. eexists. split; [reflexivity|]. ctx_simpl.
    repeat split; reflexivity.
Qed.

Lemma copy_user_pref_copies_configuration_only_witness :
  let src :=
    set_flags XMLSEC_KEYINFO_FLAGS_STOP_ON_UNKNOWN_CHILD
      (set_maxRetrievalMethodLevel 3
         (set_enabledKeyData [xmlSecKeyDataNameKlass] Sample.readCtx)) in
  let dst := set_curRetrievalMethodLevel 1 Sample.readCtx in
  exists dst',
    xmlSecKeyInfoCtxCopyUserPref (transforms := Sample.transforms)
      (listOps := Sample.listOps) (enc := Sample.enc) dst src = (0, dst') /\
    flags dst' = XMLSEC_KEYINFO_FLAGS_STOP_ON_UNKNOWN_CHILD /\
    enabledKeyData dst' = [xmlSecKeyDataNameKlass] /\
    maxRetrievalMethodLevel dst' = 3 /\
    curRetrievalMethodLevel dst' = 1.
Proof.
  intros src dst.
  destruct (@copy_user_pref_copies_configuration_only Sample.transforms Sample.listOps
              Sample.enc dst src) as [dst' H].
  - intros d s _. reflexivity.
  - intros d s. reflexivity.
  - vm_compute. discriminate.
  - vm_compute. discriminate.
  - vm_compute. discriminate.
  - intros d s Hd. vm_compute in Hd. discriminate.
  - exists dst'.
    destruct H as (H0 & _ & Hfl & _ & _ & _ & Hen & HmaxR & _ & _ & _ & _ & _ & _
                   & _ & HcurR & _).
    repeat split; assumption.
Defined.

(* ================================================================== *)
(** ** <enc:EncryptedKey/>, <enc11:DerivedKey/>, <enc:AgreementMethod/> *)
(* ================================================================== *)

Ltac break_match :=
  match goal with
  | |- context [match ?y with _ => _ end] => destruct y eqn:?
  end.

Lemma set_encCtx_same c : set_encCtx (encCtx c) c = c.
Proof. destruct c; reflexivity. Qed.

Section EncContext.

Context {transforms : TransformEngine} {listOps : PtrListOps} {enc : EncEngine}.

(** Creating the encryption context changes no other field of the KeyInfo
    context. *)
Lemma createEncCtx_shape ctx :
  exists e, snd (xmlSecKeyInfoCtxCreateEncCtx ctx) = set_encCtx e ctx.
Proof.
  unfold xmlSecKeyInfoCtxCreateEncCtx.
  repeat break_match; cbn [snd];
    first [ eexists; reflexivity
          | exists (encCtx ctx); symmetry; apply set_encCtx_same ].
Qed.

(** Neither does the common opening of the three handlers. *)
Lemma initEncCtxAndCopyPrefs_shape ctx :
  exists e, snd (initEncCtxAndCopyPrefs ctx) = set_encCtx e ctx.
Proof.
  unfold initEncCtxAndCopyPrefs.
  destruct (encCtx ctx) as [e0|] eqn:He0.
  - cbv beta iota. repeat break_match; cbn [snd]; eexists; reflexivity.
  - destruct (createEncCtx_shape ctx) as [e1 H1].
    destruct (xmlSecKeyInfoCtxCreateEncCtx ctx) as [ret c1].
    cbn [snd] in H1. subst c1.
    repeat break_match; cbn [snd]; eexists; reflexivity.
Qed.

Lemma initEncCtxAndCopyPrefs_frame ctx ret ctx1 :
  initEncCtxAndCopyPrefs ctx = (ret, ctx1) ->
  flags ctx1 = flags ctx /\ mode ctx1 = mode ctx /\ keyReq ctx1 = keyReq ctx /\
  curEncryptedKeyLevel ctx1 = curEncryptedKeyLevel ctx /\
  maxEncryptedKeyLevel ctx1 = maxEncryptedKeyLevel ctx /\
  curRetrievalMethodLevel ctx1 = curRetrievalMethodLevel ctx /\
  curKeyInfoReferenceLevel ctx1 = curKeyInfoReferenceLevel ctx.
Proof.
  intros H. destruct (initEncCtxAndCopyPrefs_shape ctx) as [e He].
  rewrite H in He. cbn [snd] in He. subst ctx1. repeat split.
Qed.

Lemma initEncCtxAndCopyPrefs_status ctx :
  fst (initEncCtxAndCopyPrefs ctx) = 0 \/ fst (initEncCtxAndCopyPrefs ctx) = -1.
Proof.
  unfold initEncCtxAndCopyPrefs.
  repeat break_match; cbn [fst]; auto.
Qed.

End EncContext.

Section FailedDecryption.

Context {dataOps : KeyDataOps} {keysOps : KeysOps}
        {transforms : TransformEngine} {listOps : PtrListOps} {enc : EncEngine}.

Lemma encrypted_key_failed_decryption key node ctx ctx1 e :
  mode ctx = xmlSecKeyInfoModeRead ->
  curEncryptedKeyLevel ctx < maxEncryptedKeyLevel ctx ->
  initEncCtxAndCopyPrefs ctx = (0, ctx1) ->
  encCtx ctx1 = Some e ->
  match fst (xmlSecEncCtxDecryptToBuffer e node) with
  | Some result => xmlSecBufferGetData result = None
  | None => True
  end ->
  let r := xmlSecKeyDataEncryptedKeyXmlRead xmlSecKeyDataEncryptedKeyId key node ctx in
  key_of r = key /\
  status_of r
  = (if flag_is_set (flags ctx) XMLSEC_KEYINFO_FLAGS_ENCKEY_DONT_STOP_ON_FAILED_DECRYPTION
     then -1 else 0).
Proof.
  intros Hmode Hlevel Hinit He Hfail r. subst r.
  destruct (initEncCtxAndCopyPrefs_frame _ _ _ Hinit) as [Hflags _].
  unfold xmlSecKeyDataEncryptedKeyXmlRead.
  change (id_eqb xmlSecKeyDataEncryptedKeyId xmlSecKeyDataEncryptedKeyId) with true.
  rewrite Hmode. cbn [negb mode_eqb].
  replace (maxEncryptedKeyLevel ctx <=? curEncryptedKeyLevel ctx) with false
    by (symmetry; apply Z.leb_gt; exact Hlevel).
  rewrite Hinit. cbn [Z.ltb Z.compare]. rewrite He.
  destruct (xmlSecEncCtxDecryptToBuffer e node) as [result e'].
  cbn [fst] in Hfail. cbv zeta. ctx_simpl. rewrite Hflags.
  destruct result as [result|]; [rewrite Hfail|];
    destruct (flag_is_set _ _); split; reflexivity.
Qed.

Lemma derived_key_failed_generation key node ctx ctx1 ctx2 :
  mode ctx = xmlSecKeyInfoModeRead ->
  curEncryptedKeyLevel ctx < maxEncryptedKeyLevel ctx ->
  initEncCtxAndCopyPrefs ctx = (0, ctx1) ->
  encCtx ctx1 <> None ->
  xmlSecEncCtxDerivedKeyGenerate (keyId (keyReq ctx1)) node
    (set_curEncryptedKeyLevel (curEncryptedKeyLevel ctx1 + 1) ctx1) = (None, ctx2) ->
  let r := xmlSecKeyDataDerivedKeyXmlRead xmlSecKeyDataDerivedKeyId key node ctx in
  key_of r = key /\
  status_of r
  = (if flag_is_set (flags ctx2) XMLSEC_KEYINFO_FLAGS_ENCKEY_DONT_STOP_ON_FAILED_DECRYPTION
     then -1 else 0).
Proof.
  intros Hmode Hlevel Hinit He Hgen r. subst r.
  unfold xmlSecKeyDataDerivedKeyXmlRead.
  change (id_eqb xmlSecKeyDataDerivedKeyId xmlSecKeyDataDerivedKeyId) with true.
  rewrite Hmode. cbn [negb mode_eqb].
  replace (maxEncryptedKeyLevel ctx <=? curEncryptedKeyLevel ctx) with false
    by (symmetry; apply Z.leb_gt; exact Hlevel).
  rewrite Hinit. cbn [Z.ltb Z.compare].
  destruct (encCtx ctx1) as [e|]; [|contradiction].
  cbv zeta. ctx_simpl. rewrite Hgen. ctx_simpl.
  destruct (flag_is_set _ _); split; reflexivity.
Qed.

Lemma agreement_method_failed_generation key node ctx ctx1 ctx2 :
  mode ctx = xmlSecKeyInfoModeRead ->
  curEncryptedKeyLevel ctx < maxEncryptedKeyLevel ctx ->
  initEncCtxAndCopyPrefs ctx = (0, ctx1) ->
  encCtx ctx1 <> None ->
  xmlSecEncCtxAgreementMethodGenerate (keyId (keyReq ctx1)) node
    (set_curEncryptedKeyLevel (curEncryptedKeyLevel ctx1 + 1) ctx1) = (None, ctx2) ->
  let r := xmlSecKeyDataAgreementMethodXmlRead xmlSecKeyDataAgreementMethodId key node ctx in
  key_of r = key /\
  status_of r
  = (if flag_is_set (flags ctx2) XMLSEC_KEYINFO_FLAGS_ENCKEY_DONT_STOP_ON_FAILED_DECRYPTION
     then -1 else 0).
Proof.
  intros Hmode Hlevel Hinit He Hgen r. subst r.
  unfold xmlSecKeyDataAgreementMethodXmlRead.
  change (id_eqb xmlSecKeyDataAgreementMethodId xmlSecKeyDataAgreementMethodId) with true.
  rewrite Hmode. cbn [negb mode_eqb].
  replace (maxEncryptedKeyLevel ctx <=? curEncryptedKeyLevel ctx) with false
    by (symmetry; apply Z.leb_gt; exact Hlevel).
  rewrite Hinit. cbn [Z.ltb Z.compare].
  destruct (encCtx ctx1) as [e|]; [|contradiction].
  cbv zeta. ctx_simpl. rewrite Hgen. ctx_simpl.
  destruct (flag_is_set _ _); split; reflexivity.
Qed.

End FailedDecryption.

(** C5.  In the read handlers of EncryptedKey, DerivedKey and
    AgreementMethod, once the nesting bound is passed and the encryption
    context is set up, a decryption that yields no buffer or an empty one,
    and a key generation that yields no key, end the handler with the
    caller's key untouched and with status -1 when
    [ENCKEY_DONT_STOP_ON_FAILED_DECRYPTION] is set, 0 when it is clear.  A
    handler that returns 0 with the key untouched lets the read driver go on
    with the siblings of its node, with that same key. *)
Theorem failed_decryption_is_swallowed_unless_flagged
    {registry : KeyDataRegistry} {dataOps : KeyDataOps} {keysOps : KeysOps}
    {transforms : TransformEngine} {listOps : PtrListOps} {enc : EncEngine} :
  forall (key : xmlSecKey) (node : xmlNode) (ctx ctx1 : xmlSecKeyInfoCtx),
    mode ctx = xmlSecKeyInfoModeRead ->
    curEncryptedKeyLevel ctx < maxEncryptedKeyLevel ctx ->
    initEncCtxAndCopyPrefs ctx = (0, ctx1) ->
    (forall e,
       encCtx ctx1 = Some e ->
       match fst (xmlSecEncCtxDecryptToBuffer e node) with
       | Some result => xmlSecBufferGetData result = None
       | None => True
       end ->
       let r := xmlSecKeyDataEncryptedKeyXmlRead xmlSecKeyDataEncryptedKeyId key node ctx in
       key_of r = key /\
       status_of r
       = (if flag_is_set (flags ctx)
               XMLSEC_KEYINFO_FLAGS_ENCKEY_DONT_STOP_ON_FAILED_DECRYPTION
          then -1 else 0))
    /\
    (forall ctx2,
       encCtx ctx1 <> None ->
       xmlSecEncCtxDerivedKeyGenerate (keyId (keyReq ctx1)) node
         (set_curEncryptedKeyLevel (curEncryptedKeyLevel ctx1 + 1) ctx1) = (None, ctx2) ->
       let r := xmlSecKeyDataDerivedKeyXmlRead xmlSecKeyDataDerivedKeyId key node ctx in
       key_of r = key /\
       status_of r
       = (if flag_is_set (flags ctx2)
               XMLSEC_KEYINFO_FLAGS_ENCKEY_DONT_STOP_ON_FAILED_DECRYPTION
          then -1 else 0))
    /\
    (forall ctx2,
       encCtx ctx1 <> None ->
       xmlSecEncCtxAgreementMethodGenerate (keyId (keyReq ctx1)) node
         (set_curEncryptedKeyLevel (curEncryptedKeyLevel ctx1 + 1) ctx1) = (None, ctx2) ->
       let r :=
         xmlSecKeyDataAgreementMethodXmlRead xmlSecKeyDataAgreementMethodId key node ctx in
       key_of r = key /\
       status_of r
       = (if flag_is_set (flags ctx2)
               XMLSEC_KEYINFO_FLAGS_ENCKEY_DONT_STOP_ON_FAILED_DECRYPTION
          then -1 else 0))
    /\
    (forall (next : list xmlNode) k (r : readResult),
       isElementNode node = true ->
       (flag_is_set (flags ctx) XMLSEC_KEYINFO_FLAGS_DONT_STOP_ON_KEY_FOUND
        || negb (xmlSecKeyIsValid key)
        || (xmlSecKeyMatch key None (keyReq ctx) =? 0)) = true ->
       find_by_node ctx node xmlSecKeyDataUsageKeyInfoNodeRead = Some k ->
       xmlSecKeyDataXmlRead (Some k) key node ctx = r ->
       status_of r = 0 ->
       key_of r = key ->
       xmlSecKeyInfoNodeRead_loop (node :: next) key ctx
       = xmlSecKeyInfoNodeRead_loop next key (ctx_of r)).
Proof.
  intros key node ctx ctx1 Hmode Hlevel Hinit. repeat split.
  - apply (encrypted_key_failed_decryption key node ctx ctx1 e); assumption.
  - apply (encrypted_key_failed_decryption key node ctx ctx1 e); assumption.
  - apply (derived_key_failed_generation key node ctx ctx1 ctx2); assumption.
  - apply (derived_key_failed_generation key node ctx ctx1 ctx2); assumption.
  - apply (agreement_method_failed_generation key node ctx ctx1 ctx2); assumption.
  - apply (agreement_method_failed_generation key node ctx ctx1 ctx2); assumption.
  - intros next k r He Hg Hk Hr Hs Hkey.
    destruct r as [[ret key'] ctx']. unfold status_of, key_of, ctx_of in *.
    cbn [fst snd] in *. subst ret key'.
    apply (read_loop_dispatch node next key ctx k 0 key ctx'); try assumption. lia.
Qed.

Lemma failed_decryption_is_swallowed_unless_flagged_witness :
  let wantAes :=
    set_keyReq {| keyId := Some Sample.aesKlass; keyType := 0; keyUsage := 0;
                  keyBitsSize := 0 |} Sample.readCtx in
  let strict :=
    set_flags XMLSEC_KEYINFO_FLAGS_ENCKEY_DONT_STOP_ON_FAILED_DECRYPTION wantAes in
  let forOther := Sample.encElement "EncryptedKey" [("Recipient", "you")] [] in
  let forMe := Sample.encElement "EncryptedKey" [("Recipient", "me")] [] in
  let readLax :=
    xmlSecKeyDataEncryptedKeyXmlRead (dataOps := Sample.dataOps)
      (transforms := Sample.transforms) (listOps := Sample.listOps) (enc := Sample.enc)
      xmlSecKeyDataEncryptedKeyId Sample.emptyKey forOther wantAes in
  let readStrict :=
    xmlSecKeyDataEncryptedKeyXmlRead (dataOps := Sample.dataOps)
      (transforms := Sample.transforms) (listOps := Sample.listOps) (enc := Sample.enc)
      xmlSecKeyDataEncryptedKeyId Sample.emptyKey forOther strict in
  (key_of readLax = Sample.emptyKey /\ status_of readLax = 0) /\
  (key_of readStrict = Sample.emptyKey /\ status_of readStrict = -1) /\
  xmlSecKeyInfoNodeRead_loop (registry := Sample.registry) (dataOps := Sample.dataOps)
    (keysOps := Sample.keysOps) [forOther; forMe] Sample.emptyKey wantAes
  = xmlSecKeyInfoNodeRead_loop (registry := Sample.registry) (dataOps := Sample.dataOps)
      (keysOps := Sample.keysOps) [forMe] Sample.emptyKey (ctx_of readLax).
Proof.
  intros wantAes strict forOther forMe readLax readStrict.
  pose (lax1 := snd (initEncCtxAndCopyPrefs (transforms := Sample.transforms)
                       (listOps := Sample.listOps) (enc := Sample.enc) wantAes)).
  pose (strict1 := snd (initEncCtxAndCopyPrefs (transforms := Sample.transforms)
                          (listOps := Sample.listOps) (enc := Sample.enc) strict)).
  pose (e0 := Build_xmlSecEncCtx xmlEncCtxModeEncryptedKey wantAes wantAes 0 0).
  pose (eLax := match encCtx lax1 with Some e => e | None => e0 end).
  pose (eStrict := match encCtx strict1 with Some e => e | None => e0 end).
  assert (Hmode : mode wantAes = xmlSecKeyInfoModeRead) by (vm_compute; reflexivity).
  assert (Hmode' : mode strict = xmlSecKeyInfoModeRead) by (vm_compute; reflexivity).
  assert (Hlevel : curEncryptedKeyLevel wantAes < maxEncryptedKeyLevel wantAes)
    by (vm_compute; reflexivity).
  assert (Hlevel' : curEncryptedKeyLevel strict < maxEncryptedKeyLevel strict)
    by (vm_compute; reflexivity).
  assert (Hlax : initEncCtxAndCopyPrefs (transforms := Sample.transforms)
                   (listOps := Sample.listOps) (enc := Sample.enc) wantAes = (0, lax1))
    by (vm_compute; reflexivity).
  assert (Hstrict : initEncCtxAndCopyPrefs (transforms := Sample.transforms)
                      (listOps := Sample.listOps) (enc := Sample.enc) strict
                    = (0, strict1))
    by (vm_compute; reflexivity).
  assert (HeLax : encCtx lax1 = Some eLax) by (vm_compute; reflexivity).
  assert (HeStrict : encCtx strict1 = Some eStrict) by (vm_compute; reflexivity).
  pose proof (@failed_decryption_is_swallowed_unless_flagged Sample.registry
                Sample.dataOps Sample.keysOps Sample.transforms Sample.listOps
                Sample.enc Sample.emptyKey forOther wantAes lax1
                Hmode Hlevel Hlax) as [HE [_ [_ HD]]].
  pose proof (@failed_decryption_is_swallowed_unless_flagged Sample.registry
                Sample.dataOps Sample.keysOps Sample.transforms Sample.listOps
                Sample.enc Sample.emptyKey forOther strict strict1
                Hmode' Hlevel' Hstrict) as [HS _].
  specialize (HE eLax HeLax). specialize (HS eStrict HeStrict).
  split; [|split].
  - apply HE. vm_compute. exact I.
  - apply HS. vm_compute. exact I.
  - apply (HD [forMe] xmlSecKeyDataEncryptedKeyKlass readLax);
      vm_compute; reflexivity.
Defined.

(* ================================================================== *)
(** ** Recursion counters *)
(* ================================================================== *)

(** Case analysis on the test the result under a counter predicate is
    blocked on; [note] may record what is known about the call analysed. *)
Ltac step_result_with note :=
  let go t :=
    lazymatch t with
    | match ?y with _ => _ end =>
        let z := head_scrutinee y in
        note z; destruct z eqn:?; cbv beta iota
    end in
  lazymatch goal with
  | |- restored_on_success_only _ _ ?t => go t
  | |- restored_always _ _ ?t => go t
  | |- keeps_level _ _ ?t => go t
  end.

Ltac finish_level :=
  unfold restored_on_success_only, restored_always, keeps_level, status_of, ctx_of in *;
  repeat match goal with
         | H : exists _, _ |- _ => destruct H
         end;
  cbn [fst snd] in *; subst; ctx_simpl;
  repeat match goal with
         | H : (_ <? _) = true |- _ => apply Z.ltb_lt in H
         | H : (_ <? _) = false |- _ => apply Z.ltb_ge in H
         | H : (_ <=? _) = true |- _ => apply Z.leb_le in H
         | H : (_ <=? _) = false |- _ => apply Z.leb_gt in H
         end;
  lia.

Section Levels.

Context {registry : KeyDataRegistry} {dataOps : KeyDataOps} {keysOps : KeysOps}
        {xmlOps : XmlTreeOps} {transforms : TransformEngine}
        {listOps : PtrListOps} {enc : EncEngine}.

Variable level : xmlSecKeyInfoCtx -> Z.

Hypothesis Hxml : forall id k n c, keeps_level level c (xmlSecKeyDataXmlRead id k n c).

(** The read driver keeps the discipline of its handlers. *)
Lemma read_loop_keeps_level cur : forall key ctx,
  keeps_level level ctx (xmlSecKeyInfoNodeRead_loop cur key ctx).
Proof.
  induction cur as [|n next IH]; intros key ctx.
  - cbn [xmlSecKeyInfoNodeRead_loop]. finish_level.
  - cbn [xmlSecKeyInfoNodeRead_loop].
    destruct (negb (isElementNode n)); [apply IH|].
    destruct (_ || _ || _); [|finish_level].
    destruct (if 0 <? _ then _ else _) as [k|].
    + pose proof (Hxml (Some k) key n ctx) as Hd.
      destruct (xmlSecKeyDataXmlRead (Some k) key n ctx) as [[ret key'] ctx'].
      destruct (ret <? 0) eqn:E.
      * finish_level.
      * pose proof (IH key' ctx') as Hn.
        destruct (xmlSecKeyInfoNodeRead_loop next key' ctx') as [[ret2 key2] ctx2].
        finish_level.
    + destruct (flag_is_set _ _); [finish_level | apply IH].
Qed.

Lemma node_read_keeps_level keyInfoNode key ctx :
  keeps_level level ctx (xmlSecKeyInfoNodeRead keyInfoNode key ctx).
Proof.
  unfold xmlSecKeyInfoNodeRead.
  destruct (negb _); [finish_level | apply read_loop_keeps_level].
Qed.

Lemma retrieval_result_keeps_level typeId key buffer bufferSize ctx :
  keeps_level level ctx
    (xmlSecKeyDataRetrievalMethodReadXmlResult typeId key buffer bufferSize ctx).
Proof.
  unfold xmlSecKeyDataRetrievalMethodReadXmlResult. cbv zeta.
  repeat step_result_with
    ltac:(fun z => lazymatch z with
                   | xmlSecKeyDataXmlRead ?a ?b ?c ?d => pose proof (Hxml a b c d)
                   | _ => idtac
                   end).
  all: finish_level.
Qed.

Lemma keyinfo_reference_result_keeps_level typeId key buffer bufferSize ctx :
  keeps_level level ctx
    (xmlSecKeyDataKeyInfoReferenceReadXmlResult typeId key buffer bufferSize ctx).
Proof.
  unfold xmlSecKeyDataKeyInfoReferenceReadXmlResult. cbv zeta.
  repeat step_result_with
    ltac:(fun z => lazymatch z with
                   | xmlSecKeyInfoNodeRead ?a ?b ?c =>
                       pose proof (node_read_keeps_level a b c)
                   | _ => idtac
                   end).
  all: finish_level.
Qed.

End Levels.

Section BoundedHandlers.

Context {registry : KeyDataRegistry} {dataOps : KeyDataOps} {keysOps : KeysOps}
        {xmlOps : XmlTreeOps} {transforms : TransformEngine}
        {listOps : PtrListOps} {enc : EncEngine}.

Lemma retrieval_read_level_exceeded key node ctx :
  maxRetrievalMethodLevel ctx <= curRetrievalMethodLevel ctx ->
  xmlSecKeyDataRetrievalMethodXmlRead xmlSecKeyDataRetrievalMethodId key node ctx
  = (-1, key, ctx).
Proof.
  intros Hlevel. unfold xmlSecKeyDataRetrievalMethodXmlRead.
  replace (maxRetrievalMethodLevel ctx <=? curRetrievalMethodLevel ctx) with true
    by (symmetry; apply Z.leb_le; exact Hlevel).
  repeat break_match; reflexivity.
Qed.

Lemma retrieval_read_level
    (Hxml : forall id k n c,
        keeps_level curRetrievalMethodLevel c (xmlSecKeyDataXmlRead id k n c))
    (Hbin : forall id k b s c,
        keeps_level curRetrievalMethodLevel c (xmlSecKeyDataBinRead id k b s c))
    key node ctx d :
  node_doc node = Some d ->
  mode ctx = xmlSecKeyInfoModeRead ->
  curRetrievalMethodLevel ctx < maxRetrievalMethodLevel ctx ->
  expected_retrieval_type ctx node <> xmlSecKeyDataIdUnknown
  \/ flag_is_set (flags ctx) XMLSEC_KEYINFO_FLAGS_RETRMETHOD_STOP_ON_UNKNOWN_HREF = true ->
  restored_on_success_only curRetrievalMethodLevel ctx
    (xmlSecKeyDataRetrievalMethodXmlRead xmlSecKeyDataRetrievalMethodId key node ctx).
Proof.
  intros Hdoc Hmode Hlevel Hknown.
  unfold xmlSecKeyDataRetrievalMethodXmlRead.
  change (id_eqb xmlSecKeyDataRetrievalMethodId xmlSecKeyDataRetrievalMethodId) with true.
  rewrite Hdoc, Hmode. cbn [negb mode_eqb].
  replace (maxRetrievalMethodLevel ctx <=? curRetrievalMethodLevel ctx) with false
    by (symmetry; apply Z.leb_gt; exact Hlevel).
  cbv zeta. ctx_simpl. rewrite site_expected_retrieval_type.
  destruct (expected_retrieval_type ctx node) as [k|].
  - repeat step_result_with
      ltac:(fun z =>
              lazymatch z with
              | xmlSecKeyDataBinRead ?a ?b ?c ?d ?e => pose proof (Hbin a b c d e)
              | xmlSecKeyDataRetrievalMethodReadXmlResult ?a ?b ?c ?d ?e =>
                  pose proof (retrieval_result_keeps_level
                                curRetrievalMethodLevel Hxml a b c d e)
              | _ => idtac
              end).
    all: finish_level.
  - destruct Hknown as [Hk | Hf]; [contradiction|].
    rewrite Hf. finish_level.
Qed.

Lemma keyinfo_reference_read_level_exceeded key node ctx :
  maxKeyInfoReferenceLevel ctx <= curKeyInfoReferenceLevel ctx ->
  xmlSecKeyDataKeyInfoReferenceXmlRead xmlSecKeyDataKeyInfoReferenceId key node ctx
  = (-1, key, ctx).
Proof.
  intros Hlevel. unfold xmlSecKeyDataKeyInfoReferenceXmlRead.
  replace (maxKeyInfoReferenceLevel ctx <=? curKeyInfoReferenceLevel ctx) with true
    by (symmetry; apply Z.leb_le; exact Hlevel).
  repeat break_match; reflexivity.
Qed.

Lemma keyinfo_reference_read_level
    (Hxml : forall id k n c,
        keeps_level curKeyInfoReferenceLevel c (xmlSecKeyDataXmlRead id k n c))
    key node ctx d :
  node_doc node = Some d ->
  mode ctx = xmlSecKeyInfoModeRead ->
  curKeyInfoReferenceLevel ctx < maxKeyInfoReferenceLevel ctx ->
  restored_on_success_only curKeyInfoReferenceLevel ctx
    (xmlSecKeyDataKeyInfoReferenceXmlRead xmlSecKeyDataKeyInfoReferenceId key node ctx).
Proof.
  intros Hdoc Hmode Hlevel.
  unfold xmlSecKeyDataKeyInfoReferenceXmlRead.
  change (id_eqb xmlSecKeyDataKeyInfoReferenceId xmlSecKeyDataKeyInfoReferenceId)
    with true.
  rewrite Hdoc, Hmode. cbn [negb mode_eqb].
  replace (maxKeyInfoReferenceLevel ctx <=? curKeyInfoReferenceLevel ctx) with false
    by (symmetry; apply Z.leb_gt; exact Hlevel).
  cbv zeta. ctx_simpl.
  repeat step_result_with
    ltac:(fun z =>
            lazymatch z with
            | xmlSecKeyDataKeyInfoReferenceReadXmlResult ?a ?b ?c ?d ?e =>
                pose proof (keyinfo_reference_result_keeps_level
                              curKeyInfoReferenceLevel Hxml a b c d e)
            | _ => idtac
            end).
  all: finish_level.
Qed.

Lemma encrypted_key_read_level
    (Hbin : forall id k b s c,
        curEncryptedKeyLevel (ctx_of (xmlSecKeyDataBinRead id k b s c))
        = curEncryptedKeyLevel c)
    key node ctx :
  (maxEncryptedKeyLevel ctx <= curEncryptedKeyLevel ctx ->
   xmlSecKeyDataEncryptedKeyXmlRead xmlSecKeyDataEncryptedKeyId key node ctx
   = (-1, key, ctx)) /\
  restored_always curEncryptedKeyLevel ctx
    (xmlSecKeyDataEncryptedKeyXmlRead xmlSecKeyDataEncryptedKeyId key node ctx).
Proof.
  split.
  - intros Hlevel. unfold xmlSecKeyDataEncryptedKeyXmlRead.
    replace (maxEncryptedKeyLevel ctx <=? curEncryptedKeyLevel ctx) with true
      by (symmetry; apply Z.leb_le; exact Hlevel).
    repeat break_match; reflexivity.
  - unfold xmlSecKeyDataEncryptedKeyXmlRead. cbv zeta.
    repeat step_result_with
      ltac:(fun z =>
              lazymatch z with
              | xmlSecKeyDataBinRead ?a ?b ?c ?d ?e => pose proof (Hbin a b c d e)
              | initEncCtxAndCopyPrefs ?c =>
                  pose proof (initEncCtxAndCopyPrefs_shape c)
              | _ => idtac
              end).
    all: finish_level.
Qed.

Lemma derived_key_read_level
    (Hgen : forall id n c,
        curEncryptedKeyLevel (snd (xmlSecEncCtxDerivedKeyGenerate id n c))
        = curEncryptedKeyLevel c)
    key node ctx :
  (maxEncryptedKeyLevel ctx <= curEncryptedKeyLevel ctx ->
   xmlSecKeyDataDerivedKeyXmlRead xmlSecKeyDataDerivedKeyId key node ctx
   = (-1, key, ctx)) /\
  restored_always curEncryptedKeyLevel ctx
    (xmlSecKeyDataDerivedKeyXmlRead xmlSecKeyDataDerivedKeyId key node ctx).
Proof.
  split.
  - intros Hlevel. unfold xmlSecKeyDataDerivedKeyXmlRead.
    replace (maxEncryptedKeyLevel ctx <=? curEncryptedKeyLevel ctx) with true
      by (symmetry; apply Z.leb_le; exact Hlevel).
    repeat break_match; reflexivity.
  - unfold xmlSecKeyDataDerivedKeyXmlRead, xmlSecKeyCopy. cbv zeta.
    repeat step_result_with
      ltac:(fun z =>
              lazymatch z with
              | xmlSecEncCtxDerivedKeyGenerate ?a ?b ?c => pose proof (Hgen a b c)
              | initEncCtxAndCopyPrefs ?c =>
                  pose proof (initEncCtxAndCopyPrefs_shape c)
              | _ => idtac
              end).
    all: finish_level.
Qed.

Lemma agreement_method_read_level
    (Hgen : forall id n c,
        curEncryptedKeyLevel (snd (xmlSecEncCtxAgreementMethodGenerate id n c))
        = curEncryptedKeyLevel c)
    key node ctx :
  (maxEncryptedKeyLevel ctx <= curEncryptedKeyLevel ctx ->
   xmlSecKeyDataAgreementMethodXmlRead xmlSecKeyDataAgreementMethodId key node ctx
   = (-1, key, ctx)) /\
  restored_always curEncryptedKeyLevel ctx
    (xmlSecKeyDataAgreementMethodXmlRead xmlSecKeyDataAgreementMethodId key node ctx).
Proof.
  split.
  - intros Hlevel. unfold xmlSecKeyDataAgreementMethodXmlRead.
    replace (maxEncryptedKeyLevel ctx <=? curEncryptedKeyLevel ctx) with true
      by (symmetry; apply Z.leb_le; exact Hlevel).
    repeat break_match; reflexivity.
  - unfold xmlSecKeyDataAgreementMethodXmlRead, xmlSecKeyCopy. cbv zeta.
    repeat step_result_with
      ltac:(fun z =>
              lazymatch z with
              | xmlSecEncCtxAgreementMethodGenerate ?a ?b ?c => pose proof (Hgen a b c)
              | initEncCtxAndCopyPrefs ?c =>
                  pose proof (initEncCtxAndCopyPrefs_shape c)
              | _ => idtac
              end).
    all: finish_level.
Qed.

Lemma agreement_method_write_level
    (Hwrite : forall n c,
        curEncryptedKeyLevel (ctx_of (xmlSecEncCtxAgreementMethodXmlWrite n c))
        = curEncryptedKeyLevel c)
    key node ctx :
  (maxEncryptedKeyLevel ctx <= curEncryptedKeyLevel ctx ->
   status_of (xmlSecKeyDataAgreementMethodXmlWrite
                xmlSecKeyDataAgreementMethodId key node ctx) = -1 /\
   ctx_of (xmlSecKeyDataAgreementMethodXmlWrite
             xmlSecKeyDataAgreementMethodId key node ctx) = ctx) /\
  restored_always curEncryptedKeyLevel ctx
    (xmlSecKeyDataAgreementMethodXmlWrite xmlSecKeyDataAgreementMethodId key node ctx).
Proof.
  split.
  - intros Hlevel. unfold xmlSecKeyDataAgreementMethodXmlWrite.
    replace (maxEncryptedKeyLevel ctx <=? curEncryptedKeyLevel ctx) with true
      by (symmetry; apply Z.leb_le; exact Hlevel).
    repeat break_match; split; reflexivity.
  - unfold xmlSecKeyDataAgreementMethodXmlWrite. cbv zeta.
    repeat step_result_with
      ltac:(fun z =>
              lazymatch z with
              | xmlSecEncCtxAgreementMethodXmlWrite ?a ?b => pose proof (Hwrite a b)
              | initEncCtxAndCopyPrefs ?c =>
                  pose proof (initEncCtxAndCopyPrefs_shape c)
              | _ => idtac
              end).
    all: finish_level.
Qed.

End BoundedHandlers.




(** On the path the amended C2 leaves out (the [Type] attribute does not
    resolve and [RETRMETHOD_STOP_ON_UNKNOWN_HREF] is clear) the handler
    returns 0 with the counter still raised; with the default bound of 1 a
    RetrievalMethod sibling that follows is then refused. *)
Remark retrieval_unknown_type_success_keeps_counter_raised :
  let rsaType := "http://www.w3.org/2000/09/xmldsig#RSAKeyValue" in
  let untyped := Sample.dsElement "RetrievalMethod" [("URI", "#rsa")] [] in
  let typed :=
    Sample.dsElement "RetrievalMethod" [("URI", "#rsa"); ("Type", rsaType)] [] in
  let r :=
    xmlSecKeyDataRetrievalMethodXmlRead (registry := Sample.registry)
      (dataOps := Sample.dataOps) (xmlOps := Sample.xmlOps)
      (transforms := Sample.transforms)
      xmlSecKeyDataRetrievalMethodId Sample.emptyKey untyped Sample.readCtx in
  status_of r = 0 /\
  curRetrievalMethodLevel Sample.readCtx = 0 /\
  curRetrievalMethodLevel (ctx_of r) = 1 /\
  status_of
    (xmlSecKeyInfoNodeRead (registry := Sample.registry) (dataOps := Sample.dataOps)
       (keysOps := Sample.keysOps)
       (Sample.dsElement "KeyInfo" [] [typed]) Sample.emptyKey Sample.readCtx) = 0 /\
  status_of
    (xmlSecKeyInfoNodeRead (registry := Sample.registry) (dataOps := Sample.dataOps)
       (keysOps := Sample.keysOps)
       (Sample.dsElement "KeyInfo" [] [untyped; typed]) Sample.emptyKey Sample.readCtx)
  = -1.
Proof. cbv zeta. vm_compute. repeat split. Qed.

(* ================================================================== *)
(** ** <dsig:RetrievalMethod/> with an unknown type *)
(* ================================================================== *)

(** C3 as stated fails: with the [Type] attribute absent and
    [RETRMETHOD_STOP_ON_UNKNOWN_HREF] clear the handler returns 0 at once.
    The URI is not set and nothing is fetched or dispatched: the key stays
    empty although the document behind the URI has a root that resolves, and
    a URI whose transform result is empty is reported as a success, whereas
    the same two nodes with a resolving [Type] yield a key and a failure. *)
Lemma retrieval_unknown_type_fetches_nothing :
  let rsaType := "http://www.w3.org/2000/09/xmldsig#RSAKeyValue" in
  let read node :=
    xmlSecKeyDataRetrievalMethodXmlRead (registry := Sample.registry)
      (dataOps := Sample.dataOps) (xmlOps := Sample.xmlOps)
      (transforms := Sample.transforms)
      xmlSecKeyDataRetrievalMethodId Sample.emptyKey node Sample.readCtx in
  let untyped := read (Sample.dsElement "RetrievalMethod" [("URI", "#rsa")] []) in
  let typed :=
    read (Sample.dsElement "RetrievalMethod" [("URI", "#rsa"); ("Type", rsaType)] []) in
  let untypedEmpty := read (Sample.dsElement "RetrievalMethod" [("URI", "#empty")] []) in
  let typedEmpty :=
    read (Sample.dsElement "RetrievalMethod" [("URI", "#empty"); ("Type", rsaType)] []) in
  flag_is_set (flags Sample.readCtx)
    XMLSEC_KEYINFO_FLAGS_RETRMETHOD_STOP_ON_UNKNOWN_HREF = false /\
  (status_of untyped = 0 /\
   xmlSecKeyIsValid (key_of untyped) = false /\
   tr_uri (retrievalMethodCtx (ctx_of untyped)) = None /\
   tr_result (retrievalMethodCtx (ctx_of untyped)) = None) /\
  (status_of typed = 0 /\
   xmlSecKeyIsValid (key_of typed) = true /\
   tr_uri (retrievalMethodCtx (ctx_of typed)) = Some "#rsa") /\
  status_of untypedEmpty = 0 /\
  status_of typedEmpty = -1.
Proof. cbv zeta. vm_compute. repeat split. Qed.

(** C3, amended.  For a RetrievalMethod node whose [Type] attribute is
    absent or does not resolve to a handler, once the nesting bound is
    passed: when [RETRMETHOD_STOP_ON_UNKNOWN_HREF] is set the handler fails;
    when it is clear the handler returns 0 at once and the node is ignored.
    Either way, and for every transform engine and every handler dispatch,
    the key and the transform context are left untouched (no URI is set, no
    pipeline is run, nothing is dispatched) and the context differs from
    the one on entry in the retrieval counter at most. *)
Theorem retrieval_unknown_type_is_ignored_or_refused
    {registry : KeyDataRegistry} {xmlOps : XmlTreeOps} :
  forall (key : xmlSecKey) (node : xmlNode) (ctx : xmlSecKeyInfoCtx) (d : xmlDoc),
    node_doc node = Some d ->
    mode ctx = xmlSecKeyInfoModeRead ->
    curRetrievalMethodLevel ctx < maxRetrievalMethodLevel ctx ->
    expected_retrieval_type ctx node = xmlSecKeyDataIdUnknown ->
    forall (dataOps : KeyDataOps) (transforms : TransformEngine),
      let r :=
        xmlSecKeyDataRetrievalMethodXmlRead xmlSecKeyDataRetrievalMethodId key node ctx in
      status_of r
      = (if flag_is_set (flags ctx) XMLSEC_KEYINFO_FLAGS_RETRMETHOD_STOP_ON_UNKNOWN_HREF
         then -1 else 0) /\
      key_of r = key /\
      retrievalMethodCtx (ctx_of r) = retrievalMethodCtx ctx /\
      exists lvl, ctx_of r = set_curRetrievalMethodLevel lvl ctx.
Proof.
  intros key node ctx d Hdoc Hmode Hlevel Hunknown dataOps transforms r. subst r.
  unfold xmlSecKeyDataRetrievalMethodXmlRead.
  change (id_eqb xmlSecKeyDataRetrievalMethodId xmlSecKeyDataRetrievalMethodId) with true.
  rewrite Hdoc, Hmode. cbn [negb mode_eqb].
  replace (maxRetrievalMethodLevel ctx <=? curRetrievalMethodLevel ctx) with false
    by (symmetry; apply Z.leb_gt; exact Hlevel).
  cbv zeta. ctx_simpl. rewrite site_expected_retrieval_type, Hunknown.
  destruct (flag_is_set _ _);
    (repeat split; [eexists; reflexivity]).
Qed.

Lemma retrieval_unknown_type_is_ignored_or_refused_witness :
  let untyped := Sample.dsElement "RetrievalMethod" [("URI", "#rsa")] [] in
  let strict :=
    set_flags XMLSEC_KEYINFO_FLAGS_RETRMETHOD_STOP_ON_UNKNOWN_HREF Sample.readCtx in
  let read ctx :=
    xmlSecKeyDataRetrievalMethodXmlRead (registry := Sample.registry)
      (dataOps := Sample.dataOps) (xmlOps := Sample.xmlOps)
      (transforms := Sample.transforms)
      xmlSecKeyDataRetrievalMethodId Sample.emptyKey untyped ctx in
  (status_of (read Sample.readCtx) = 0 /\ key_of (read Sample.readCtx) = Sample.emptyKey) /\
  (status_of (read strict) = -1 /\ key_of (read strict) = Sample.emptyKey).
Proof.
  intros untyped strict read.
  assert (Hdoc : node_doc (XmlTreeOps := Sample.xmlOps) untyped
                 = Some {| doc_children := [untyped] |}) by reflexivity.
  assert (Hmode : mode Sample.readCtx = xmlSecKeyInfoModeRead)
    by (vm_compute; reflexivity).
  assert (Hmode' : mode strict = xmlSecKeyInfoModeRead) by (vm_compute; reflexivity).
  assert (Hlevel : curRetrievalMethodLevel Sample.readCtx
                   < maxRetrievalMethodLevel Sample.readCtx)
    by (vm_compute; reflexivity).
  assert (Hlevel' : curRetrievalMethodLevel strict < maxRetrievalMethodLevel strict)
    by (vm_compute; reflexivity).
  assert (Hu : expected_retrieval_type (registry := Sample.registry)
                 Sample.readCtx untyped = xmlSecKeyDataIdUnknown)
    by (vm_compute; reflexivity).
  assert (Hu' : expected_retrieval_type (registry := Sample.registry) strict untyped
                = xmlSecKeyDataIdUnknown)
    by (vm_compute; reflexivity).
  pose proof (@retrieval_unknown_type_is_ignored_or_refused Sample.registry
                Sample.xmlOps Sample.emptyKey untyped Sample.readCtx _
                Hdoc Hmode Hlevel Hu Sample.dataOps Sample.transforms)
    as [H1 [H2 _]].
  pose proof (@retrieval_unknown_type_is_ignored_or_refused Sample.registry
                Sample.xmlOps Sample.emptyKey untyped strict _
                Hdoc Hmode' Hlevel' Hu' Sample.dataOps Sample.transforms)
    as [H3 [H4 _]].
  repeat split; assumption.
Defined.

(* ================================================================== *)
(** ** Further properties: the two drivers *)
(* ================================================================== *)

Lemma set_node_children_same n : set_node_children n (node_children n) = n.
Proof. destruct n; reflexivity. Qed.

Section Drivers.

Context {registry : KeyDataRegistry} {dataOps : KeyDataOps} {keysOps : KeysOps}.

Lemma read_loop_status cur : forall key ctx,
  status_of (xmlSecKeyInfoNodeRead_loop cur key ctx) = 0
  \/ status_of (xmlSecKeyInfoNodeRead_loop cur key ctx) = -1.
Proof.
  induction cur as [|n next IH]; intros key ctx; [left; reflexivity|].
  cbn [xmlSecKeyInfoNodeRead_loop].
  destruct (negb (isElementNode n)); [apply IH|].
  destruct (_ || _ || _); [|left; reflexivity].
  destruct (if 0 <? _ then _ else _) as [k|].
  - destruct (xmlSecKeyDataXmlRead (Some k) key n ctx) as [[ret key'] ctx'].
    destruct (ret <? 0); [right; reflexivity | apply IH].
  - destruct (flag_is_set _ _); [right; reflexivity | apply IH].
Qed.

Lemma write_loop_status cur : forall key ctx,
  status_of (xmlSecKeyInfoNodeWrite_loop cur key ctx) = 0
  \/ status_of (xmlSecKeyInfoNodeWrite_loop cur key ctx) = -1.
Proof.
  induction cur as [|n next IH]; intros key ctx; [left; reflexivity|].
  cbn [xmlSecKeyInfoNodeWrite_loop].
  destruct (negb (isElementNode n)).
  - specialize (IH key ctx).
    destruct (xmlSecKeyInfoNodeWrite_loop next key ctx) as [[res next'] ctx'].
    exact IH.
  - destruct (if 0 <? _ then _ else _) as [k|].
    + destruct (xmlSecKeyDataXmlWrite (Some k) key n ctx) as [[ret n'] ctx'].
      destruct (ret <? 0); [right; reflexivity|].
      specialize (IH key ctx').
      destruct (xmlSecKeyInfoNodeWrite_loop next key ctx') as [[res next'] ctx''].
      exact IH.
    + destruct (flag_is_set _ _); [right; reflexivity|].
      specialize (IH key ctx).
      destruct (xmlSecKeyInfoNodeWrite_loop next key ctx) as [[res next'] ctx'].
      exact IH.
Qed.

Lemma node_read_status keyInfoNode key ctx :
  status_of (xmlSecKeyInfoNodeRead keyInfoNode key ctx) = 0
  \/ status_of (xmlSecKeyInfoNodeRead keyInfoNode key ctx) = -1.
Proof.
  unfold xmlSecKeyInfoNodeRead.
  destruct (negb _); [right; reflexivity | apply read_loop_status].
Qed.

(** The read loop does not see the siblings that are not elements. *)
Lemma read_loop_elements_only cur : forall key ctx,
  xmlSecKeyInfoNodeRead_loop cur key ctx
  = xmlSecKeyInfoNodeRead_loop (filter isElementNode cur) key ctx.
Proof.
  induction cur as [|n next IH]; intros key ctx; [reflexivity|].
  cbn [filter]. destruct (isElementNode n) eqn:He.
  - cbn [xmlSecKeyInfoNodeRead_loop]. rewrite He. cbn [negb].
    destruct (_ || _ || _); [|reflexivity].
    destruct (if 0 <? _ then _ else _) as [k|].
    + destruct (xmlSecKeyDataXmlRead (Some k) key n ctx) as [[ret key'] ctx'].
      destruct (ret <? 0); [reflexivity | apply IH].
    + destruct (flag_is_set _ _); [reflexivity | apply IH].
  - cbn [xmlSecKeyInfoNodeRead_loop]. rewrite He. cbn [negb]. apply IH.
Qed.

(** Neither do the status and the context the write loop ends with. *)
Lemma write_loop_elements_only cur : forall key ctx,
  status_of (xmlSecKeyInfoNodeWrite_loop cur key ctx)
  = status_of (xmlSecKeyInfoNodeWrite_loop (filter isElementNode cur) key ctx) /\
  snd (xmlSecKeyInfoNodeWrite_loop cur key ctx)
  = snd (xmlSecKeyInfoNodeWrite_loop (filter isElementNode cur) key ctx).
Proof.
  induction cur as [|n next IH]; intros key ctx; [split; reflexivity|].
  cbn [filter]. destruct (isElementNode n) eqn:He.
  - cbn [xmlSecKeyInfoNodeWrite_loop]. rewrite He. cbn [negb].
    destruct (if 0 <? _ then _ else _) as [k|].
    + destruct (xmlSecKeyDataXmlWrite (Some k) key n ctx) as [[ret n'] ctx'].
      destruct (ret <? 0); [split; reflexivity|].
      specialize (IH key ctx').
      destruct (xmlSecKeyInfoNodeWrite_loop next key ctx') as [[res next'] ctx''].
      destruct (xmlSecKeyInfoNodeWrite_loop (filter isElementNode next) key ctx')
        as [[res2 next2] ctx2].
      exact IH.
    + destruct (flag_is_set _ _); [split; reflexivity|].
      specialize (IH key ctx).
      destruct (xmlSecKeyInfoNodeWrite_loop next key ctx) as [[res next'] ctx'].
      destruct (xmlSecKeyInfoNodeWrite_loop (filter isElementNode next) key ctx)
        as [[res2 next2] ctx2].
      exact IH.
  - cbn [xmlSecKeyInfoNodeWrite_loop]. rewrite He. cbn [negb].
    specialize (IH key ctx).
    destruct (xmlSecKeyInfoNodeWrite_loop next key ctx) as [[res next'] ctx'].
    exact IH.
Qed.

(** A pass of the read loop over children none of which resolves to a
    handler: the first element child the loop still looks at decides. *)
Lemma read_loop_unknown_children cur key ctx :
  Forall (fun n => isElementNode n = true ->
                   find_by_node ctx n xmlSecKeyDataUsageKeyInfoNodeRead = None) cur ->
  xmlSecKeyInfoNodeRead_loop cur key ctx
  = (if (flag_is_set (flags ctx) XMLSEC_KEYINFO_FLAGS_DONT_STOP_ON_KEY_FOUND
         || negb (xmlSecKeyIsValid key)
         || (xmlSecKeyMatch key None (keyReq ctx) =? 0))
        && flag_is_set (flags ctx) XMLSEC_KEYINFO_FLAGS_STOP_ON_UNKNOWN_CHILD
        && existsb isElementNode cur
     then -1 else 0, key, ctx).
Proof.
  intros Hall.
  induction Hall as [|n next Hn Hall IH].
  - cbn [xmlSecKeyInfoNodeRead_loop existsb]. rewrite andb_false_r. reflexivity.
  - cbn [xmlSecKeyInfoNodeRead_loop existsb].
    destruct (isElementNode n) eqn:He; cbn [negb orb]; [|exact IH].
    rewrite site_lookup_by_node, (Hn eq_refl), IH. rewrite andb_true_r.
    destruct (_ || _ || _); cbn [andb]; [|reflexivity].
    destruct (flag_is_set (flags ctx) XMLSEC_KEYINFO_FLAGS_STOP_ON_UNKNOWN_CHILD);
      reflexivity.
Qed.

Lemma write_loop_unknown_children cur key ctx :
  Forall (fun n => isElementNode n = true ->
                   find_by_node ctx n xmlSecKeyDataUsageKeyInfoNodeWrite = None) cur ->
  xmlSecKeyInfoNodeWrite_loop cur key ctx
  = (if flag_is_set (flags ctx) XMLSEC_KEYINFO_FLAGS_STOP_ON_UNKNOWN_CHILD
        && existsb isElementNode cur
     then -1 else 0, cur, ctx).
Proof.
  intros Hall.
  induction Hall as [|n next Hn Hall IH].
  - cbn [xmlSecKeyInfoNodeWrite_loop existsb]. rewrite andb_false_r. reflexivity.
  - cbn [xmlSecKeyInfoNodeWrite_loop existsb].
    destruct (isElementNode n) eqn:He; cbn [negb orb].
    + rewrite site_lookup_by_node, (Hn eq_refl), IH. rewrite andb_true_r.
      destruct (flag_is_set (flags ctx) XMLSEC_KEYINFO_FLAGS_STOP_ON_UNKNOWN_CHILD);
        reflexivity.
    + rewrite IH. reflexivity.
Qed.

End Drivers.

(** X1.  [xmlSecKeyInfoNodeRead] and [xmlSecKeyInfoNodeWrite] return 0 or -1
    and nothing else, whatever the handlers they dispatch to return (the
    KeyName writer, for one, returns 8): a negative status of a handler
    becomes -1, any other status lets the loop go on. *)
Theorem keyinfo_drivers_return_0_or_minus_1
    {registry : KeyDataRegistry} {dataOps : KeyDataOps} {keysOps : KeysOps} :
  forall (keyInfoNode : xmlNode) (key : xmlSecKey) (ctx : xmlSecKeyInfoCtx),
    (status_of (xmlSecKeyInfoNodeRead keyInfoNode key ctx) = 0
     \/ status_of (xmlSecKeyInfoNodeRead keyInfoNode key ctx) = -1) /\
    (status_of (xmlSecKeyInfoNodeWrite keyInfoNode key ctx) = 0
     \/ status_of (xmlSecKeyInfoNodeWrite keyInfoNode key ctx) = -1).
Proof.
  intros keyInfoNode key ctx. split.
  - apply node_read_status.
  - unfold xmlSecKeyInfoNodeWrite.
    destruct (negb _); [right; reflexivity|].
    pose proof (write_loop_status (node_children keyInfoNode) key ctx) as H.
    destruct (xmlSecKeyInfoNodeWrite_loop (node_children keyInfoNode) key ctx)
      as [[res ch] ctx'].
    exact H.
Qed.

(** X2.  Children of the KeyInfo node that are not elements (text,
    comments) play no part: [xmlSecKeyInfoNodeRead] gives the same status,
    key and context on the node with these children removed, and
    [xmlSecKeyInfoNodeWrite] ends with the same status and context. *)
Theorem keyinfo_drivers_skip_non_element_children
    {registry : KeyDataRegistry} {dataOps : KeyDataOps} {keysOps : KeysOps} :
  forall (keyInfoNode : xmlNode) (key : xmlSecKey) (ctx : xmlSecKeyInfoCtx),
    let elementsOnly := set_node_children keyInfoNode (element_children keyInfoNode) in
    xmlSecKeyInfoNodeRead keyInfoNode key ctx = xmlSecKeyInfoNodeRead elementsOnly key ctx /\
    status_of (xmlSecKeyInfoNodeWrite keyInfoNode key ctx)
    = status_of (xmlSecKeyInfoNodeWrite elementsOnly key ctx) /\
    ctx_of (xmlSecKeyInfoNodeWrite keyInfoNode key ctx)
    = ctx_of (xmlSecKeyInfoNodeWrite elementsOnly key ctx).
Proof.
  intros keyInfoNode key ctx elementsOnly.
  assert (Hch : node_children elementsOnly
                = filter isElementNode (node_children keyInfoNode)).
  { subst elementsOnly. unfold element_children.
    destruct keyInfoNode; reflexivity. }
  split.
  - unfold xmlSecKeyInfoNodeRead. rewrite Hch.
    destruct (negb _); [reflexivity | apply read_loop_elements_only].
  - unfold xmlSecKeyInfoNodeWrite. rewrite Hch.
    destruct (negb _); [split; reflexivity|].
    pose proof (write_loop_elements_only (node_children keyInfoNode) key ctx) as [H1 H2].
    destruct (xmlSecKeyInfoNodeWrite_loop (node_children keyInfoNode) key ctx)
      as [[res ch] ctx'].
    destruct (xmlSecKeyInfoNodeWrite_loop
                (filter isElementNode (node_children keyInfoNode)) key ctx)
      as [[res2 ch2] ctx2].
    split; [exact H1 | exact H2].
Qed.

(** X3.  [xmlSecKeyInfoNodeRead] on a KeyInfo node none of whose element
    children resolves to a handler leaves key and context untouched, and
    fails exactly when [STOP_ON_UNKNOWN_CHILD] is set, there is an element
    child, and the loop condition holds on entry (the flag
    [DONT_STOP_ON_KEY_FOUND] is set, or the key is not valid, or it does not
    match the requirement): a key that already satisfies the requirement
    makes the function return 0 before the unknown child is looked at. *)
Theorem keyinfo_read_unknown_children
    {registry : KeyDataRegistry} {dataOps : KeyDataOps} {keysOps : KeysOps} :
  forall (keyInfoNode : xmlNode) (key : xmlSecKey) (ctx : xmlSecKeyInfoCtx),
    mode ctx = xmlSecKeyInfoModeRead ->
    Forall (fun n => isElementNode n = true ->
                     find_by_node ctx n xmlSecKeyDataUsageKeyInfoNodeRead = None)
           (node_children keyInfoNode) ->
    xmlSecKeyInfoNodeRead keyInfoNode key ctx
    = (if (flag_is_set (flags ctx) XMLSEC_KEYINFO_FLAGS_DONT_STOP_ON_KEY_FOUND
           || negb (xmlSecKeyIsValid key)
           || (xmlSecKeyMatch key None (keyReq ctx) =? 0))
          && flag_is_set (flags ctx) XMLSEC_KEYINFO_FLAGS_STOP_ON_UNKNOWN_CHILD
          && existsb isElementNode (node_children keyInfoNode)
       then -1 else 0, key, ctx).
Proof.
  intros keyInfoNode key ctx Hmode Hall.
  unfold xmlSecKeyInfoNodeRead. rewrite Hmode. cbn [mode_eqb negb].
  apply read_loop_unknown_children. exact Hall.
Qed.

Lemma keyinfo_read_unknown_children_witness :
  let node :=
    Sample.keyInfo [XmlText "text"; XmlElement "Other" (Some "urn:example") [] []] in
  let strict := set_flags XMLSEC_KEYINFO_FLAGS_STOP_ON_UNKNOWN_CHILD Sample.readCtx in
  xmlSecKeyInfoNodeRead (registry := Sample.registry) (dataOps := Sample.dataOps)
    (keysOps := Sample.keysOps) node Sample.emptyKey strict
  = (-1, Sample.emptyKey, strict) /\
  xmlSecKeyInfoNodeRead (registry := Sample.registry) (dataOps := Sample.dataOps)
    (keysOps := Sample.keysOps) node Sample.rsaKey strict
  = (0, Sample.rsaKey, strict).
Proof.
  intros node strict.
  assert (Hm : mode strict = xmlSecKeyInfoModeRead) by (vm_compute; reflexivity).
  assert (Hall : Forall (fun n => isElementNode n = true ->
                     find_by_node (registry := Sample.registry) strict n
                       xmlSecKeyDataUsageKeyInfoNodeRead = None)
                   (node_children node)).
  { repeat constructor; intros; vm_compute; reflexivity. }
  split.
  - exact (@keyinfo_read_unknown_children Sample.registry Sample.dataOps Sample.keysOps
             node Sample.emptyKey strict Hm Hall).
  - exact (@keyinfo_read_unknown_children Sample.registry Sample.dataOps Sample.keysOps
             node Sample.rsaKey strict Hm Hall).
Defined.

(** X4.  [xmlSecKeyInfoNodeWrite] on a template none of whose element
    children resolves to a handler returns the template and the context
    untouched; it fails exactly when [STOP_ON_UNKNOWN_CHILD] is set and the
    template has an element child, and succeeds otherwise. *)
Theorem keyinfo_write_unknown_children
    {registry : KeyDataRegistry} {dataOps : KeyDataOps} :
  forall (keyInfoNode : xmlNode) (key : xmlSecKey) (ctx : xmlSecKeyInfoCtx),
    mode ctx = xmlSecKeyInfoModeWrite ->
    Forall (fun n => isElementNode n = true ->
                     find_by_node ctx n xmlSecKeyDataUsageKeyInfoNodeWrite = None)
           (node_children keyInfoNode) ->
    xmlSecKeyInfoNodeWrite keyInfoNode key ctx
    = (if flag_is_set (flags ctx) XMLSEC_KEYINFO_FLAGS_STOP_ON_UNKNOWN_CHILD
          && existsb isElementNode (node_children keyInfoNode)
       then -1 else 0, keyInfoNode, ctx).
Proof.
  intros keyInfoNode key ctx Hmode Hall.
  unfold xmlSecKeyInfoNodeWrite. rewrite Hmode. cbn [mode_eqb negb].
  rewrite (write_loop_unknown_children _ key ctx Hall), set_node_children_same.
  reflexivity.
Qed.

Lemma keyinfo_write_unknown_children_witness :
  let template :=
    Sample.keyInfo [XmlText "text"; XmlElement "Other" (Some "urn:example") [] []] in
  let strict := set_flags XMLSEC_KEYINFO_FLAGS_STOP_ON_UNKNOWN_CHILD Sample.writeCtx in
  xmlSecKeyInfoNodeWrite (registry := Sample.registry) (dataOps := Sample.dataOps)
    template Sample.rsaKey Sample.writeCtx = (0, template, Sample.writeCtx) /\
  xmlSecKeyInfoNodeWrite (registry := Sample.registry) (dataOps := Sample.dataOps)
    template Sample.rsaKey strict = (-1, template, strict).
Proof.
  intros template strict.
  assert (Hm : mode Sample.writeCtx = xmlSecKeyInfoModeWrite) by (vm_compute; reflexivity).
  assert (Hm' : mode strict = xmlSecKeyInfoModeWrite) by (vm_compute; reflexivity).
  assert (Hall : Forall (fun n => isElementNode n = true ->
                     find_by_node (registry := Sample.registry) Sample.writeCtx n
                       xmlSecKeyDataUsageKeyInfoNodeWrite = None)
                   (node_children template)).
  { repeat constructor; intros; vm_compute; reflexivity. }
  assert (Hall' : Forall (fun n => isElementNode n = true ->
                     find_by_node (registry := Sample.registry) strict n
                       xmlSecKeyDataUsageKeyInfoNodeWrite = None)
                   (node_children template)).
  { repeat constructor; intros; vm_compute; reflexivity. }
  split.
  - exact (@keyinfo_write_unknown_children Sample.registry Sample.dataOps
             template Sample.rsaKey Sample.writeCtx Hm Hall).
  - exact (@keyinfo_write_unknown_children Sample.registry Sample.dataOps
             template Sample.rsaKey strict Hm' Hall').
Defined.

(* ================================================================== *)
(** ** Further properties: the KeyInfo context *)
(* ================================================================== *)

Section CopyPrefs.

Context {transforms : TransformEngine} {listOps : PtrListOps} {enc : EncEngine}.

(** What a preference copy that does not fail leaves in the destination. *)
Lemma copy_user_pref_settings dst src r dst' :
  xmlSecKeyInfoCtxCopyUserPref dst src = (r, dst') ->
  (r <? 0) = false ->
  same_user_settings dst' src.
Proof.
  unfold xmlSecKeyInfoCtxCopyUserPref, same_user_settings. cbv zeta.
  destruct (xmlSecPtrListCopy _ _) as [r1 l].
  destruct (r1 <? 0); [intros H; injection H as <- <-; discriminate|].
  destruct (xmlSecTransformCtxCopyUserPref _ _) as [r2 t2].
  destruct (r2 <? 0); [intros H; injection H as <- <-; discriminate|]. ctx_simpl.
  destruct (xmlSecTransformCtxCopyUserPref _ _) as [r3 t3].
  destruct (r3 <? 0); [intros H; injection H as <- <-; discriminate|]. ctx_simpl.
  destruct (encCtx src) as [srcEnc|], (encCtx dst) as [dstEnc|];
    try destruct (xmlSecEncCtxCopyUserPref _ _) as [r4 e4];
    cbv beta iota;
    try (destruct (r4 <? 0); [intros H; injection H as <- <-; discriminate|]);
    cbn [Z.ltb Z.compare];
    intros H; injection H as <- <-; intros _; ctx_simpl; repeat split.
Qed.

End CopyPrefs.

(** X5.  A context obtained from [xmlSecKeyInfoCtxCreate] is one that
    [xmlSecKeyInfoCtxInitialize] returned with status 0, and it holds the
    defaults: the keys manager given, read mode, no flags, an encryption
    context not yet created, no operation, the default base64 line size,
    the three nesting bounds at 1 with their counters at 0, and a
    certificate verification depth of 9. *)
Theorem keyinfo_ctx_create_defaults
    {keysOps : KeysOps} {xmlOps : XmlTreeOps} {transforms : TransformEngine}
    {listOps : PtrListOps} :
  forall (mngr : option xmlSecKeysMngr) (ctx : xmlSecKeyInfoCtx),
    xmlSecKeyInfoCtxCreate mngr = Some ctx ->
    xmlSecKeyInfoCtxInitialize mngr = (0, ctx) /\
    keysMngr ctx = mngr /\
    mode ctx = xmlSecKeyInfoModeRead /\
    flags ctx = 0 /\ flags2 ctx = 0 /\ userData ctx = 0 /\
    base64LineSize ctx = xmlSecBase64GetDefaultLineSize /\
    maxRetrievalMethodLevel ctx = 1 /\ curRetrievalMethodLevel ctx = 0 /\
    maxKeyInfoReferenceLevel ctx = 1 /\ curKeyInfoReferenceLevel ctx = 0 /\
    maxEncryptedKeyLevel ctx = 1 /\ curEncryptedKeyLevel ctx = 0 /\
    certsVerificationDepth ctx = 9 /\ certsVerificationTime ctx = 0 /\
    operation ctx = xmlSecTransformOperationNone /\
    encCtx ctx = None.
Proof.
  intros mngr ctx.
  unfold xmlSecKeyInfoCtxCreate, xmlSecKeyInfoCtxInitialize.
  destruct xmlSecPtrListInitialize as [r1 l].
  destruct xmlSecTransformCtxInitialize as [r2 t].
  destruct xmlSecKeyReqInitialize as [r3 q].
  destruct (r1 <? 0) eqn:E1; cbn [Z.ltb Z.compare]; [discriminate|].
  destruct (r2 <? 0) eqn:E2; cbn [Z.ltb Z.compare]; [discriminate|].
  destruct (r3 <? 0) eqn:E3; cbn [Z.ltb Z.compare]; [discriminate|].
  intros H. injection H as <-. repeat split.
Qed.

Lemma keyinfo_ctx_create_defaults_witness :
  maxRetrievalMethodLevel Sample.readCtx = 1 /\
  maxKeyInfoReferenceLevel Sample.readCtx = 1 /\
  maxEncryptedKeyLevel Sample.readCtx = 1 /\
  certsVerificationDepth Sample.readCtx = 9 /\
  mode Sample.readCtx = xmlSecKeyInfoModeRead.
Proof.
  assert (H : xmlSecKeyInfoCtxCreate (keysOps := Sample.keysOps) (xmlOps := Sample.xmlOps)
                (transforms := Sample.transforms) (listOps := Sample.listOps) None
              = Some Sample.readCtx) by (vm_compute; reflexivity).
  pose proof (@keyinfo_ctx_create_defaults Sample.keysOps Sample.xmlOps Sample.transforms
                Sample.listOps None Sample.readCtx H)
    as (_ & _ & Hm & _ & _ & _ & _ & H1 & _ & H2 & _ & H3 & _ & H4 & _).
  repeat split; assumption.
Defined.

(** X6.  [xmlSecKeyInfoCtxReset] changes no user setting (user data, flags,
    keys manager, mode, allow-list, base64 line size, the three nesting
    bounds, the certificate verification settings); it sets the three
    nesting counters to 0 and the operation to none, and resets the two
    transform contexts, the key requirement and, when there is one, the
    encryption context, which it neither creates nor drops. *)
Theorem keyinfo_ctx_reset_keeps_user_settings
    {keysOps : KeysOps} {transforms : TransformEngine} {enc : EncEngine} :
  forall (ctx : xmlSecKeyInfoCtx),
    let ctx' := xmlSecKeyInfoCtxReset ctx in
    (userData ctx' = userData ctx /\ flags ctx' = flags ctx /\ flags2 ctx' = flags2 ctx /\
     keysMngr ctx' = keysMngr ctx /\ mode ctx' = mode ctx /\
     enabledKeyData ctx' = enabledKeyData ctx /\
     base64LineSize ctx' = base64LineSize ctx /\
     maxRetrievalMethodLevel ctx' = maxRetrievalMethodLevel ctx /\
     maxKeyInfoReferenceLevel ctx' = maxKeyInfoReferenceLevel ctx /\
     maxEncryptedKeyLevel ctx' = maxEncryptedKeyLevel ctx /\
     certsVerificationTime ctx' = certsVerificationTime ctx /\
     certsVerificationDepth ctx' = certsVerificationDepth ctx) /\
    (curRetrievalMethodLevel ctx' = 0 /\ curKeyInfoReferenceLevel ctx' = 0 /\
     curEncryptedKeyLevel ctx' = 0 /\ operation ctx' = xmlSecTransformOperationNone) /\
    (retrievalMethodCtx ctx' = xmlSecTransformCtxReset (retrievalMethodCtx ctx) /\
     keyInfoReferenceCtx ctx' = xmlSecTransformCtxReset (keyInfoReferenceCtx ctx) /\
     keyReq ctx' = xmlSecKeyReqReset (keyReq ctx) /\
     encCtx ctx' = option_map xmlSecEncCtxReset (encCtx ctx)).
Proof.
  intros ctx ctx'. subst ctx'. unfold xmlSecKeyInfoCtxReset. cbv zeta.
  destruct ctx as [ud fl fl2 km md ekd b64 rmc mrl kirc mkl [e|] mel cvt cvd op crl ckl cel kr];
    ctx_simpl; repeat split.
Qed.

(** X7.  [xmlSecKeyInfoCtxCreateEncCtx] is all or nothing.  It returns -1
    with the context exactly as it was (in particular when the context
    already has an encryption context), or it returns 0 and the context
    differs from the one on entry in the encryption context only, which was
    absent and is now one in EncryptedKey mode whose two nested KeyInfo
    contexts carry the operation of the outer context.  A second call on
    the result fails and changes nothing. *)
Theorem create_enc_ctx_all_or_nothing
    {transforms : TransformEngine} {listOps : PtrListOps} {enc : EncEngine} :
  forall (ctx : xmlSecKeyInfoCtx),
    let ret := fst (xmlSecKeyInfoCtxCreateEncCtx ctx) in
    let ctx' := snd (xmlSecKeyInfoCtxCreateEncCtx ctx) in
    (ret = -1 /\ ctx' = ctx) \/
    (ret = 0 /\ encCtx ctx = None /\
     (exists e, ctx' = set_encCtx (Some e) ctx /\
                encMode e = xmlEncCtxModeEncryptedKey /\
                operation (keyInfoReadCtx e) = operation ctx /\
                operation (keyInfoWriteCtx e) = operation ctx) /\
     xmlSecKeyInfoCtxCreateEncCtx ctx' = (-1, ctx')).
Proof.
  intros ctx ret ctx'. subst ret ctx'.
  destruct (xmlSecKeyInfoCtxCreateEncCtx ctx) as [ret ctx'] eqn:E. cbn [fst snd].
  unfold xmlSecKeyInfoCtxCreateEncCtx in E.
  destruct (encCtx ctx) as [e0|] eqn:He0;
    [injection E as <- <-; left; split; reflexivity|].
  destruct (xmlSecEncCtxCreate (keysMngr ctx)) as [tmp|];
    [|injection E as <- <-; left; split; reflexivity].
  cbv zeta in E.
  destruct (mode ctx);
    destruct (xmlSecKeyInfoCtxCopyUserPref _ ctx) as [r c];
    (destruct (r <? 0); injection E as <- <-; [left; split; reflexivity|]);
    right; (split; [reflexivity|]); (split; [reflexivity|]); split;
    try (eexists; split; [reflexivity|]; ctx_simpl; repeat split);
    unfold xmlSecKeyInfoCtxCreateEncCtx; ctx_simpl; reflexivity.
Qed.

Lemma initEncCtxAndCopyPrefs_success
    {transforms : TransformEngine} {listOps : PtrListOps} {enc : EncEngine}
    (ctx ctx1 : xmlSecKeyInfoCtx) :
  initEncCtxAndCopyPrefs ctx = (0, ctx1) ->
  exists e,
    ctx1 = set_encCtx (Some e) ctx /\
    same_user_settings (keyInfoReadCtx e) ctx /\
    same_user_settings (keyInfoWriteCtx e) ctx.
Proof.
  unfold initEncCtxAndCopyPrefs.
  destruct (encCtx ctx) as [e0|] eqn:He0.
  - cbv beta iota. cbn [Z.ltb Z.compare]. ctx_simpl.
    destruct (xmlSecKeyInfoCtxCopyUserPref (keyInfoReadCtx _) _) as [r1 c1] eqn:E1.
    destruct (r1 <? 0) eqn:L1; [discriminate|].
    destruct (xmlSecKeyInfoCtxCopyUserPref (keyInfoWriteCtx _) _) as [r2 c2] eqn:E2.
    destruct (r2 <? 0) eqn:L2; [discriminate|].
    intros H. injection H as <-.
    pose proof (copy_user_pref_settings _ _ _ _ E1 L1) as S1.
    pose proof (copy_user_pref_settings _ _ _ _ E2 L2) as S2.
    eexists. split; [destruct ctx; reflexivity|].
    unfold same_user_settings in *. ctx_simpl. split; assumption.
  - destruct (createEncCtx_shape ctx) as [e1 H1].
    destruct (xmlSecKeyInfoCtxCreateEncCtx ctx) as [ret c].
    cbn [snd] in H1. subst c.
    destruct (ret <? 0); [discriminate|]. ctx_simpl.
    destruct e1 as [e1|]; [|discriminate].
    destruct (xmlSecKeyInfoCtxCopyUserPref (keyInfoReadCtx _) _) as [r1 c1] eqn:E1.
    destruct (r1 <? 0) eqn:L1; [discriminate|].
    destruct (xmlSecKeyInfoCtxCopyUserPref (keyInfoWriteCtx _) _) as [r2 c2] eqn:E2.
    destruct (r2 <? 0) eqn:L2; [discriminate|].
    intros H. injection H as <-.
    pose proof (copy_user_pref_settings _ _ _ _ E1 L1) as S1.
    pose proof (copy_user_pref_settings _ _ _ _ E2 L2) as S2.
    eexists. split; [destruct ctx; reflexivity|].
    unfold same_user_settings in *. ctx_simpl. split; assumption.
Qed.

(** X8.  When the statements "init Enc context" and "copy prefs" that open
    the EncryptedKey, DerivedKey and AgreementMethod handlers succeed, the
    outer context has changed in its encryption context only, and both
    KeyInfo contexts nested in that encryption context, the read one and
    the write one, carry the user settings of the outer context: user data,
    flags, keys manager, base64 line size, the three nesting bounds and the
    certificate verification settings. *)
Theorem enc_ctx_inherits_user_settings
    {transforms : TransformEngine} {listOps : PtrListOps} {enc : EncEngine} :
  forall (ctx ctx1 : xmlSecKeyInfoCtx),
    initEncCtxAndCopyPrefs ctx = (0, ctx1) ->
    exists e,
      ctx1 = set_encCtx (Some e) ctx /\
      same_user_settings (keyInfoReadCtx e) ctx /\
      same_user_settings (keyInfoWriteCtx e) ctx.
Proof. intros ctx ctx1. apply initEncCtxAndCopyPrefs_success. Qed.

Lemma enc_ctx_inherits_user_settings_witness :
  let ctx :=
    set_flags XMLSEC_KEYINFO_FLAGS_ENCKEY_DONT_STOP_ON_FAILED_DECRYPTION
      (set_maxRetrievalMethodLevel 3 Sample.readCtx) in
  exists e,
    snd (initEncCtxAndCopyPrefs (transforms := Sample.transforms)
           (listOps := Sample.listOps) (enc := Sample.enc) ctx)
    = set_encCtx (Some e) ctx /\
    same_user_settings (keyInfoReadCtx e) ctx /\
    same_user_settings (keyInfoWriteCtx e) ctx.
Proof.
  intros ctx.
  assert (H : initEncCtxAndCopyPrefs (transforms := Sample.transforms)
                (listOps := Sample.listOps) (enc := Sample.enc) ctx
              = (0, snd (initEncCtxAndCopyPrefs (transforms := Sample.transforms)
                           (listOps := Sample.listOps) (enc := Sample.enc) ctx)))
    by (vm_compute; reflexivity).
  exact (@enc_ctx_inherits_user_settings Sample.transforms Sample.listOps Sample.enc
           ctx _ H).
Defined.

(** X9.  [xmlSecKeyInfoCtxDebugXmlDump] does not print the RetrievalMethod
    and KeyInfoReference levels: whatever the current and the maximum level
    of the two are, the text printed is the same (the elements
    RetrievalMethodLevel and KeyInfoReferenceLevel are filled with the
    EncryptedKey counters). *)
Theorem debug_xml_dump_omits_retrieval_and_reference_levels {debugOps : DebugDumpOps} :
  forall (ctx : xmlSecKeyInfoCtx) (output : string) (curRM maxRM curKIR maxKIR : Z),
    xmlSecKeyInfoCtxDebugXmlDump
      (set_curRetrievalMethodLevel curRM
         (set_maxRetrievalMethodLevel maxRM
            (set_curKeyInfoReferenceLevel curKIR
               (set_maxKeyInfoReferenceLevel maxKIR ctx)))) output
    = xmlSecKeyInfoCtxDebugXmlDump ctx output.
Proof.
  intros ctx output curRM maxRM curKIR maxKIR.
  destruct ctx. reflexivity.
Qed.

(* ================================================================== *)
(** ** Further properties: <dsig:KeyName/> and <dsig:KeyValue/> *)
(* ================================================================== *)

(** X10.  Writing and reading a key name round-trip.  When the key has a
    name, the template node is empty and the XML helpers are such that the
    trimmed content of the node written is that name again,
    [xmlSecKeyDataNameXmlWrite] succeeds, and [xmlSecKeyDataNameXmlRead] on
    the node it wrote gives a key without name that name, provided the
    reading side does not go to a keys manager (the key read into has a
    value, or the read context has no manager).  Neither call changes its
    context, and the value of the key read into is kept. *)
Theorem keyname_write_then_read_round_trip {keysOps : KeysOps} {xmlOps : XmlTreeOps} :
  forall (key fresh : xmlSecKey) (name : string) (node : xmlNode)
         (writeCtx readCtx : xmlSecKeyInfoCtx),
    mode writeCtx = xmlSecKeyInfoModeWrite ->
    mode readCtx = xmlSecKeyInfoModeRead ->
    xmlSecKeyGetName key = Some name ->
    xmlSecIsEmptyNode node <> 0 ->
    0 <= fst (xmlSecNodeEncodeAndSetContent node (Some name)) ->
    xmlSecGetNodeContentAndTrim (snd (xmlSecNodeEncodeAndSetContent node (Some name)))
    = Some name ->
    xmlSecKeyGetName fresh = None ->
    xmlSecKeyGetValue fresh <> None \/ keysMngr readCtx = None ->
    let w := xmlSecKeyDataNameXmlWrite xmlSecKeyDataNameId key node writeCtx in
    let r := xmlSecKeyDataNameXmlRead xmlSecKeyDataNameId fresh (node_of w) readCtx in
    status_of w = 0 /\ ctx_of w = writeCtx /\
    status_of r = 0 /\ ctx_of r = readCtx /\
    xmlSecKeyGetName (key_of r) = Some name /\
    xmlSecKeyGetValue (key_of r) = xmlSecKeyGetValue fresh.
Proof.
  intros key fresh name node writeCtx readCtx Hw Hr Hname Hempty Henc Htrim Hfresh Hmngr w r.
  subst w r.
  unfold xmlSecKeyDataNameXmlWrite.
  change (id_eqb xmlSecKeyDataNameId xmlSecKeyDataNameId) with true.
  rewrite Hw, Hname. cbn [negb mode_eqb].
  destruct (xmlSecIsEmptyNode node =? 0) eqn:E; [apply Z.eqb_eq in E; contradiction|].
  destruct (xmlSecNodeEncodeAndSetContent node (Some name)) as [ret node'].
  cbn [fst snd] in Henc, Htrim.
  destruct (ret <? 0) eqn:L; [apply Z.ltb_lt in L; lia|].
  unfold node_of, status_of, ctx_of. cbn [fst snd].
  unfold xmlSecKeyDataNameXmlRead.
  change (id_eqb xmlSecKeyDataNameId xmlSecKeyDataNameId) with true.
  rewrite Hr, Htrim. cbn [negb mode_eqb].
  unfold xmlSecKeyGetName, xmlSecKeyGetValue in *.
  destruct fresh as [fname fvalue flist]. cbn [key_name key_value] in *. subst fname.
  destruct fvalue as [v|], (keysMngr readCtx) as [m|];
    try (destruct Hmngr as [Hv|Hm]; [contradiction Hv; reflexivity | discriminate Hm]);
    unfold xmlSecKeySetName, key_of; cbn; repeat split.
Qed.

Lemma keyname_write_then_read_round_trip_witness :
  let named :=
    {| key_name := Some "alice"; key_value := None; key_dataList := [] |} in
  let template := Sample.dsElement "KeyName" [] [] in
  let w := xmlSecKeyDataNameXmlWrite (xmlOps := Sample.xmlOps)
             xmlSecKeyDataNameId named template Sample.writeCtx in
  let r := xmlSecKeyDataNameXmlRead (keysOps := Sample.keysOps) (xmlOps := Sample.xmlOps)
             xmlSecKeyDataNameId Sample.emptyKey (node_of w) Sample.readCtx in
  status_of w = 0 /\ status_of r = 0 /\ xmlSecKeyGetName (key_of r) = Some "alice".
Proof.
  intros named template w r.
  assert (Hw : mode Sample.writeCtx = xmlSecKeyInfoModeWrite) by (vm_compute; reflexivity).
  assert (Hr : mode Sample.readCtx = xmlSecKeyInfoModeRead) by (vm_compute; reflexivity).
  assert (Hn : xmlSecKeyGetName named = Some "alice") by reflexivity.
  assert (He : xmlSecIsEmptyNode (XmlTreeOps := Sample.xmlOps) template <> 0)
    by (vm_compute; discriminate).
  assert (Hs : 0 <= fst (xmlSecNodeEncodeAndSetContent (XmlTreeOps := Sample.xmlOps)
                           template (Some "alice")))
    by (vm_compute; discriminate).
  assert (Ht : xmlSecGetNodeContentAndTrim (XmlTreeOps := Sample.xmlOps)
                 (snd (xmlSecNodeEncodeAndSetContent (XmlTreeOps := Sample.xmlOps)
                         template (Some "alice"))) = Some "alice")
    by (vm_compute; reflexivity).
  assert (Hf : xmlSecKeyGetName Sample.emptyKey = None) by reflexivity.
  assert (Hm : xmlSecKeyGetValue Sample.emptyKey <> None \/ keysMngr Sample.readCtx = None)
    by (right; vm_compute; reflexivity).
  pose proof (@keyname_write_then_read_round_trip Sample.keysOps Sample.xmlOps
                named Sample.emptyKey "alice" template Sample.writeCtx Sample.readCtx
                Hw Hr Hn He Hs Ht Hf Hm) as (H1 & _ & H2 & _ & H3 & _).
  repeat split; assumption.
Defined.

(** X11.  [xmlSecKeyDataNameXmlWrite] never changes the context, whatever
    it is called with, and it changes the node in one case only: the key
    has a name and the node is empty; the node returned is then what
    [xmlSecNodeEncodeAndSetContent] made of it for that name.  A node that
    has content is never overwritten. *)
Theorem keyname_write_leaves_context_and_filled_node
    {xmlOps : XmlTreeOps} :
  forall (id : xmlSecKeyDataId) (key : xmlSecKey) (node : xmlNode)
         (ctx : xmlSecKeyInfoCtx),
    let w := xmlSecKeyDataNameXmlWrite id key node ctx in
    ctx_of w = ctx /\
    (node_of w = node \/
     exists name,
       xmlSecKeyGetName key = Some name /\ xmlSecIsEmptyNode node <> 0 /\
       node_of w = snd (xmlSecNodeEncodeAndSetContent node (Some name))).
Proof.
  intros id key node ctx w. subst w.
  unfold xmlSecKeyDataNameXmlWrite, ctx_of, node_of.
  destruct (negb (id_eqb id xmlSecKeyDataNameId)); [split; [|left]; reflexivity|].
  destruct (negb (mode_eqb (mode ctx) xmlSecKeyInfoModeWrite)); [split; [|left]; reflexivity|].
  destruct (xmlSecKeyGetName key) as [name|]; [|split; [|left]; reflexivity].
  destruct (xmlSecIsEmptyNode node =? 0) eqn:E; [split; [|left]; reflexivity|].
  apply Z.eqb_neq in E.
  destruct (xmlSecNodeEncodeAndSetContent node (Some name)) as [ret node'] eqn:Enc.
  destruct (ret <? 0); cbn [fst snd]; (split; [reflexivity|]);
    right; exists name; rewrite Enc;
    (split; [reflexivity | split; [exact E | reflexivity]]).
Qed.

(** X12.  [xmlSecKeyDataValueXmlWrite] writes nothing, returning 0 with the
    node and the context untouched and no handler called, when the value of
    the key is not valid, or its klass lacks the KeyValueNodeWrite usage, or
    the allow-list of the context is non-empty and does not contain the
    KeyValue klass itself (the klass of the value is not looked up in the
    list), or the key does not satisfy the key requirement of the
    context. *)
Theorem keyvalue_write_skips_unwritable_key
    {dataOps : KeyDataOps} {keysOps : KeysOps} {xmlBuild : XmlBuildOps} :
  forall (key : xmlSecKey) (node : xmlNode) (ctx : xmlSecKeyInfoCtx),
    mode ctx = xmlSecKeyInfoModeWrite ->
    xmlSecKeyDataIsValid (key_value key) = false
    \/ xmlSecKeyDataCheckUsage (key_value key) xmlSecKeyDataUsageKeyValueNodeWrite = false
    \/ (enabledKeyData ctx <> []
        /\ xmlSecKeyDataIdListFind (enabledKeyData ctx) xmlSecKeyDataValueId <> 1)
    \/ xmlSecKeyReqMatchKey (keyReq ctx) key <> 1 ->
    xmlSecKeyDataValueXmlWrite xmlSecKeyDataValueId key node ctx = (0, node, ctx).
Proof.
  intros key node ctx Hmode Hskip.
  unfold xmlSecKeyDataValueXmlWrite.
  change (id_eqb xmlSecKeyDataValueId xmlSecKeyDataValueId) with true.
  rewrite Hmode. cbn [negb mode_eqb].
  destruct (negb (xmlSecKeyDataIsValid (key_value key))
            || negb (xmlSecKeyDataCheckUsage (key_value key)
                       xmlSecKeyDataUsageKeyValueNodeWrite)) eqn:E1; [reflexivity|].
  apply orb_false_iff in E1. destruct E1 as [Ev Eu].
  apply negb_false_iff in Ev, Eu.
  destruct Hskip as [H | [H | [[Hne H] | H]]]; try congruence.
  - rewrite xmlSecPtrListGetSize_pos.
    destruct (enabledKeyData ctx) as [|k l] eqn:El; [contradiction|].
    destruct (xmlSecKeyDataIdListFind (k :: l) xmlSecKeyDataValueId =? 1) eqn:Ef;
      [apply Z.eqb_eq in Ef; contradiction|].
    reflexivity.
  - destruct (_ && _); [reflexivity|].
    destruct (xmlSecKeyReqMatchKey (keyReq ctx) key =? 1) eqn:Em;
      [apply Z.eqb_eq in Em; contradiction|].
    reflexivity.
Qed.

Lemma keyvalue_write_skips_unwritable_key_witness :
  let template := Sample.dsElement "KeyValue" [] [XmlText "template"] in
  let listed :=
    set_enabledKeyData [xmlSecKeyDataNameKlass; Sample.rsaKlass] Sample.writeCtx in
  xmlSecKeyDataValueXmlWrite (dataOps := Sample.dataOps) (keysOps := Sample.keysOps)
    (xmlBuild := Sample.xmlBuild) xmlSecKeyDataValueId Sample.emptyKey template
    Sample.writeCtx = (0, template, Sample.writeCtx) /\
  xmlSecKeyDataValueXmlWrite (dataOps := Sample.dataOps) (keysOps := Sample.keysOps)
    (xmlBuild := Sample.xmlBuild) xmlSecKeyDataValueId Sample.rsaKey template
    listed = (0, template, listed).
Proof.
  intros template listed.
  assert (Hm : mode Sample.writeCtx = xmlSecKeyInfoModeWrite) by (vm_compute; reflexivity).
  assert (Hm' : mode listed = xmlSecKeyInfoModeWrite) by (vm_compute; reflexivity).
  split.
  - apply (@keyvalue_write_skips_unwritable_key Sample.dataOps Sample.keysOps
             Sample.xmlBuild Sample.emptyKey template Sample.writeCtx Hm).
    left. reflexivity.
  - apply (@keyvalue_write_skips_unwritable_key Sample.dataOps Sample.keysOps
             Sample.xmlBuild Sample.rsaKey template listed Hm').
    right. right. left. split; [vm_compute; discriminate | vm_compute; discriminate].
Defined.

Lemma xmlNodeSetContent_set_node_children node children :
  xmlNodeSetContent (set_node_children node children) = xmlNodeSetContent node.
Proof. destruct node; reflexivity. Qed.

(** Case analysis on the tests of [xmlSecKeyDataValueXmlWrite] that come
    before the call of [xmlSecAddChild]. *)
Ltac step_until_add_child :=
  lazymatch goal with
  | |- ((snd (fst ?t) = _ /\ _) \/ _) =>
      lazymatch t with
      | match ?y with _ => _ end =>
          let z := head_scrutinee y in
          lazymatch z with
          | xmlSecAddChild _ _ _ => fail
          | _ => destruct z eqn:?; cbv beta iota
          end
      end
  end.

(** X13.  [xmlSecKeyDataValueXmlWrite] either returns the node and the
    context untouched, or it builds the content of the node anew: in the
    second case the outcome (status, node, context) is the same whatever
    children the node had before the call. *)
Theorem keyvalue_write_discards_previous_content
    {dataOps : KeyDataOps} {keysOps : KeysOps} {xmlBuild : XmlBuildOps} :
  forall (id : xmlSecKeyDataId) (key : xmlSecKey) (node : xmlNode)
         (ctx : xmlSecKeyInfoCtx) (children : list xmlNode),
    let w := xmlSecKeyDataValueXmlWrite id key node ctx in
    let w' := xmlSecKeyDataValueXmlWrite id key (set_node_children node children) ctx in
    (node_of w = node /\ ctx_of w = ctx /\
     w' = (status_of w, set_node_children node children, ctx))
    \/ w' = w.
Proof.
  intros id key node ctx children w w'. subst w w'.
  unfold xmlSecKeyDataValueXmlWrite, node_of, ctx_of, status_of.
  rewrite xmlNodeSetContent_set_node_children.
  repeat step_until_add_child.
  all: try (left; repeat split; reflexivity).
  all: right; reflexivity.
Qed.

(* ================================================================== *)
(** ** Further properties: <dsig:RetrievalMethod/> *)
(* ================================================================== *)

(** X14.  A RetrievalMethod node may have one element child at most, a
    <dsig:Transforms/>.  On a node with any other element child, or with an
    element after the Transforms child, [xmlSecKeyDataRetrievalMethodXmlRead]
    never runs the transform pipeline (its result is the same for every
    [xmlSecTransformCtxExecute]), leaves the key as it is, and fails when
    the Type attribute resolves to a handler. *)
Theorem retrieval_with_unexpected_child_fetches_nothing
    {registry : KeyDataRegistry} {dataOps : KeyDataOps} {xmlOps : XmlTreeOps}
    {transforms : TransformEngine} :
  forall (id : xmlSecKeyDataId) (key : xmlSecKey) (node : xmlNode)
         (ctx : xmlSecKeyInfoCtx),
    unexpected_retrieval_child node = true ->
    (forall execute,
        xmlSecKeyDataRetrievalMethodXmlRead (transforms := with_execute execute transforms)
          id key node ctx
        = xmlSecKeyDataRetrievalMethodXmlRead id key node ctx) /\
    key_of (xmlSecKeyDataRetrievalMethodXmlRead id key node ctx) = key /\
    (expected_retrieval_type ctx node <> xmlSecKeyDataIdUnknown ->
     status_of (xmlSecKeyDataRetrievalMethodXmlRead id key node ctx) = -1).
Proof.
  intros id key node ctx Hbad.
  unfold unexpected_retrieval_child in Hbad.
  unfold xmlSecKeyDataRetrievalMethodXmlRead, key_of, status_of.
  destruct (negb (id_eqb id xmlSecKeyDataRetrievalMethodId));
    [repeat split; reflexivity|].
  destruct (node_doc node) as [d|]; [|repeat split; reflexivity].
  destruct (negb (mode_eqb (mode ctx) xmlSecKeyInfoModeRead));
    [repeat split; reflexivity|].
  destruct (maxRetrievalMethodLevel ctx <=? curRetrievalMethodLevel ctx);
    [repeat split; reflexivity|].
  cbv zeta. ctx_simpl. rewrite site_expected_retrieval_type.
  destruct (expected_retrieval_type ctx node) as [klass|].
  2:{ destruct (flag_is_set _ _);
        (split; [intros; reflexivity | split; [reflexivity|]]);
        intros H; contradiction H; reflexivity. }
  cbn [with_execute xmlSecTransformCtxReset xmlSecTransformCtxSetUri
       xmlSecTransformCtxNodesListRead].
  destruct (xmlSecTransformCtxSetUri _ _ _) as [r1 t1]. ctx_simpl.
  destruct (r1 <? 0); [repeat split; reflexivity|].
  destruct (xmlSecGetNextElementNode (node_children node)) as [|c next];
    [discriminate|].
  destruct (xmlSecCheckNodeName c xmlSecNodeTransforms xmlSecDSigNs).
  - destruct (xmlSecTransformCtxNodesListRead t1 c xmlSecTransformUsageDSigTransform)
      as [r2 t2].
    destruct (r2 <? 0); [repeat split; reflexivity|].
    destruct (xmlSecGetNextElementNode next); [discriminate|].
    repeat split; reflexivity.
  - cbn [Z.ltb Z.compare]. repeat split; reflexivity.
Qed.

Lemma retrieval_with_unexpected_child_fetches_nothing_witness :
  let node :=
    Sample.dsElement "RetrievalMethod" [("URI", "#rsa"); ("Type", Sample.rsaType)]
      [Sample.dsElement "Transforms" [] []; Sample.dsElement "KeyName" [] [XmlText "x"]] in
  let r :=
    xmlSecKeyDataRetrievalMethodXmlRead (registry := Sample.registry)
      (dataOps := Sample.dataOps) (xmlOps := Sample.xmlOps)
      (transforms := Sample.transforms)
      xmlSecKeyDataRetrievalMethodId Sample.emptyKey node Sample.readCtx in
  key_of r = Sample.emptyKey /\ status_of r = -1.
Proof.
  intros node r.
  assert (Hbad : unexpected_retrieval_child node = true) by (vm_compute; reflexivity).
  assert (Htype : expected_retrieval_type (registry := Sample.registry)
                    Sample.readCtx node <> xmlSecKeyDataIdUnknown)
    by (vm_compute; discriminate).
  pose proof (@retrieval_with_unexpected_child_fetches_nothing Sample.registry
                Sample.dataOps Sample.xmlOps Sample.transforms
                xmlSecKeyDataRetrievalMethodId Sample.emptyKey node Sample.readCtx Hbad)
    as (_ & Hkey & Hstatus).
  split; [exact Hkey | exact (Hstatus Htype)].
Defined.

(** X15.  The octets a RetrievalMethod fetched go to one reader, chosen by
    the klass its Type attribute resolves to.  When that klass lacks the
    RetrievalMethodNodeXml usage the octets are never parsed as XML (the
    result of [xmlSecKeyDataRetrievalMethodXmlRead] is the same for every
    parser); when it has the usage, the handler does not hand them to
    [xmlSecKeyDataBinRead] (the result is the same for every binary
    reader). *)
Theorem retrieval_result_goes_to_one_reader
    {registry : KeyDataRegistry} {dataOps : KeyDataOps} {xmlOps : XmlTreeOps}
    {transforms : TransformEngine} :
  forall (id : xmlSecKeyDataId) (key : xmlSecKey) (node : xmlNode)
         (ctx : xmlSecKeyInfoCtx) (klass : xmlSecKeyDataKlass),
    expected_retrieval_type ctx node = Some klass ->
    (Z.land (klassUsage klass) xmlSecKeyDataUsageRetrievalMethodNodeXml = 0 ->
     forall parser,
       xmlSecKeyDataRetrievalMethodXmlRead (xmlOps := with_parser parser xmlOps)
         id key node ctx
       = xmlSecKeyDataRetrievalMethodXmlRead id key node ctx) /\
    (Z.land (klassUsage klass) xmlSecKeyDataUsageRetrievalMethodNodeXml <> 0 ->
     forall binRead,
       xmlSecKeyDataRetrievalMethodXmlRead (dataOps := with_bin_read binRead dataOps)
         id key node ctx
       = xmlSecKeyDataRetrievalMethodXmlRead id key node ctx).
Proof.
  intros id key node ctx klass Htype.
  unfold xmlSecKeyDataRetrievalMethodXmlRead.
  cbv zeta. ctx_simpl. rewrite site_expected_retrieval_type, Htype.
  cbn [id_eqb xmlSecKeyDataIdUnknown orb].
  split; intros Husage other.
  - apply Z.eqb_eq in Husage. rewrite Husage. cbn [negb with_parser node_doc].
    reflexivity.
  - apply Z.eqb_neq in Husage. rewrite Husage. cbn [negb].
    unfold xmlSecKeyDataRetrievalMethodReadXmlResult.
    cbn [with_bin_read xmlSecKeyDataXmlRead]. reflexivity.
Qed.

Lemma retrieval_result_goes_to_one_reader_witness :
  let read xmlOps dataOps type :=
    xmlSecKeyDataRetrievalMethodXmlRead (registry := Sample.registry)
      (dataOps := dataOps) (xmlOps := xmlOps) (transforms := Sample.transforms)
      xmlSecKeyDataRetrievalMethodId Sample.emptyKey
      (Sample.dsElement "RetrievalMethod" [("URI", "#raw"); ("Type", type)] [])
      Sample.readCtx in
  let aesType := "http://www.aleksey.com/xmlsec/2002#AESKeyValue" in
  read (with_parser (fun _ _ => None) Sample.xmlOps) Sample.dataOps aesType
  = read Sample.xmlOps Sample.dataOps aesType /\
  read Sample.xmlOps (with_bin_read (fun _ key _ _ ctx => (-1, key, ctx)) Sample.dataOps)
    Sample.rsaType
  = read Sample.xmlOps Sample.dataOps Sample.rsaType.
Proof.
  intros read aesType.
  assert (Haes : expected_retrieval_type (registry := Sample.registry) Sample.readCtx
                   (Sample.dsElement "RetrievalMethod"
                      [("URI", "#raw"); ("Type", aesType)] [])
                 = Some Sample.aesKlass) by (vm_compute; reflexivity).
  assert (Hrsa : expected_retrieval_type (registry := Sample.registry) Sample.readCtx
                   (Sample.dsElement "RetrievalMethod"
                      [("URI", "#raw"); ("Type", Sample.rsaType)] [])
                 = Some Sample.rsaKlass) by (vm_compute; reflexivity).
  assert (Hbin : Z.land (klassUsage Sample.aesKlass)
                   xmlSecKeyDataUsageRetrievalMethodNodeXml = 0)
    by (vm_compute; reflexivity).
  assert (Hxml : Z.land (klassUsage Sample.rsaKlass)
                   xmlSecKeyDataUsageRetrievalMethodNodeXml <> 0)
    by (vm_compute; discriminate).
  split.
  - exact (proj1 (@retrieval_result_goes_to_one_reader Sample.registry Sample.dataOps
                    Sample.xmlOps Sample.transforms xmlSecKeyDataRetrievalMethodId
                    Sample.emptyKey _ Sample.readCtx Sample.aesKlass Haes)
             Hbin (fun _ _ => None)).
  - exact (proj2 (@retrieval_result_goes_to_one_reader Sample.registry Sample.dataOps
                    Sample.xmlOps Sample.transforms xmlSecKeyDataRetrievalMethodId
                    Sample.emptyKey _ Sample.readCtx Sample.rsaKlass Hrsa)
             Hxml (fun _ key _ _ ctx => (-1, key, ctx))).
Defined.

(** X16.  With [RETRMETHOD_STOP_ON_MISMATCH_HREF] clear the type a
    RetrievalMethod declares is not checked against what was fetched:
    [xmlSecKeyDataRetrievalMethodReadXmlResult] gives the same result for
    every expected type, the unknown one included. *)
Theorem retrieval_type_is_advisory_for_xml_results
    {registry : KeyDataRegistry} {dataOps : KeyDataOps} {xmlOps : XmlTreeOps} :
  forall (typeId typeId' : xmlSecKeyDataId) (key : xmlSecKey)
         (buffer : option (list byte)) (bufferSize : Z) (ctx : xmlSecKeyInfoCtx),
    flag_is_set (flags ctx) XMLSEC_KEYINFO_FLAGS_RETRMETHOD_STOP_ON_MISMATCH_HREF = false ->
    xmlSecKeyDataRetrievalMethodReadXmlResult typeId key buffer bufferSize ctx
    = xmlSecKeyDataRetrievalMethodReadXmlResult typeId' key buffer bufferSize ctx.
Proof.
  intros typeId typeId' key buffer bufferSize ctx Hflag.
  unfold xmlSecKeyDataRetrievalMethodReadXmlResult.
  destruct buffer as [octets|]; [|reflexivity].
  destruct (negb (0 <? bufferSize)); [reflexivity|].
  destruct (negb (mode_eqb (mode ctx) xmlSecKeyInfoModeRead)); [reflexivity|].
  destruct (INT_MAX <? bufferSize); [reflexivity|].
  destruct (xmlRecoverMemory (Some octets) bufferSize) as [doc|]; [|reflexivity].
  destruct (xmlDocGetRootElement doc) as [root|]; [|reflexivity].
  cbv zeta.
  destruct (if 0 <? _ then _ else _) as [k|]; [|reflexivity].
  rewrite Hflag, !andb_false_r. reflexivity.
Qed.

Lemma retrieval_type_is_advisory_for_xml_results_witness :
  xmlSecKeyDataRetrievalMethodReadXmlResult (registry := Sample.registry)
    (dataOps := Sample.dataOps) (xmlOps := Sample.xmlOps)
    xmlSecKeyDataEncryptedKeyId Sample.emptyKey (Some [x02]) 1 Sample.readCtx
  = xmlSecKeyDataRetrievalMethodReadXmlResult (registry := Sample.registry)
      (dataOps := Sample.dataOps) (xmlOps := Sample.xmlOps)
      xmlSecKeyDataIdUnknown Sample.emptyKey (Some [x02]) 1 Sample.readCtx.
Proof.
  apply (@retrieval_type_is_advisory_for_xml_results Sample.registry Sample.dataOps
           Sample.xmlOps).
  vm_compute. reflexivity.
Defined.

(** X17.  With [RETRMETHOD_STOP_ON_MISMATCH_HREF] set, a fetched document
    whose root element resolves to a handler other than the one the Type
    attribute named is refused: [xmlSecKeyDataRetrievalMethodReadXmlResult]
    returns -1 with key and context untouched, and the handler of the root
    is not called. *)
Theorem retrieval_type_mismatch_is_refused_when_flagged
    {registry : KeyDataRegistry} {dataOps : KeyDataOps} {xmlOps : XmlTreeOps} :
  forall (typeKlass rootKlass : xmlSecKeyDataKlass) (key : xmlSecKey)
         (octets : list byte) (bufferSize : Z) (ctx : xmlSecKeyInfoCtx)
         (doc : xmlDoc) (root : xmlNode),
    mode ctx = xmlSecKeyInfoModeRead ->
    0 < bufferSize <= INT_MAX ->
    xmlRecoverMemory (Some octets) bufferSize = Some doc ->
    xmlDocGetRootElement doc = Some root ->
    find_by_node ctx root xmlSecKeyDataUsageRetrievalMethodNodeXml = Some rootKlass ->
    id_eqb (Some typeKlass) (Some rootKlass) = false ->
    flag_is_set (flags ctx) XMLSEC_KEYINFO_FLAGS_RETRMETHOD_STOP_ON_MISMATCH_HREF = true ->
    xmlSecKeyDataRetrievalMethodReadXmlResult (Some typeKlass) key (Some octets)
      bufferSize ctx
    = (-1, key, ctx).
Proof.
  intros typeKlass rootKlass key octets bufferSize ctx doc root
         Hmode [Hpos Hmax] Hparse Hroot Hfind Hdiff Hflag.
  unfold xmlSecKeyDataRetrievalMethodReadXmlResult.
  replace (0 <? bufferSize) with true by (symmetry; apply Z.ltb_lt; exact Hpos).
  replace (INT_MAX <? bufferSize) with false by (symmetry; apply Z.ltb_ge; exact Hmax).
  rewrite Hmode, Hparse, Hroot. cbn [negb mode_eqb]. cbv zeta.
  rewrite site_lookup_by_node, Hfind, Hdiff, Hflag. reflexivity.
Qed.

Lemma retrieval_type_mismatch_is_refused_when_flagged_witness :
  let strict :=
    set_flags XMLSEC_KEYINFO_FLAGS_RETRMETHOD_STOP_ON_MISMATCH_HREF Sample.readCtx in
  xmlSecKeyDataRetrievalMethodReadXmlResult (registry := Sample.registry)
    (dataOps := Sample.dataOps) (xmlOps := Sample.xmlOps)
    xmlSecKeyDataEncryptedKeyId Sample.emptyKey (Some [x02]) 1 strict
  = (-1, Sample.emptyKey, strict).
Proof.
  intros strict.
  apply (@retrieval_type_mismatch_is_refused_when_flagged Sample.registry Sample.dataOps
           Sample.xmlOps xmlSecKeyDataEncryptedKeyKlass Sample.rsaKlass Sample.emptyKey
           [x02] 1 strict Sample.docRsa
           (XmlElement "RSAKeyValue" (Some xmlSecDSigNs) [] [])).
  - vm_compute; reflexivity.
  - split; [reflexivity | discriminate].
  - reflexivity.
  - reflexivity.
  - vm_compute; reflexivity.
  - vm_compute; reflexivity.
  - vm_compute; reflexivity.
Defined.

(** X18.  A fetched document whose root element resolves to no handler is
    ignored: [xmlSecKeyDataRetrievalMethodReadXmlResult] returns 0 with key
    and context untouched, unless [KEYVALUE_STOP_ON_UNKNOWN_CHILD] is set,
    in which case it returns -1.  It is this flag of the KeyValue handler
    that decides; the RetrievalMethod flags and [STOP_ON_UNKNOWN_CHILD] play
    no part. *)
Theorem retrieval_unknown_root_is_ignored_unless_keyvalue_flag
    {registry : KeyDataRegistry} {dataOps : KeyDataOps} {xmlOps : XmlTreeOps} :
  forall (typeId : xmlSecKeyDataId) (key : xmlSecKey)
         (octets : list byte) (bufferSize : Z) (ctx : xmlSecKeyInfoCtx)
         (doc : xmlDoc) (root : xmlNode),
    mode ctx = xmlSecKeyInfoModeRead ->
    0 < bufferSize <= INT_MAX ->
    xmlRecoverMemory (Some octets) bufferSize = Some doc ->
    xmlDocGetRootElement doc = Some root ->
    find_by_node ctx root xmlSecKeyDataUsageRetrievalMethodNodeXml = None ->
    xmlSecKeyDataRetrievalMethodReadXmlResult typeId key (Some octets) bufferSize ctx
    = (if flag_is_set (flags ctx) XMLSEC_KEYINFO_FLAGS_KEYVALUE_STOP_ON_UNKNOWN_CHILD
       then -1 else 0, key, ctx).
Proof.
  intros typeId key octets bufferSize ctx doc root Hmode [Hpos Hmax] Hparse Hroot Hfind.
  unfold xmlSecKeyDataRetrievalMethodReadXmlResult.
  replace (0 <? bufferSize) with true by (symmetry; apply Z.ltb_lt; exact Hpos).
  replace (INT_MAX <? bufferSize) with false by (symmetry; apply Z.ltb_ge; exact Hmax).
  rewrite Hmode, Hparse, Hroot. cbn [negb mode_eqb]. cbv zeta.
  rewrite site_lookup_by_node, Hfind.
  destruct (flag_is_set _ _); reflexivity.
Qed.

Lemma retrieval_unknown_root_is_ignored_unless_keyvalue_flag_witness :
  let retrStrict :=
    set_flags (Z.lor XMLSEC_KEYINFO_FLAGS_RETRMETHOD_STOP_ON_UNKNOWN_HREF
                     XMLSEC_KEYINFO_FLAGS_STOP_ON_UNKNOWN_CHILD) Sample.readCtx in
  let keyValueStrict :=
    set_flags XMLSEC_KEYINFO_FLAGS_KEYVALUE_STOP_ON_UNKNOWN_CHILD Sample.readCtx in
  let read ctx :=
    xmlSecKeyDataRetrievalMethodReadXmlResult (registry := Sample.registry)
      (dataOps := Sample.dataOps) (xmlOps := Sample.xmlOps)
      xmlSecKeyDataIdUnknown Sample.emptyKey (Some [x05]) 1 ctx in
  read retrStrict = (0, Sample.emptyKey, retrStrict) /\
  read keyValueStrict = (-1, Sample.emptyKey, keyValueStrict).
Proof.
  intros retrStrict keyValueStrict read.
  split.
  - apply (@retrieval_unknown_root_is_ignored_unless_keyvalue_flag Sample.registry
             Sample.dataOps Sample.xmlOps None Sample.emptyKey [x05] 1 retrStrict
             Sample.docUnknown (XmlElement "Other" (Some "urn:example") [] [])).
    + vm_compute; reflexivity.
    + split; [reflexivity | discriminate].
    + reflexivity.
    + reflexivity.
    + vm_compute; reflexivity.
  - apply (@retrieval_unknown_root_is_ignored_unless_keyvalue_flag Sample.registry
             Sample.dataOps Sample.xmlOps None Sample.emptyKey [x05] 1 keyValueStrict
             Sample.docUnknown (XmlElement "Other" (Some "urn:example") [] [])).
    + vm_compute; reflexivity.
    + split; [reflexivity | discriminate].
    + reflexivity.
    + reflexivity.
    + vm_compute; reflexivity.
Defined.

(** X19.  A chain of RetrievalMethod elements is cut at the bound.  When a
    RetrievalMethod that is processed at the last level the context allows
    (its counter is one below the bound on entry) fetches a document whose
    root element is again a RetrievalMethod, the handler that runs under
    the klass tables of keyinfo.c fails: the inner RetrievalMethod is
    dispatched with the counter raised and is refused on entry.  The key is
    left as it was. *)
Theorem retrieval_chain_is_cut_at_the_bound
    {registry : KeyDataRegistry} {keysOps : KeysOps} {xmlOps : XmlTreeOps}
    {transforms : TransformEngine} {listOps : PtrListOps} {enc : EncEngine}
    {binWrite : KeyDataBinWriteOps} {xmlBuild : XmlBuildOps}
    {encWrite : EncWriteEngine} (ext : KeyDataOps) :
  forall (depth : nat) (key : xmlSecKey) (node : xmlNode) (ctx : xmlSecKeyInfoCtx)
         (d : xmlDoc) (klass : xmlSecKeyDataKlass)
         (r1 r2 : Z) (t1 t2 : xmlSecTransformCtx) (result : xmlSecBuffer)
         (doc : xmlDoc) (root : xmlNode),
    node_doc node = Some d ->
    mode ctx = xmlSecKeyInfoModeRead ->
    curRetrievalMethodLevel ctx < maxRetrievalMethodLevel ctx ->
    maxRetrievalMethodLevel ctx <= curRetrievalMethodLevel ctx + 1 ->
    expected_retrieval_type ctx node = Some klass ->
    Z.land (klassUsage klass) xmlSecKeyDataUsageRetrievalMethodNodeXml <> 0 ->
    xmlSecTransformCtxSetUri (xmlSecTransformCtxReset (retrievalMethodCtx ctx))
      (xmlGetProp node xmlSecAttrURI) node = (r1, t1) ->
    0 <= r1 ->
    xmlSecGetNextElementNode (node_children node) = [] ->
    xmlSecTransformCtxExecute t1 (Some d) = (r2, t2) ->
    0 <= r2 ->
    tr_result t2 = Some result ->
    xmlRecoverMemory (xmlSecBufferGetData result) (xmlSecBufferGetSize result)
    = Some doc ->
    xmlDocGetRootElement doc = Some root ->
    find_by_node ctx root xmlSecKeyDataUsageRetrievalMethodNodeXml
    = xmlSecKeyDataRetrievalMethodId ->
    let r :=
      xmlSecKeyDataRetrievalMethodXmlRead (dataOps := keyinfoDataOps ext (S depth))
        xmlSecKeyDataRetrievalMethodId key node ctx in
    status_of r = -1 /\ key_of r = key.
Proof.
  intros depth key node ctx d klass r1 r2 t1 t2 result doc root
         Hdoc Hmode Hlevel Hbound Htype Hxml Huri Hr1 Hchildren Hexec Hr2 Hresult
         Hparse Hroot Hfind r.
  subst r. unfold xmlSecKeyDataRetrievalMethodXmlRead at 1 2.
  change (id_eqb xmlSecKeyDataRetrievalMethodId xmlSecKeyDataRetrievalMethodId) with true.
  rewrite Hdoc, Hmode. cbn [negb mode_eqb].
  replace (maxRetrievalMethodLevel ctx <=? curRetrievalMethodLevel ctx) with false
    by (symmetry; apply Z.leb_gt; exact Hlevel).
  cbv zeta. ctx_simpl. rewrite site_expected_retrieval_type, Htype.
  rewrite Huri. ctx_simpl.
  replace (r1 <? 0) with false by (symmetry; apply Z.ltb_ge; exact Hr1).
  rewrite Hchildren. cbn [Z.ltb Z.compare]. ctx_simpl.
  rewrite Hexec. ctx_simpl.
  replace (r2 <? 0) with false by (symmetry; apply Z.ltb_ge; exact Hr2).
  rewrite Hresult.
  destruct (xmlSecBufferGetData result) as [octets|] eqn:Hdata; [|split; reflexivity].
  cbn [id_eqb xmlSecKeyDataIdUnknown orb].
  apply Z.eqb_neq in Hxml. rewrite Hxml. cbn [negb].
  unfold xmlSecKeyDataRetrievalMethodReadXmlResult.
  destruct (negb (0 <? xmlSecBufferGetSize result)); [split; reflexivity|].
  ctx_simpl. rewrite Hmode. cbn [negb mode_eqb].
  destruct (INT_MAX <? xmlSecBufferGetSize result); [split; reflexivity|].
  rewrite Hparse, Hroot. cbv zeta.
  rewrite site_lookup_by_node, Hfind.
  unfold xmlSecKeyDataRetrievalMethodId at 1.
  destruct (_ && _ && _); [split; reflexivity|].
  cbn [keyinfoDataOps xmlSecKeyDataXmlRead].
  change (id_eqb xmlSecKeyDataRetrievalMethodId xmlSecKeyDataNameId) with false.
  change (id_eqb xmlSecKeyDataRetrievalMethodId xmlSecKeyDataValueId) with false.
  change (id_eqb xmlSecKeyDataRetrievalMethodId xmlSecKeyDataRetrievalMethodId) with true.
  cbv beta iota.
  rewrite retrieval_read_level_exceeded by (ctx_simpl; lia).
  split; reflexivity.
Qed.

Lemma retrieval_chain_is_cut_at_the_bound_witness :
  let node :=
    Sample.dsElement "RetrievalMethod" [("URI", "#chain"); ("Type", Sample.rsaType)] [] in
  let r :=
    xmlSecKeyDataRetrievalMethodXmlRead (registry := Sample.registry)
      (dataOps := Sample.dataOps) (xmlOps := Sample.xmlOps)
      (transforms := Sample.transforms)
      xmlSecKeyDataRetrievalMethodId Sample.emptyKey node Sample.readCtx in
  status_of r = -1 /\ key_of r = Sample.emptyKey.
Proof.
  intros node r.
  pose (t1 := {| tr_userPrefs := 0; tr_uri := Some "#chain"; tr_result := None |}).
  pose (t2 := {| tr_userPrefs := 0; tr_uri := Some "#chain"; tr_result := Some [x04] |}).
  assert (Hdoc : node_doc (XmlTreeOps := Sample.xmlOps) node
                 = Some {| doc_children := [node] |}) by reflexivity.
  assert (Hmode : mode Sample.readCtx = xmlSecKeyInfoModeRead)
    by (vm_compute; reflexivity).
  assert (Hlevel : curRetrievalMethodLevel Sample.readCtx
                   < maxRetrievalMethodLevel Sample.readCtx)
    by (vm_compute; reflexivity).
  assert (Hbound : maxRetrievalMethodLevel Sample.readCtx
                   <= curRetrievalMethodLevel Sample.readCtx + 1)
    by (vm_compute; discriminate).
  assert (Htype : expected_retrieval_type (registry := Sample.registry)
                    Sample.readCtx node = Some Sample.rsaKlass)
    by (vm_compute; reflexivity).
  assert (Hxml : Z.land (klassUsage Sample.rsaKlass)
                   xmlSecKeyDataUsageRetrievalMethodNodeXml <> 0)
    by (vm_compute; discriminate).
  assert (Huri : xmlSecTransformCtxSetUri (TransformEngine := Sample.transforms)
                   (xmlSecTransformCtxReset (TransformEngine := Sample.transforms)
                      (retrievalMethodCtx Sample.readCtx))
                   (xmlGetProp node xmlSecAttrURI) node = (0, t1))
    by (vm_compute; reflexivity).
  assert (Hr : 0 <= 0) by discriminate.
  assert (Hchildren : xmlSecGetNextElementNode (node_children node) = [])
    by reflexivity.
  assert (Hexec : xmlSecTransformCtxExecute (TransformEngine := Sample.transforms) t1
                    (Some {| doc_children := [node] |}) = (0, t2))
    by (vm_compute; reflexivity).
  assert (Hresult : tr_result t2 = Some [x04]) by reflexivity.
  assert (Hparse : xmlRecoverMemory (XmlTreeOps := Sample.xmlOps)
                     (xmlSecBufferGetData [x04]) (xmlSecBufferGetSize [x04])
                   = Some Sample.docChain) by reflexivity.
  assert (Hroot : xmlDocGetRootElement Sample.docChain
                  = Some (XmlElement "RetrievalMethod" (Some xmlSecDSigNs)
                            [("URI", "#rsa"); ("Type", Sample.rsaType)] []))
    by reflexivity.
  assert (Hfind : find_by_node (registry := Sample.registry) Sample.readCtx
                    (XmlElement "RetrievalMethod" (Some xmlSecDSigNs)
                       [("URI", "#rsa"); ("Type", Sample.rsaType)] [])
                    xmlSecKeyDataUsageRetrievalMethodNodeXml
                  = xmlSecKeyDataRetrievalMethodId)
    by (vm_compute; reflexivity).
  exact (@retrieval_chain_is_cut_at_the_bound Sample.registry Sample.keysOps
           Sample.xmlOps Sample.transforms Sample.listOps Sample.enc Sample.binWrite
           Sample.xmlBuild Sample.encWrite Sample.externalOps
           3%nat Sample.emptyKey node Sample.readCtx _ _ _ _ _ _ _ _ _
           Hdoc Hmode Hlevel Hbound Htype Hxml Huri Hr Hchildren Hexec Hr Hresult
           Hparse Hroot Hfind).
Defined.

(* ================================================================== *)
(** ** Further properties: <dsig11:KeyInfoReference/> *)
(* ================================================================== *)

(** X20.  A KeyInfoReference node must have a URI attribute and no element
    child.  Without the attribute, or with any element child,
    [xmlSecKeyDataKeyInfoReferenceXmlRead] fails, leaves the key as it is
    and never runs the transform pipeline (its result is the same for
    every [xmlSecTransformCtxExecute]). *)
Theorem keyinfo_reference_needs_uri_and_no_children
    {registry : KeyDataRegistry} {dataOps : KeyDataOps} {keysOps : KeysOps}
    {xmlOps : XmlTreeOps} {transforms : TransformEngine} :
  forall (id : xmlSecKeyDataId) (key : xmlSecKey) (node : xmlNode)
         (ctx : xmlSecKeyInfoCtx),
    xmlGetProp node xmlSecAttrURI = None
    \/ xmlSecGetNextElementNode (node_children node) <> [] ->
    status_of (xmlSecKeyDataKeyInfoReferenceXmlRead id key node ctx) = -1 /\
    key_of (xmlSecKeyDataKeyInfoReferenceXmlRead id key node ctx) = key /\
    forall execute,
      xmlSecKeyDataKeyInfoReferenceXmlRead (transforms := with_execute execute transforms)
        id key node ctx
      = xmlSecKeyDataKeyInfoReferenceXmlRead id key node ctx.
Proof.
  intros id key node ctx Hbad.
  unfold xmlSecKeyDataKeyInfoReferenceXmlRead, key_of, status_of.
  cbv zeta.
  destruct (negb (id_eqb id xmlSecKeyDataKeyInfoReferenceId));
    [split; [|split]; intros; reflexivity|].
  destruct (node_doc node) as [d|]; [|split; [|split]; intros; reflexivity].
  destruct (negb (mode_eqb (mode ctx) xmlSecKeyInfoModeRead));
    [split; [|split]; intros; reflexivity|].
  destruct (maxKeyInfoReferenceLevel ctx <=? curKeyInfoReferenceLevel ctx);
    [split; [|split]; intros; reflexivity|].
  destruct (xmlGetProp node xmlSecAttrURI) as [uri|];
    [|split; [|split]; intros; reflexivity].
  destruct Hbad as [Hbad|Hbad]; [discriminate|].
  ctx_simpl.
  cbn [with_execute xmlSecTransformCtxReset xmlSecTransformCtxSetUri].
  destruct (xmlSecTransformCtxSetUri _ _ _) as [r1 t1]. ctx_simpl.
  destruct (r1 <? 0); [split; [|split]; intros; reflexivity|].
  destruct (xmlSecGetNextElementNode (node_children node)); [contradiction|].
  split; [|split]; intros; reflexivity.
Qed.

Lemma keyinfo_reference_needs_uri_and_no_children_witness :
  let read node :=
    xmlSecKeyDataKeyInfoReferenceXmlRead (registry := Sample.registry)
      (dataOps := Sample.dataOps) (keysOps := Sample.keysOps) (xmlOps := Sample.xmlOps)
      (transforms := Sample.transforms)
      xmlSecKeyDataKeyInfoReferenceId Sample.emptyKey node Sample.readCtx in
  let noUri := XmlElement "KeyInfoReference" (Some xmlSecDSig11Ns) [] [] in
  let withChild :=
    XmlElement "KeyInfoReference" (Some xmlSecDSig11Ns) [("URI", "#keyinfo")]
      [Sample.dsElement "Transforms" [] []] in
  status_of (read noUri) = -1 /\ status_of (read withChild) = -1.
Proof.
  intros read noUri withChild.
  split.
  - apply (@keyinfo_reference_needs_uri_and_no_children Sample.registry Sample.dataOps
             Sample.keysOps Sample.xmlOps Sample.transforms
             xmlSecKeyDataKeyInfoReferenceId Sample.emptyKey noUri Sample.readCtx).
    left. reflexivity.
  - apply (@keyinfo_reference_needs_uri_and_no_children Sample.registry Sample.dataOps
             Sample.keysOps Sample.xmlOps Sample.transforms
             xmlSecKeyDataKeyInfoReferenceId Sample.emptyKey withChild Sample.readCtx).
    right. vm_compute. discriminate.
Defined.

(** X21.  The document a KeyInfoReference leads to is read as a KeyInfo
    element or not at all.  When its root element is <dsig:KeyInfo/>,
    [xmlSecKeyDataKeyInfoReferenceReadXmlResult] is
    [xmlSecKeyInfoNodeRead] on that root (same status, key and context);
    when the root is anything else, a key-data element a handler is
    registered for included, it returns -1 with key and context
    untouched. *)
Theorem keyinfo_reference_result_must_be_keyinfo
    {registry : KeyDataRegistry} {dataOps : KeyDataOps} {keysOps : KeysOps}
    {xmlOps : XmlTreeOps} :
  forall (typeId : xmlSecKeyDataId) (key : xmlSecKey)
         (octets : list byte) (bufferSize : Z) (ctx : xmlSecKeyInfoCtx)
         (doc : xmlDoc) (root : xmlNode),
    mode ctx = xmlSecKeyInfoModeRead ->
    0 < bufferSize <= INT_MAX ->
    xmlRecoverMemory (Some octets) bufferSize = Some doc ->
    xmlDocGetRootElement doc = Some root ->
    xmlSecKeyDataKeyInfoReferenceReadXmlResult typeId key (Some octets) bufferSize ctx
    = (if xmlSecCheckNodeName root xmlSecNodeKeyInfo xmlSecDSigNs
       then xmlSecKeyInfoNodeRead root key ctx
       else (-1, key, ctx)).
Proof.
  intros typeId key octets bufferSize ctx doc root Hmode [Hpos Hmax] Hparse Hroot.
  unfold xmlSecKeyDataKeyInfoReferenceReadXmlResult.
  replace (0 <? bufferSize) with true by (symmetry; apply Z.ltb_lt; exact Hpos).
  replace (INT_MAX <? bufferSize) with false by (symmetry; apply Z.ltb_ge; exact Hmax).
  rewrite Hmode, Hparse, Hroot. cbn [negb mode_eqb].
  destruct (xmlSecCheckNodeName root xmlSecNodeKeyInfo xmlSecDSigNs); cbn [negb];
    [|reflexivity].
  pose proof (node_read_status root key ctx) as Hs.
  destruct (xmlSecKeyInfoNodeRead root key ctx) as [[ret key'] ctx'].
  unfold status_of in Hs. cbn [fst] in Hs.
  destruct Hs as [-> | ->]; reflexivity.
Qed.

Lemma keyinfo_reference_result_must_be_keyinfo_witness :
  let read octets :=
    xmlSecKeyDataKeyInfoReferenceReadXmlResult (registry := Sample.registry)
      (dataOps := Sample.dataOps) (keysOps := Sample.keysOps) (xmlOps := Sample.xmlOps)
      xmlSecKeyDataIdUnknown Sample.emptyKey (Some octets) 1 Sample.readCtx in
  read [x01] = (-1, Sample.emptyKey, Sample.readCtx) /\
  read [x03]
  = xmlSecKeyInfoNodeRead (registry := Sample.registry) (dataOps := Sample.dataOps)
      (keysOps := Sample.keysOps) (Sample.keyInfo [Sample.keyNameNode "alice"])
      Sample.emptyKey Sample.readCtx.
Proof.
  intros read.
  assert (Hm : mode Sample.readCtx = xmlSecKeyInfoModeRead) by (vm_compute; reflexivity).
  assert (Hs : 0 < 1 <= INT_MAX) by (split; [reflexivity | discriminate]).
  split.
  - exact (@keyinfo_reference_result_must_be_keyinfo Sample.registry Sample.dataOps
             Sample.keysOps Sample.xmlOps None Sample.emptyKey [x01] 1 Sample.readCtx
             Sample.docKeyName (Sample.keyNameNode "alice") Hm Hs eq_refl eq_refl).
  - exact (@keyinfo_reference_result_must_be_keyinfo Sample.registry Sample.dataOps
             Sample.keysOps Sample.xmlOps None Sample.emptyKey [x03] 1 Sample.readCtx
             Sample.docKeyInfo (Sample.keyInfo [Sample.keyNameNode "alice"])
             Hm Hs eq_refl eq_refl).
Defined.

(* ================================================================== *)
(** ** Further properties: <enc:EncryptedKey/> and its relatives *)
(* ================================================================== *)

(** X22.  [xmlSecKeyDataEncryptedKeyXmlWrite] serialises the key before it
    touches anything: when [xmlSecKeyDataBinWrite] fails on the temporary
    context (a fresh context with the user preferences of the caller and a
    key requirement of type "any"), the function returns -1 with the
    template node and the context exactly as they were; no encryption
    context is created or reset and the engine is not called. *)
Theorem encrypted_key_write_fails_cleanly_when_key_is_not_serialised
    {keysOps : KeysOps} {xmlOps : XmlTreeOps} {transforms : TransformEngine}
    {listOps : PtrListOps} {enc : EncEngine} {binWrite : KeyDataBinWriteOps}
    {encWrite : EncWriteEngine} :
  forall (key : xmlSecKey) (node : xmlNode) (ctx fresh dump : xmlSecKeyInfoCtx)
         (value : xmlSecKeyData),
    mode ctx = xmlSecKeyInfoModeWrite ->
    xmlSecKeyIsValid key = true ->
    key_value key = Some value ->
    xmlSecKeyInfoCtxInitialize None = (0, fresh) ->
    xmlSecKeyInfoCtxCopyUserPref fresh ctx = (0, dump) ->
    fst (fst (fst (xmlSecKeyDataBinWrite (kd_id value) key
                     (set_keyReq (set_keyType xmlSecKeyDataTypeAny (keyReq dump)) dump))))
    < 0 ->
    xmlSecKeyDataEncryptedKeyXmlWrite xmlSecKeyDataEncryptedKeyId key node ctx
    = (-1, node, ctx).
Proof.
  intros key node ctx fresh dump value Hmode Hvalid Hvalue Hinit Hcopy Hbin.
  unfold xmlSecKeyDataEncryptedKeyXmlWrite.
  change (id_eqb xmlSecKeyDataEncryptedKeyId xmlSecKeyDataEncryptedKeyId) with true.
  rewrite Hmode, Hvalid, Hinit, Hvalue. cbn [negb mode_eqb Z.ltb Z.compare].
  rewrite Hcopy. cbn [Z.ltb Z.compare].
  destruct (xmlSecKeyDataBinWrite _ _ _) as [[[ret keyBuf] keySize] ctx2].
  cbn [fst] in Hbin.
  destruct (ret <? 0) eqn:L; [reflexivity | apply Z.ltb_ge in L; lia].
Qed.

Lemma encrypted_key_write_fails_cleanly_when_key_is_not_serialised_witness :
  let noMaterial :=
    {| key_name := None; key_value := Sample.rsaValue; key_dataList := [] |} in
  let template := Sample.encElement "EncryptedKey" [] [] in
  xmlSecKeyDataEncryptedKeyXmlWrite (keysOps := Sample.keysOps) (xmlOps := Sample.xmlOps)
    (transforms := Sample.transforms) (listOps := Sample.listOps) (enc := Sample.enc)
    (binWrite := Sample.binWrite) (encWrite := Sample.encWrite)
    xmlSecKeyDataEncryptedKeyId noMaterial template Sample.writeCtx
  = (-1, template, Sample.writeCtx).
Proof.
  intros noMaterial template.
  assert (Hmode : mode Sample.writeCtx = xmlSecKeyInfoModeWrite)
    by (vm_compute; reflexivity).
  assert (Hvalid : xmlSecKeyIsValid noMaterial = true) by reflexivity.
  assert (Hvalue : key_value noMaterial
                   = Some {| kd_id := Some Sample.rsaKlass; kd_material := [] |})
    by reflexivity.
  assert (Hinit : xmlSecKeyInfoCtxInitialize (keysOps := Sample.keysOps)
                    (xmlOps := Sample.xmlOps) (transforms := Sample.transforms)
                    (listOps := Sample.listOps) None = (0, Sample.readCtx))
    by (vm_compute; reflexivity).
  assert (Hcopy : xmlSecKeyInfoCtxCopyUserPref (transforms := Sample.transforms)
                    (listOps := Sample.listOps) (enc := Sample.enc)
                    Sample.readCtx Sample.writeCtx = (0, Sample.readCtx))
    by (vm_compute; reflexivity).
  assert (Hbin : fst (fst (fst (xmlSecKeyDataBinWrite (KeyDataBinWriteOps := Sample.binWrite)
                                  (Some Sample.rsaKlass) noMaterial
                                  (set_keyReq
                                     (set_keyType xmlSecKeyDataTypeAny
                                        (keyReq Sample.readCtx)) Sample.readCtx)))) < 0)
    by (vm_compute; reflexivity).
  exact (@encrypted_key_write_fails_cleanly_when_key_is_not_serialised Sample.keysOps
           Sample.xmlOps Sample.transforms Sample.listOps Sample.enc Sample.binWrite
           Sample.encWrite noMaterial template Sample.writeCtx Sample.readCtx
           Sample.readCtx _ Hmode Hvalid Hvalue Hinit Hcopy Hbin).
Defined.

Section Transient.

Context {transforms : TransformEngine} {listOps : PtrListOps} {enc : EncEngine}.
Variables (req : xmlSecKeyReq) (rm kir ek : Z).

(** The preference copy, the creation of the encryption context and the
    common opening of the handlers read neither the key requirement nor the
    level counters of the context they work for, and leave them alone. *)
Lemma copy_user_pref_from_transient dst src :
  xmlSecKeyInfoCtxCopyUserPref dst (with_transient_state req rm kir ek src)
  = xmlSecKeyInfoCtxCopyUserPref dst src.
Proof. destruct src; reflexivity. Qed.

Lemma set_encCtx_transient e ctx :
  set_encCtx e (with_transient_state req rm kir ek ctx)
  = with_transient_state req rm kir ek (set_encCtx e ctx).
Proof. destruct ctx; reflexivity. Qed.

Lemma encCtx_transient ctx :
  encCtx (with_transient_state req rm kir ek ctx) = encCtx ctx.
Proof. destruct ctx; reflexivity. Qed.

Lemma createEncCtx_transient ctx :
  xmlSecKeyInfoCtxCreateEncCtx (with_transient_state req rm kir ek ctx)
  = (fst (xmlSecKeyInfoCtxCreateEncCtx ctx),
     with_transient_state req rm kir ek (snd (xmlSecKeyInfoCtxCreateEncCtx ctx))).
Proof.
  unfold xmlSecKeyInfoCtxCreateEncCtx. rewrite encCtx_transient.
  replace (keysMngr (with_transient_state req rm kir ek ctx)) with (keysMngr ctx)
    by (destruct ctx; reflexivity).
  replace (mode (with_transient_state req rm kir ek ctx)) with (mode ctx)
    by (destruct ctx; reflexivity).
  replace (operation (with_transient_state req rm kir ek ctx)) with (operation ctx)
    by (destruct ctx; reflexivity).
  destruct (encCtx ctx); [reflexivity|].
  destruct (xmlSecEncCtxCreate (keysMngr ctx)) as [tmp|]; [|reflexivity].
  cbv zeta. rewrite !copy_user_pref_from_transient.
  destruct (mode ctx);
    destruct (xmlSecKeyInfoCtxCopyUserPref _ ctx) as [r c];
    destruct (r <? 0); cbn [fst snd]; rewrite ?set_encCtx_transient; reflexivity.
Qed.

Lemma initEncCtxAndCopyPrefs_transient ctx :
  initEncCtxAndCopyPrefs (with_transient_state req rm kir ek ctx)
  = (fst (initEncCtxAndCopyPrefs ctx),
     with_transient_state req rm kir ek (snd (initEncCtxAndCopyPrefs ctx))).
Proof.
  unfold initEncCtxAndCopyPrefs. rewrite encCtx_transient.
  destruct (encCtx ctx) as [e0|].
  - rewrite set_encCtx_transient. cbv beta iota. cbn [Z.ltb Z.compare].
    rewrite encCtx_transient.
    destruct (encCtx (set_encCtx (Some (xmlSecEncCtxReset e0)) ctx)) as [e|];
      [|reflexivity].
    rewrite copy_user_pref_from_transient.
    destruct (xmlSecKeyInfoCtxCopyUserPref (keyInfoReadCtx e) _) as [r1 c1].
    rewrite !set_encCtx_transient.
    destruct (r1 <? 0); [reflexivity|].
    rewrite copy_user_pref_from_transient.
    destruct (xmlSecKeyInfoCtxCopyUserPref (keyInfoWriteCtx _) _) as [r2 c2].
    rewrite !set_encCtx_transient.
    destruct (r2 <? 0); reflexivity.
  - rewrite createEncCtx_transient.
    destruct (xmlSecKeyInfoCtxCreateEncCtx ctx) as [ret c0]. cbn [fst snd].
    destruct (ret <? 0); [reflexivity|]. rewrite encCtx_transient.
    destruct (encCtx c0) as [e|]; [|reflexivity].
    rewrite copy_user_pref_from_transient.
    destruct (xmlSecKeyInfoCtxCopyUserPref (keyInfoReadCtx e) _) as [r1 c1].
    rewrite !set_encCtx_transient.
    destruct (r1 <? 0); [reflexivity|].
    rewrite copy_user_pref_from_transient.
    destruct (xmlSecKeyInfoCtxCopyUserPref (keyInfoWriteCtx _) _) as [r2 c2].
    rewrite !set_encCtx_transient.
    destruct (r2 <? 0); reflexivity.
Qed.

End Transient.

(** X23.  [xmlSecKeyDataEncryptedKeyXmlWrite] reads neither the key
    requirement of its context nor any of the three level counters, and
    leaves them as they are: with another requirement and other counters
    the status and the node returned are the same, and the context returned
    is the same but for that requirement and those counters.  In
    particular the write side of EncryptedKey is not bounded by
    [maxEncryptedKeyLevel] and is not subject to the key requirement. *)
Theorem encrypted_key_write_ignores_requirement_and_levels
    {keysOps : KeysOps} {xmlOps : XmlTreeOps} {transforms : TransformEngine}
    {listOps : PtrListOps} {enc : EncEngine} {binWrite : KeyDataBinWriteOps}
    {encWrite : EncWriteEngine} :
  forall (id : xmlSecKeyDataId) (key : xmlSecKey) (node : xmlNode)
         (ctx : xmlSecKeyInfoCtx) (req : xmlSecKeyReq) (rm kir ek : Z),
    let w := xmlSecKeyDataEncryptedKeyXmlWrite id key node ctx in
    xmlSecKeyDataEncryptedKeyXmlWrite id key node (with_transient_state req rm kir ek ctx)
    = (status_of w, node_of w, with_transient_state req rm kir ek (ctx_of w)).
Proof.
  intros id key node ctx req rm kir ek w. subst w.
  unfold xmlSecKeyDataEncryptedKeyXmlWrite, status_of, node_of, ctx_of.
  replace (mode (with_transient_state req rm kir ek ctx)) with (mode ctx)
    by (destruct ctx; reflexivity).
  destruct (negb (id_eqb id xmlSecKeyDataEncryptedKeyId)); [reflexivity|].
  destruct (negb (xmlSecKeyIsValid key)); [reflexivity|].
  destruct (negb (mode_eqb (mode ctx) xmlSecKeyInfoModeWrite)); [reflexivity|].
  destruct (xmlSecKeyInfoCtxInitialize None) as [r0 c0].
  destruct (r0 <? 0); [reflexivity|].
  rewrite copy_user_pref_from_transient.
  destruct (xmlSecKeyInfoCtxCopyUserPref c0 ctx) as [r1 c1].
  destruct (r1 <? 0); [reflexivity|].
  destruct (xmlSecKeyDataBinWrite _ _ _) as [[[r2 keyBuf] keySize] c2].
  destruct (r2 <? 0); [reflexivity|].
  cbv zeta. rewrite initEncCtxAndCopyPrefs_transient.
  destruct (initEncCtxAndCopyPrefs ctx) as [r3 c3]. cbn [fst snd].
  destruct (r3 <? 0); [reflexivity|]. rewrite encCtx_transient.
  destruct (encCtx c3) as [e|]; [|reflexivity].
  destruct (xmlSecEncCtxBinaryEncrypt e node keyBuf keySize) as [[r4 node'] e'].
  rewrite set_encCtx_transient.
  destruct (r4 <? 0); reflexivity.
Qed.

(** X24.  In [xmlSecKeyDataDerivedKeyXmlRead] and
    [xmlSecKeyDataAgreementMethodXmlRead] a key the engine generated is
    used only if it satisfies the key requirement: when
    [xmlSecKeyReqMatchKey] gives 1 the caller's key becomes the generated
    key, otherwise the generated key is dropped and the caller's key is
    kept; the handler returns 0 either way. *)
Theorem generated_key_is_used_only_if_it_matches
    {keysOps : KeysOps} {transforms : TransformEngine} {listOps : PtrListOps}
    {enc : EncEngine} :
  forall (key generated : xmlSecKey) (node : xmlNode) (ctx ctx1 ctx2 : xmlSecKeyInfoCtx),
    mode ctx = xmlSecKeyInfoModeRead ->
    curEncryptedKeyLevel ctx < maxEncryptedKeyLevel ctx ->
    initEncCtxAndCopyPrefs ctx = (0, ctx1) ->
    (xmlSecEncCtxDerivedKeyGenerate (keyId (keyReq ctx1)) node
       (set_curEncryptedKeyLevel (curEncryptedKeyLevel ctx1 + 1) ctx1)
     = (Some generated, ctx2) ->
     let r := xmlSecKeyDataDerivedKeyXmlRead xmlSecKeyDataDerivedKeyId key node ctx in
     status_of r = 0 /\
     key_of r = (if xmlSecKeyReqMatchKey (keyReq ctx2) generated =? 1
                 then generated else key)) /\
    (xmlSecEncCtxAgreementMethodGenerate (keyId (keyReq ctx1)) node
       (set_curEncryptedKeyLevel (curEncryptedKeyLevel ctx1 + 1) ctx1)
     = (Some generated, ctx2) ->
     let r :=
       xmlSecKeyDataAgreementMethodXmlRead xmlSecKeyDataAgreementMethodId key node ctx in
     status_of r = 0 /\
     key_of r = (if xmlSecKeyReqMatchKey (keyReq ctx2) generated =? 1
                 then generated else key)).
Proof.
  intros key generated node ctx ctx1 ctx2 Hmode Hlevel Hinit.
  destruct (initEncCtxAndCopyPrefs_success ctx ctx1 Hinit) as (e & He & _).
  assert (Henc : encCtx ctx1 = Some e) by (rewrite He; destruct ctx; reflexivity).
  split; intros Hgen r; subst r.
  - unfold xmlSecKeyDataDerivedKeyXmlRead.
    change (id_eqb xmlSecKeyDataDerivedKeyId xmlSecKeyDataDerivedKeyId) with true.
    rewrite Hmode. cbn [negb mode_eqb].
    replace (maxEncryptedKeyLevel ctx <=? curEncryptedKeyLevel ctx) with false
      by (symmetry; apply Z.leb_gt; exact Hlevel).
    rewrite Hinit. cbn [Z.ltb Z.compare]. rewrite Henc.
    cbv beta iota zeta. ctx_simpl. rewrite Hgen. ctx_simpl. unfold xmlSecKeyCopy.
    destruct (xmlSecKeyReqMatchKey (keyReq ctx2) generated =? 1);
      cbn [negb Z.ltb Z.compare]; split; reflexivity.
  - unfold xmlSecKeyDataAgreementMethodXmlRead.
    change (id_eqb xmlSecKeyDataAgreementMethodId xmlSecKeyDataAgreementMethodId) with true.
    rewrite Hmode. cbn [negb mode_eqb].
    replace (maxEncryptedKeyLevel ctx <=? curEncryptedKeyLevel ctx) with false
      by (symmetry; apply Z.leb_gt; exact Hlevel).
    rewrite Hinit. cbn [Z.ltb Z.compare]. rewrite Henc.
    cbv beta iota zeta. ctx_simpl. rewrite Hgen. ctx_simpl. unfold xmlSecKeyCopy.
    destruct (xmlSecKeyReqMatchKey (keyReq ctx2) generated =? 1);
      cbn [negb Z.ltb Z.compare]; split; reflexivity.
Qed.

Lemma generated_key_is_used_only_if_it_matches_witness :
  let forMe := XmlElement "DerivedKey" (Some xmlSecEnc11Ns) [("Recipient", "me")] [] in
  let wantRsa :=
    set_keyReq {| keyId := Some Sample.rsaKlass; keyType := 0; keyUsage := 0;
                  keyBitsSize := 0 |} Sample.readCtx in
  let derived ctx :=
    xmlSecKeyDataDerivedKeyXmlRead (keysOps := Sample.keysOps)
      (transforms := Sample.transforms) (listOps := Sample.listOps) (enc := Sample.enc)
      xmlSecKeyDataDerivedKeyId Sample.emptyKey forMe ctx in
  status_of (derived wantRsa) = 0 /\
  key_of (derived wantRsa) = Sample.sessionKey (Some Sample.rsaKlass).
Proof.
  intros forMe wantRsa derived.
  pose (ctx1 := snd (initEncCtxAndCopyPrefs (transforms := Sample.transforms)
                       (listOps := Sample.listOps) (enc := Sample.enc) wantRsa)).
  assert (Hmode : mode wantRsa = xmlSecKeyInfoModeRead) by (vm_compute; reflexivity).
  assert (Hlevel : curEncryptedKeyLevel wantRsa < maxEncryptedKeyLevel wantRsa)
    by (vm_compute; reflexivity).
  assert (Hinit : initEncCtxAndCopyPrefs (transforms := Sample.transforms)
                    (listOps := Sample.listOps) (enc := Sample.enc) wantRsa
                  = (0, ctx1)) by (vm_compute; reflexivity).
  assert (Hgen : xmlSecEncCtxDerivedKeyGenerate (EncEngine := Sample.enc)
                   (keyId (keyReq ctx1)) forMe
                   (set_curEncryptedKeyLevel (curEncryptedKeyLevel ctx1 + 1) ctx1)
                 = (Some (Sample.sessionKey (Some Sample.rsaKlass)),
                    set_curEncryptedKeyLevel (curEncryptedKeyLevel ctx1 + 1) ctx1))
    by (vm_compute; reflexivity).
  pose proof (proj1 (@generated_key_is_used_only_if_it_matches Sample.keysOps
                       Sample.transforms Sample.listOps Sample.enc Sample.emptyKey
                       _ forMe wantRsa ctx1 _ Hmode Hlevel Hinit) Hgen) as [Hs Hk].
  split; [exact Hs|].
  etransitivity; [exact Hk|]. vm_compute. reflexivity.
Defined.

(* ================================================================== *)
(** ** Further properties: modes, templates, failures *)
(* ================================================================== *)

(** The first test that fails returns at once. *)
Ltac refuse_mode :=
  ctx_simpl; cbn [mode_eqb negb];
  repeat lazymatch goal with
         | |- match ?x with _ => _ end = _ => destruct x; try reflexivity
         end;
  try reflexivity.

(** X25.  No read function works on a context in write mode: the read
    driver, the seven read handlers and the two result readers return -1
    with the key and the context untouched, whatever the id, the node and
    the buffer. *)
Theorem read_functions_refuse_a_write_context
    {registry : KeyDataRegistry} {dataOps : KeyDataOps} {keysOps : KeysOps}
    {xmlOps : XmlTreeOps} {transforms : TransformEngine}
    {listOps : PtrListOps} {enc : EncEngine} :
  forall (id : xmlSecKeyDataId) (key : xmlSecKey) (node : xmlNode)
         (buffer : option (list byte)) (bufferSize : Z) (ctx : xmlSecKeyInfoCtx),
    let wctx := set_mode xmlSecKeyInfoModeWrite ctx in
    xmlSecKeyInfoNodeRead node key wctx = (-1, key, wctx) /\
    xmlSecKeyDataNameXmlRead id key node wctx = (-1, key, wctx) /\
    xmlSecKeyDataValueXmlRead id key node wctx = (-1, key, wctx) /\
    xmlSecKeyDataRetrievalMethodXmlRead id key node wctx = (-1, key, wctx) /\
    xmlSecKeyDataRetrievalMethodReadXmlResult id key buffer bufferSize wctx
    = (-1, key, wctx) /\
    xmlSecKeyDataKeyInfoReferenceXmlRead id key node wctx = (-1, key, wctx) /\
    xmlSecKeyDataKeyInfoReferenceReadXmlResult id key buffer bufferSize wctx
    = (-1, key, wctx) /\
    xmlSecKeyDataEncryptedKeyXmlRead id key node wctx = (-1, key, wctx) /\
    xmlSecKeyDataDerivedKeyXmlRead id key node wctx = (-1, key, wctx) /\
    xmlSecKeyDataAgreementMethodXmlRead id key node wctx = (-1, key, wctx).
Proof.
  intros id key node buffer bufferSize ctx wctx. subst wctx.
  repeat match goal with |- _ /\ _ => split end.
  - unfold xmlSecKeyInfoNodeRead. refuse_mode.
  - unfold xmlSecKeyDataNameXmlRead. refuse_mode.
  - unfold xmlSecKeyDataValueXmlRead. refuse_mode.
  - unfold xmlSecKeyDataRetrievalMethodXmlRead. refuse_mode.
  - unfold xmlSecKeyDataRetrievalMethodReadXmlResult. refuse_mode.
  - unfold xmlSecKeyDataKeyInfoReferenceXmlRead. refuse_mode.
  - unfold xmlSecKeyDataKeyInfoReferenceReadXmlResult. refuse_mode.
  - unfold xmlSecKeyDataEncryptedKeyXmlRead. refuse_mode.
  - unfold xmlSecKeyDataDerivedKeyXmlRead. refuse_mode.
  - unfold xmlSecKeyDataAgreementMethodXmlRead. refuse_mode.
Qed.

(** X26.  No write function works on a context in read mode: the write
    driver and the seven write handlers return -1 with the node and the
    context untouched, whatever the id and the key. *)
Theorem write_functions_refuse_a_read_context
    {registry : KeyDataRegistry} {dataOps : KeyDataOps} {keysOps : KeysOps}
    {xmlOps : XmlTreeOps} {transforms : TransformEngine}
    {listOps : PtrListOps} {enc : EncEngine} {binWrite : KeyDataBinWriteOps}
    {xmlBuild : XmlBuildOps} {encWrite : EncWriteEngine} :
  forall (id : xmlSecKeyDataId) (key : xmlSecKey) (node : xmlNode)
         (ctx : xmlSecKeyInfoCtx),
    let rctx := set_mode xmlSecKeyInfoModeRead ctx in
    xmlSecKeyInfoNodeWrite node key rctx = (-1, node, rctx) /\
    xmlSecKeyDataNameXmlWrite id key node rctx = (-1, node, rctx) /\
    xmlSecKeyDataValueXmlWrite id key node rctx = (-1, node, rctx) /\
    xmlSecKeyDataRetrievalMethodXmlWrite id key node rctx = (-1, node, rctx) /\
    xmlSecKeyDataKeyInfoReferenceXmlWrite id key node rctx = (-1, node, rctx) /\
    xmlSecKeyDataEncryptedKeyXmlWrite id key node rctx = (-1, node, rctx) /\
    xmlSecKeyDataDerivedKeyXmlWrite id key node rctx = (-1, node, rctx) /\
    xmlSecKeyDataAgreementMethodXmlWrite id key node rctx = (-1, node, rctx).
Proof.
  intros id key node ctx rctx. subst rctx.
  repeat match goal with |- _ /\ _ => split end.
  - unfold xmlSecKeyInfoNodeWrite. refuse_mode.
  - unfold xmlSecKeyDataNameXmlWrite. refuse_mode.
  - unfold xmlSecKeyDataValueXmlWrite. refuse_mode.
  - unfold xmlSecKeyDataRetrievalMethodXmlWrite. refuse_mode.
  - unfold xmlSecKeyDataKeyInfoReferenceXmlWrite. refuse_mode.
  - unfold xmlSecKeyDataEncryptedKeyXmlWrite. refuse_mode.
  - unfold xmlSecKeyDataDerivedKeyXmlWrite. refuse_mode.
  - unfold xmlSecKeyDataAgreementMethodXmlWrite. refuse_mode.
Qed.

(* ------------------------------------------------------------------------- *)
(** *** Templates and the drivers' own failures *)

Section TemplateOnly.

Context {registry : KeyDataRegistry} {keysOps : KeysOps} {xmlOps : XmlTreeOps}
        {transforms : TransformEngine} {listOps : PtrListOps} {enc : EncEngine}
        {binWrite : KeyDataBinWriteOps} {xmlBuild : XmlBuildOps}
        {encWrite : EncWriteEngine}.
Variable ext : KeyDataOps.

Lemma same_id_same_name k a b :
  id_eqb (Some k) (Some a) = true -> id_eqb (Some k) (Some b) = true ->
  klassName a = klassName b.
Proof.
  unfold id_eqb, klass_eqb. intros Ha Hb.
  destruct (String.eqb (klassName k) (klassName a)) eqn:Na; [|discriminate].
  destruct (String.eqb (klassName k) (klassName b)) eqn:Nb; [|discriminate].
  apply String.eqb_eq in Na, Nb. congruence.
Qed.

Lemma template_only_write depth id key n ctx :
  written_from_template_only id = true ->
  mode ctx = xmlSecKeyInfoModeWrite ->
  xmlSecKeyIsValid key = true ->
  xmlSecKeyDataXmlWrite (KeyDataOps := keyinfoDataOps ext (S depth)) id key n ctx
  = (0, n, ctx).
Proof.
  intros Hid Hmode Hvalid.
  unfold written_from_template_only in Hid.
  cbn [keyinfoDataOps xmlSecKeyDataXmlWrite].
  destruct id as [k|]; [|discriminate].
  assert (Hother : forall other,
             klassName other <> klassName xmlSecKeyDataRetrievalMethodKlass ->
             klassName other <> klassName xmlSecKeyDataKeyInfoReferenceKlass ->
             klassName other <> klassName xmlSecKeyDataDerivedKeyKlass ->
             id_eqb (Some k) (Some other) = false).
  { intros other H1 H2 H3.
    destruct (id_eqb (Some k) (Some other)) eqn:E; [exfalso|reflexivity].
    apply orb_true_iff in Hid. destruct Hid as [Hid|Hid];
      [apply orb_true_iff in Hid; destruct Hid as [Hid|Hid]|].
    - apply H1. exact (same_id_same_name k _ _ E Hid).
    - apply H2. exact (same_id_same_name k _ _ E Hid).
    - apply H3. exact (same_id_same_name k _ _ E Hid). }
  unfold xmlSecKeyDataNameId, xmlSecKeyDataValueId, xmlSecKeyDataEncryptedKeyId at 1.
  rewrite (Hother xmlSecKeyDataNameKlass) by (vm_compute; discriminate).
  rewrite (Hother xmlSecKeyDataValueKlass) by (vm_compute; discriminate).
  destruct (id_eqb (Some k) xmlSecKeyDataRetrievalMethodId) eqn:E2.
  { unfold xmlSecKeyDataRetrievalMethodXmlWrite. rewrite E2, Hmode. reflexivity. }
  destruct (id_eqb (Some k) xmlSecKeyDataKeyInfoReferenceId) eqn:E3.
  { unfold xmlSecKeyDataKeyInfoReferenceXmlWrite. rewrite E3, Hmode. reflexivity. }
  rewrite (Hother xmlSecKeyDataEncryptedKeyKlass) by (vm_compute; discriminate).
  destruct (id_eqb (Some k) xmlSecKeyDataDerivedKeyId) eqn:E4; [|discriminate].
  unfold xmlSecKeyDataDerivedKeyXmlWrite. rewrite E4, Hmode, Hvalid. reflexivity.
Qed.

Lemma template_only_write_loop depth key ctx cur :
  mode ctx = xmlSecKeyInfoModeWrite ->
  xmlSecKeyIsValid key = true ->
  Forall (fun n => isElementNode n = true ->
            written_from_template_only
              (find_by_node ctx n xmlSecKeyDataUsageKeyInfoNodeWrite) = true) cur ->
  xmlSecKeyInfoNodeWrite_loop (dataOps := keyinfoDataOps ext (S depth)) cur key ctx
  = (0, cur, ctx).
Proof.
  intros Hmode Hvalid Hall.
  induction Hall as [|n next Hn Hall IH]; [reflexivity|].
  cbn [xmlSecKeyInfoNodeWrite_loop].
  destruct (isElementNode n) eqn:He; cbn [negb].
  - specialize (Hn eq_refl). rewrite site_lookup_by_node.
    destruct (find_by_node ctx n xmlSecKeyDataUsageKeyInfoNodeWrite) as [k|] eqn:Ek;
      [|discriminate].
    rewrite (template_only_write depth (Some k) key n ctx Hn Hmode Hvalid).
    cbn [Z.ltb Z.compare]. rewrite IH. reflexivity.
  - rewrite IH. reflexivity.
Qed.

End TemplateOnly.

(** X27.  [xmlSecKeyInfoNodeWrite] over a template whose element children all
    resolve to RetrievalMethod, KeyInfoReference or DerivedKey: in write mode
    and with a valid key the call returns 0 and hands back the template and
    the context exactly as they were given; these three children are never
    filled in from the key. *)
Theorem template_only_children_are_left_alone
    {registry : KeyDataRegistry} {keysOps : KeysOps} {xmlOps : XmlTreeOps}
    {transforms : TransformEngine} {listOps : PtrListOps} {enc : EncEngine}
    {binWrite : KeyDataBinWriteOps} {xmlBuild : XmlBuildOps}
    {encWrite : EncWriteEngine} (ext : KeyDataOps) :
  forall (depth : nat) (keyInfoNode : xmlNode) (key : xmlSecKey)
         (ctx : xmlSecKeyInfoCtx),
    mode ctx = xmlSecKeyInfoModeWrite ->
    xmlSecKeyIsValid key = true ->
    Forall (fun n => isElementNode n = true ->
              written_from_template_only
                (find_by_node ctx n xmlSecKeyDataUsageKeyInfoNodeWrite) = true)
           (node_children keyInfoNode) ->
    xmlSecKeyInfoNodeWrite (dataOps := keyinfoDataOps ext (S depth)) keyInfoNode key ctx
    = (0, keyInfoNode, ctx).
Proof.
  intros depth keyInfoNode key ctx Hmode Hvalid Hall.
  unfold xmlSecKeyInfoNodeWrite. rewrite Hmode. cbn [mode_eqb negb].
  rewrite (template_only_write_loop ext depth key ctx _ Hmode Hvalid Hall).
  rewrite set_node_children_same. reflexivity.
Qed.

Lemma template_only_children_are_left_alone_witness :
  let template :=
    Sample.keyInfo
      [Sample.dsElement "RetrievalMethod" [("URI", "#rsa")] [];
       XmlText "between";
       XmlElement "KeyInfoReference" (Some xmlSecDSig11Ns) [("URI", "#keyinfo")] [];
       XmlElement "DerivedKey" (Some xmlSecEnc11Ns) [] [XmlText "parameters"]] in
  xmlSecKeyInfoNodeWrite (registry := Sample.registry) (dataOps := Sample.dataOps)
    template Sample.rsaKey Sample.writeCtx
  = (0, template, Sample.writeCtx).
Proof.
  intros template.
  assert (Hmode : mode Sample.writeCtx = xmlSecKeyInfoModeWrite)
    by (vm_compute; reflexivity).
  assert (Hvalid : xmlSecKeyIsValid Sample.rsaKey = true) by reflexivity.
  assert (Hall : Forall (fun n => isElementNode n = true ->
                     written_from_template_only
                       (find_by_node (registry := Sample.registry) Sample.writeCtx n
                          xmlSecKeyDataUsageKeyInfoNodeWrite) = true)
                   (node_children template)).
  { subst template. cbn [Sample.keyInfo node_children].
    repeat (apply Forall_cons; [intros He; first [discriminate He | vm_compute; reflexivity]|]).
    apply Forall_nil. }
  exact (@template_only_children_are_left_alone Sample.registry Sample.keysOps
           Sample.xmlOps Sample.transforms Sample.listOps Sample.enc Sample.binWrite
           Sample.xmlBuild Sample.encWrite Sample.externalOps
           3%nat template Sample.rsaKey Sample.writeCtx Hmode Hvalid Hall).
Defined.

Section NoFailure.

Context {registry : KeyDataRegistry} {dataOps : KeyDataOps} {keysOps : KeysOps}.

Lemma read_loop_succeeds
    (Hok : forall id k n c, 0 <= status_of (xmlSecKeyDataXmlRead id k n c))
    (Hflags : forall id k n c, flags (ctx_of (xmlSecKeyDataXmlRead id k n c)) = flags c)
    cur : forall key ctx,
  flag_is_set (flags ctx) XMLSEC_KEYINFO_FLAGS_STOP_ON_UNKNOWN_CHILD = false ->
  status_of (xmlSecKeyInfoNodeRead_loop cur key ctx) = 0.
Proof.
  induction cur as [|n next IH]; intros key ctx Hlax; [reflexivity|].
  cbn [xmlSecKeyInfoNodeRead_loop].
  destruct (negb (isElementNode n)); [apply IH; exact Hlax|].
  destruct (_ || _ || _); [|reflexivity].
  destruct (if 0 <? _ then _ else _) as [k|].
  - pose proof (Hok (Some k) key n ctx) as H1.
    pose proof (Hflags (Some k) key n ctx) as H2.
    destruct (xmlSecKeyDataXmlRead (Some k) key n ctx) as [[ret key'] ctx'].
    unfold status_of, ctx_of in H1, H2. cbn [fst snd] in H1, H2.
    destruct (ret <? 0) eqn:L; [apply Z.ltb_lt in L; lia|].
    apply IH. rewrite H2. exact Hlax.
  - rewrite Hlax. apply IH. exact Hlax.
Qed.

Lemma write_loop_succeeds
    (Hok : forall id k n c, 0 <= status_of (xmlSecKeyDataXmlWrite id k n c))
    (Hflags : forall id k n c, flags (ctx_of (xmlSecKeyDataXmlWrite id k n c)) = flags c)
    cur : forall key ctx,
  flag_is_set (flags ctx) XMLSEC_KEYINFO_FLAGS_STOP_ON_UNKNOWN_CHILD = false ->
  status_of (xmlSecKeyInfoNodeWrite_loop cur key ctx) = 0.
Proof.
  induction cur as [|n next IH]; intros key ctx Hlax; [reflexivity|].
  cbn [xmlSecKeyInfoNodeWrite_loop].
  destruct (negb (isElementNode n)).
  - specialize (IH key ctx Hlax).
    destruct (xmlSecKeyInfoNodeWrite_loop next key ctx) as [[res next'] ctx'].
    exact IH.
  - destruct (if 0 <? _ then _ else _) as [k|].
    + pose proof (Hok (Some k) key n ctx) as H1.
      pose proof (Hflags (Some k) key n ctx) as H2.
      destruct (xmlSecKeyDataXmlWrite (Some k) key n ctx) as [[ret n'] ctx'].
      unfold status_of, ctx_of in H1, H2. cbn [fst snd] in H1, H2.
      destruct (ret <? 0) eqn:L; [apply Z.ltb_lt in L; lia|].
      assert (Hlax' : flag_is_set (flags ctx') XMLSEC_KEYINFO_FLAGS_STOP_ON_UNKNOWN_CHILD
                      = false) by (rewrite H2; exact Hlax).
      specialize (IH key ctx' Hlax').
      destruct (xmlSecKeyInfoNodeWrite_loop next key ctx') as [[res next'] ctx''].
      exact IH.
    + rewrite Hlax.
      specialize (IH key ctx Hlax).
      destruct (xmlSecKeyInfoNodeWrite_loop next key ctx) as [[res next'] ctx'].
      exact IH.
Qed.

End NoFailure.



(* ================================================================== *)
(** ** The scenarios of the specification, run on the sample library *)
(* ================================================================== *)

Section Scenarios.

#[local] Existing Instance Sample.registry.
#[local] Existing Instance Sample.dataOps.
#[local] Existing Instance Sample.keysOps.
#[local] Existing Instance Sample.xmlOps.
#[local] Existing Instance Sample.transforms.
#[local] Existing Instance Sample.listOps.
#[local] Existing Instance Sample.enc.

(** S1: a KeyName the keys manager knows. *)
Example scenario_keyname_found_in_manager :
  let ctx := set_keysMngr (Some [("alice", Sample.rsaKey)]) Sample.readCtx in
  xmlSecKeyInfoNodeRead (Sample.keyInfo [Sample.keyNameNode "alice"]) Sample.emptyKey ctx
  = (0, {| key_name := Some "alice"; key_value := key_value Sample.rsaKey;
           key_dataList := [] |}, ctx).
Proof. vm_compute. reflexivity. Qed.

(** S2: a KeyName without keys manager; the text is trimmed. *)
Example scenario_keyname_without_manager :
  xmlSecKeyInfoNodeRead (Sample.keyInfo [Sample.keyNameNode "   bob   "])
    Sample.emptyKey Sample.readCtx
  = (0, {| key_name := Some "bob"; key_value := None; key_dataList := [] |},
     Sample.readCtx).
Proof. vm_compute. reflexivity. Qed.

(** S3: a RetrievalMethod whose type matches the fetched document; the
    retrieval counter is back at 0 on exit. *)
Example scenario_retrieval_method :
  let r :=
    xmlSecKeyInfoNodeRead
      (Sample.keyInfo [Sample.dsElement "RetrievalMethod"
                  [("URI", "#rsa"); ("Type", Sample.rsaType)] []])
      Sample.emptyKey Sample.readCtx in
  status_of r = 0 /\ key_value (key_of r) = Sample.rsaValue /\
  curRetrievalMethodLevel (ctx_of r) = 0.
Proof. vm_compute. repeat split. Qed.

(** S4: the declared type differs from the type of the fetched document. *)
Example scenario_retrieval_type_mismatch :
  let node :=
    Sample.keyInfo [Sample.dsElement "RetrievalMethod"
               [("URI", "#rsa"); ("Type", xmlSecHrefEncryptedKey)] []] in
  let strict :=
    set_flags XMLSEC_KEYINFO_FLAGS_RETRMETHOD_STOP_ON_MISMATCH_HREF Sample.readCtx in
  status_of (xmlSecKeyInfoNodeRead node Sample.emptyKey strict) = -1 /\
  status_of (xmlSecKeyInfoNodeRead node Sample.emptyKey Sample.readCtx) = 0 /\
  key_value (key_of (xmlSecKeyInfoNodeRead node Sample.emptyKey Sample.readCtx))
  = Sample.rsaValue.
Proof. vm_compute. repeat split. Qed.

(** S5: a RetrievalMethod that leads to another RetrievalMethod, with the
    default bound of 1: the inner hop is refused. *)
Example scenario_retrieval_chain :
  let node :=
    Sample.keyInfo [Sample.dsElement "RetrievalMethod"
               [("URI", "#chain"); ("Type", Sample.rsaType)] []] in
  status_of (xmlSecKeyInfoNodeRead node Sample.emptyKey Sample.readCtx) = -1 /\
  status_of (xmlSecKeyInfoNodeRead node Sample.emptyKey
               (set_maxRetrievalMethodLevel 2 Sample.readCtx)) = 0.
Proof. vm_compute. repeat split. Qed.

(** S6: two EncryptedKey elements, the first for another recipient. *)
Example scenario_two_encrypted_keys :
  let node :=
    Sample.keyInfo [Sample.encElement "EncryptedKey" [("Recipient", "you")] [];
             Sample.encElement "EncryptedKey" [("Recipient", "me")] []] in
  let wantAes :=
    set_keyReq {| keyId := Some Sample.aesKlass; keyType := 0; keyUsage := 0;
                  keyBitsSize := 0 |} Sample.readCtx in
  let strict :=
    set_flags XMLSEC_KEYINFO_FLAGS_ENCKEY_DONT_STOP_ON_FAILED_DECRYPTION wantAes in
  status_of (xmlSecKeyInfoNodeRead node Sample.emptyKey wantAes) = 0 /\
  xmlSecKeyIsValid (key_of (xmlSecKeyInfoNodeRead node Sample.emptyKey wantAes)) = true /\
  status_of (xmlSecKeyInfoNodeRead node Sample.emptyKey strict) = -1.
Proof. vm_compute. repeat split. Qed.

(** A KeyInfoReference to a KeyInfo element holding a KeyName. *)
Example scenario_keyinfo_reference :
  let r :=
    xmlSecKeyInfoNodeRead
      (Sample.keyInfo [XmlElement "KeyInfoReference" (Some xmlSecDSig11Ns)
                  [("URI", "#keyinfo")] []])
      Sample.emptyKey Sample.readCtx in
  status_of r = 0 /\ key_name (key_of r) = Some "alice" /\
  curKeyInfoReferenceLevel (ctx_of r) = 0.
Proof. vm_compute. repeat split. Qed.

(** Writing a template with a KeyName child and a key-value child. *)
Example scenario_write_template :
  let named :=
    {| key_name := Some "alice"; key_value := key_value Sample.rsaKey;
       key_dataList := [] |} in
  let template :=
    Sample.keyInfo [Sample.dsElement "KeyName" [] []; Sample.dsElement "RSAKeyValue" [] []] in
  xmlSecKeyInfoNodeWrite template named Sample.writeCtx
  = (0,
     Sample.keyInfo [Sample.dsElement "KeyName" [] [XmlText "alice"];
              Sample.dsElement "RSAKeyValue" [] [XmlText "key material"]],
     Sample.writeCtx).
Proof. vm_compute. reflexivity. Qed.

End Scenarios.
